(** * WeatherBot-Persian: the local cache and fetch-orchestration layer

    A shallow embedding of [Storage], [FetchWorker] and the fetch handlers of
    [WeatherApp] from [weather_bot_pyside6_v700.py], and the properties of
    the cache, the history and favourites lists and the cache-or-fetch
    decision.

    Conventions of the embedding.
    - Python values that come from JSON (cache entries, payloads, HTTP
      bodies) are values of [json]; Python's [None] is [JNull].
    - Numbers are exact rationals ([Q]): a Python float is read as the
      rational it denotes, so rounding errors of float arithmetic are not
      modelled.
    - A [str] is the [string] of its UTF-8 bytes; [strip] and [lower]
      follow the Unicode character database, for white space, for the
      lower-case mapping and for the final sigma.
    - The clock [datetime.utcnow().timestamp()] is an explicit argument
      [now]; a handler reads one clock value.
    - A raised exception is a value [Raises e] of [result]; writing a file
      always succeeds and is a field update of the modelled disk. *)

From Stdlib Require Import String Ascii ZArith QArith List Lia.
From Stdlib Require Import DecimalString.
From stdpp Require Import gmap strings list fin_maps.

Local Open Scope string_scope.
Local Open Scope Z_scope.

(** ** Python strings: [str.strip] and [str.lower] *)

Module PyStr.

Local Open Scope N_scope.

(** A [str] is a sequence of Unicode characters; it is kept as its UTF-8
    bytes, which is how a string literal of this file is read.  [chars]
    gives the characters of a string as code points, [utf8] the string
    of a sequence of code points. *)

Definition bytes (s : string) : list N :=
  N_of_ascii <$> list_ascii_of_string s.

Definition of_bytes (l : list N) : string :=
  string_of_list_ascii (ascii_of_N <$> l).

Definition is_cont (b : N) : bool := (128 <=? b) && (b <? 192).

(** The character a byte sequence begins with, and how many bytes after
    the first belong to it; [None] when the first byte does not begin a
    well-formed sequence. *)
Definition head_char (bs : list N) : option (N * nat) :=
  match bs with
  | [] => None
  | b1 :: r1 =>
      if b1 <? 128 then Some (b1, 0%nat)
      else
        match r1 with
        | [] => None
        | b2 :: r2 =>
            if (194 <=? b1) && (b1 <? 224) then
              if is_cont b2
              then Some ((b1 - 192) * 64 + (b2 - 128), 1%nat)
              else None
            else
              match r2 with
              | [] => None
              | b3 :: r3 =>
                  if (224 <=? b1) && (b1 <? 240) then
                    let c := (b1 - 224) * 4096 + (b2 - 128) * 64
                             + (b3 - 128) in
                    if is_cont b2 && is_cont b3 && (2048 <=? c)
                       && negb ((55296 <=? c) && (c <? 57344))
                    then Some (c, 2%nat)
                    else None
                  else
                    match r3 with
                    | [] => None
                    | b4 :: _ =>
                        let c := (b1 - 240) * 262144 + (b2 - 128) * 4096
                                 + (b3 - 128) * 64 + (b4 - 128) in
                        if (240 <=? b1) && is_cont b2 && is_cont b3
                           && is_cont b4 && (65536 <=? c) && (c <? 1114112)
                        then Some (c, 3%nat)
                        else None
                    end
              end
        end
  end.

(** Reading the characters; [skip] counts the bytes still to pass of the
    character read last.  A byte that begins no well-formed sequence is
    passed on as the code point [0xDC00 + b]; no [str] has such bytes. *)
Fixpoint decode_from (skip : nat) (bs : list N) : list N :=
  match bs with
  | [] => []
  | b :: r =>
      match skip with
      | S k => decode_from k r
      | O =>
          match head_char bs with
          | Some (c, k) => c :: decode_from k r
          | None => (56320 + b) :: decode_from 0 r
          end
      end
  end.

Definition decode (bs : list N) : list N := decode_from 0 bs.

Definition encode1 (c : N) : list N :=
  if c <? 128 then [c]
  else if c <? 2048 then [192 + c / 64; 128 + c mod 64]
  else if (56448 <=? c) && (c <? 56576) then [c - 56320]
  else if c <? 65536 then
    [224 + c / 4096; 128 + (c / 64) mod 64; 128 + c mod 64]
  else
    [240 + c / 262144; 128 + (c / 4096) mod 64; 128 + (c / 64) mod 64;
     128 + c mod 64].

Definition encode (cs : list N) : list N := concat (encode1 <$> cs).

Definition chars (s : string) : list N := decode (bytes s).

Definition utf8 (cs : list N) : string := of_bytes (encode cs).

(** *** White space

    The characters for which [str.isspace] holds, which are the ones
    [str.strip] removes: TAB..CR, FS..US, the blank, U+0085, U+00A0,
    U+1680, U+2000..U+200A, U+2028, U+2029, U+202F, U+205F and U+3000. *)

Definition white_space : list N :=
  [ 9; 10; 11; 12; 13; 28; 29; 30; 31; 32; 133; 160; 5760; 8192; 8193;
    8194; 8195; 8196; 8197; 8198; 8199; 8200; 8201; 8202; 8232; 8233;
    8239; 8287; 12288 ]%N.

Definition is_space (c : N) : bool := bool_decide (c ∈ white_space).

(** The bytes of a character, and those of the white-space characters:
    one to three bytes each. *)
Definition code (c : N) : list ascii := ascii_of_N <$> encode1 c.

Definition spaces : list (list ascii) := code <$> white_space.

(** Dropping from the front of a byte sequence every leading sequence
    that is one of [toks], each of at most three bytes. *)
Fixpoint drop_leading (toks : list (list ascii)) (l : list ascii)
    : list ascii :=
  match l with
  | [] => []
  | a :: l1 =>
      if bool_decide ([a] ∈ toks) then drop_leading toks l1
      else
        match l1 with
        | [] => l
        | b :: l2 =>
            if bool_decide ([a; b] ∈ toks) then drop_leading toks l2
            else
              match l2 with
              | [] => l
              | c :: l3 =>
                  if bool_decide ([a; b; c] ∈ toks)
                  then drop_leading toks l3
                  else l
              end
        end
  end.

Definition lstrip (l : list ascii) : list ascii := drop_leading spaces l.

(** At the end the same is done on the reversed bytes. *)
Definition rstrip (l : list ascii) : list ascii :=
  rev (drop_leading (@rev ascii <$> spaces) (rev l)).

Definition strip (s : string) : string :=
  string_of_list_ascii (rstrip (lstrip (list_ascii_of_string s))).

(** [not s] for a string. *)
Definition blank (s : string) : bool :=
  match s with EmptyString => true | _ => false end.

(** *** Lower case

    [str.lower] maps every character by the lower-case mapping of the
    Unicode character database (version 14, the one of CPython 3.11),
    except the Greek capital sigma, which becomes the final small sigma
    when it ends a word and the small sigma otherwise.  A word, for this
    rule, is made of cased characters, and case-ignorable characters
    are passed over on both sides. *)

(** The lower-case mapping of the character database: the characters
    that have a lower-case letter other than themselves, in increasing
    order, each with that letter. *)
Definition lower_pairs : list (N * N) :=
  [ (65, 97); (66, 98); (67, 99); (68, 100); (69, 101); (70, 102);
    (71, 103); (72, 104); (73, 105); (74, 106); (75, 107); (76, 108);
    (77, 109); (78, 110); (79, 111); (80, 112); (81, 113); (82, 114);
    (83, 115); (84, 116); (85, 117); (86, 118); (87, 119); (88, 120);
    (89, 121); (90, 122); (192, 224); (193, 225); (194, 226); (195, 227);
    (196, 228); (197, 229); (198, 230); (199, 231); (200, 232);
    (201, 233); (202, 234); (203, 235); (204, 236); (205, 237);
    (206, 238); (207, 239); (208, 240); (209, 241); (210, 242);
    (211, 243); (212, 244); (213, 245); (214, 246); (216, 248);
    (217, 249); (218, 250); (219, 251); (220, 252); (221, 253);
    (222, 254); (256, 257); (258, 259); (260, 261); (262, 263);
    (264, 265); (266, 267); (268, 269); (270, 271); (272, 273);
    (274, 275); (276, 277); (278, 279); (280, 281); (282, 283);
    (284, 285); (286, 287); (288, 289); (290, 291); (292, 293);
    (294, 295); (296, 297); (298, 299); (300, 301); (302, 303);
    (304, 105); (306, 307); (308, 309); (310, 311); (313, 314);
    (315, 316); (317, 318); (319, 320); (321, 322); (323, 324);
    (325, 326); (327, 328); (330, 331); (332, 333); (334, 335);
    (336, 337); (338, 339); (340, 341); (342, 343); (344, 345);
    (346, 347); (348, 349); (350, 351); (352, 353); (354, 355);
    (356, 357); (358, 359); (360, 361); (362, 363); (364, 365);
    (366, 367); (368, 369); (370, 371); (372, 373); (374, 375);
    (376, 255); (377, 378); (379, 380); (381, 382); (385, 595);
    (386, 387); (388, 389); (390, 596); (391, 392); (393, 598);
    (394, 599); (395, 396); (398, 477); (399, 601); (400, 603);
    (401, 402); (403, 608); (404, 611); (406, 617); (407, 616);
    (408, 409); (412, 623); (413, 626); (415, 629); (416, 417);
    (418, 419); (420, 421); (422, 640); (423, 424); (425, 643);
    (428, 429); (430, 648); (431, 432); (433, 650); (434, 651);
    (435, 436); (437, 438); (439, 658); (440, 441); (444, 445);
    (452, 454); (453, 454); (455, 457); (456, 457); (458, 460);
    (459, 460); (461, 462); (463, 464); (465, 466); (467, 468);
    (469, 470); (471, 472); (473, 474); (475, 476); (478, 479);
    (480, 481); (482, 483); (484, 485); (486, 487); (488, 489);
    (490, 491); (492, 493); (494, 495); (497, 499); (498, 499);
    (500, 501); (502, 405); (503, 447); (504, 505); (506, 507);
    (508, 509); (510, 511); (512, 513); (514, 515); (516, 517);
    (518, 519); (520, 521); (522, 523); (524, 525); (526, 527);
    (528, 529); (530, 531); (532, 533); (534, 535); (536, 537);
    (538, 539); (540, 541); (542, 543); (544, 414); (546, 547);
    (548, 549); (550, 551); (552, 553); (554, 555); (556, 557);
    (558, 559); (560, 561); (562, 563); (570, 11365); (571, 572);
    (573, 410); (574, 11366); (577, 578); (579, 384); (580, 649);
    (581, 652); (582, 583); (584, 585); (586, 587); (588, 589);
    (590, 591); (880, 881); (882, 883); (886, 887); (895, 1011);
    (902, 940); (904, 941); (905, 942); (906, 943); (908, 972);
    (910, 973); (911, 974); (913, 945); (914, 946); (915, 947);
    (916, 948); (917, 949); (918, 950); (919, 951); (920, 952);
    (921, 953); (922, 954); (923, 955); (924, 956); (925, 957);
    (926, 958); (927, 959); (928, 960); (929, 961); (931, 963);
    (932, 964); (933, 965); (934, 966); (935, 967); (936, 968);
    (937, 969); (938, 970); (939, 971); (975, 983); (984, 985);
    (986, 987); (988, 989); (990, 991); (992, 993); (994, 995);
    (996, 997); (998, 999); (1000, 1001); (1002, 1003); (1004, 1005);
    (1006, 1007); (1012, 952); (1015, 1016); (1017, 1010); (1018, 1019);
    (1021, 891); (1022, 892); (1023, 893); (1024, 1104); (1025, 1105);
    (1026, 1106); (1027, 1107); (1028, 1108); (1029, 1109); (1030, 1110);
    (1031, 1111); (1032, 1112); (1033, 1113); (1034, 1114); (1035, 1115);
    (1036, 1116); (1037, 1117); (1038, 1118); (1039, 1119); (1040, 1072);
    (1041, 1073); (1042, 1074); (1043, 1075); (1044, 1076); (1045, 1077);
    (1046, 1078); (1047, 1079); (1048, 1080); (1049, 1081); (1050, 1082);
    (1051, 1083); (1052, 1084); (1053, 1085); (1054, 1086); (1055, 1087);
    (1056, 1088); (1057, 1089); (1058, 1090); (1059, 1091); (1060, 1092);
    (1061, 1093); (1062, 1094); (1063, 1095); (1064, 1096); (1065, 1097);
    (1066, 1098); (1067, 1099); (1068, 1100); (1069, 1101); (1070, 1102);
    (1071, 1103); (1120, 1121); (1122, 1123); (1124, 1125); (1126, 1127);
    (1128, 1129); (1130, 1131); (1132, 1133); (1134, 1135); (1136, 1137);
    (1138, 1139); (1140, 1141); (1142, 1143); (1144, 1145); (1146, 1147);
    (1148, 1149); (1150, 1151); (1152, 1153); (1162, 1163); (1164, 1165);
    (1166, 1167); (1168, 1169); (1170, 1171); (1172, 1173); (1174, 1175);
    (1176, 1177); (1178, 1179); (1180, 1181); (1182, 1183); (1184, 1185);
    (1186, 1187); (1188, 1189); (1190, 1191); (1192, 1193); (1194, 1195);
    (1196, 1197); (1198, 1199); (1200, 1201); (1202, 1203); (1204, 1205);
    (1206, 1207); (1208, 1209); (1210, 1211); (1212, 1213); (1214, 1215);
    (1216, 1231); (1217, 1218); (1219, 1220); (1221, 1222); (1223, 1224);
    (1225, 1226); (1227, 1228); (1229, 1230); (1232, 1233); (1234, 1235);
    (1236, 1237); (1238, 1239); (1240, 1241); (1242, 1243); (1244, 1245);
    (1246, 1247); (1248, 1249); (1250, 1251); (1252, 1253); (1254, 1255);
    (1256, 1257); (1258, 1259); (1260, 1261); (1262, 1263); (1264, 1265);
    (1266, 1267); (1268, 1269); (1270, 1271); (1272, 1273); (1274, 1275);
    (1276, 1277); (1278, 1279); (1280, 1281); (1282, 1283); (1284, 1285);
    (1286, 1287); (1288, 1289); (1290, 1291); (1292, 1293); (1294, 1295);
    (1296, 1297); (1298, 1299); (1300, 1301); (1302, 1303); (1304, 1305);
    (1306, 1307); (1308, 1309); (1310, 1311); (1312, 1313); (1314, 1315);
    (1316, 1317); (1318, 1319); (1320, 1321); (1322, 1323); (1324, 1325);
    (1326, 1327); (1329, 1377); (1330, 1378); (1331, 1379); (1332, 1380);
    (1333, 1381); (1334, 1382); (1335, 1383); (1336, 1384); (1337, 1385);
    (1338, 1386); (1339, 1387); (1340, 1388); (1341, 1389); (1342, 1390);
    (1343, 1391); (1344, 1392); (1345, 1393); (1346, 1394); (1347, 1395);
    (1348, 1396); (1349, 1397); (1350, 1398); (1351, 1399); (1352, 1400);
    (1353, 1401); (1354, 1402); (1355, 1403); (1356, 1404); (1357, 1405);
    (1358, 1406); (1359, 1407); (1360, 1408); (1361, 1409); (1362, 1410);
    (1363, 1411); (1364, 1412); (1365, 1413); (1366, 1414); (4256, 11520);
    (4257, 11521); (4258, 11522); (4259, 11523); (4260, 11524);
    (4261, 11525); (4262, 11526); (4263, 11527); (4264, 11528);
    (4265, 11529); (4266, 11530); (4267, 11531); (4268, 11532);
    (4269, 11533); (4270, 11534); (4271, 11535); (4272, 11536);
    (4273, 11537); (4274, 11538); (4275, 11539); (4276, 11540);
    (4277, 11541); (4278, 11542); (4279, 11543); (4280, 11544);
    (4281, 11545); (4282, 11546); (4283, 11547); (4284, 11548);
    (4285, 11549); (4286, 11550); (4287, 11551); (4288, 11552);
    (4289, 11553); (4290, 11554); (4291, 11555); (4292, 11556);
    (4293, 11557); (4295, 11559); (4301, 11565); (5024, 43888);
    (5025, 43889); (5026, 43890); (5027, 43891); (5028, 43892);
    (5029, 43893); (5030, 43894); (5031, 43895); (5032, 43896);
    (5033, 43897); (5034, 43898); (5035, 43899); (5036, 43900);
    (5037, 43901); (5038, 43902); (5039, 43903); (5040, 43904);
    (5041, 43905); (5042, 43906); (5043, 43907); (5044, 43908);
    (5045, 43909); (5046, 43910); (5047, 43911); (5048, 43912);
    (5049, 43913); (5050, 43914); (5051, 43915); (5052, 43916);
    (5053, 43917); (5054, 43918); (5055, 43919); (5056, 43920);
    (5057, 43921); (5058, 43922); (5059, 43923); (5060, 43924);
    (5061, 43925); (5062, 43926); (5063, 43927); (5064, 43928);
    (5065, 43929); (5066, 43930); (5067, 43931); (5068, 43932);
    (5069, 43933); (5070, 43934); (5071, 43935); (5072, 43936);
    (5073, 43937); (5074, 43938); (5075, 43939); (5076, 43940);
    (5077, 43941); (5078, 43942); (5079, 43943); (5080, 43944);
    (5081, 43945); (5082, 43946); (5083, 43947); (5084, 43948);
    (5085, 43949); (5086, 43950); (5087, 43951); (5088, 43952);
    (5089, 43953); (5090, 43954); (5091, 43955); (5092, 43956);
    (5093, 43957); (5094, 43958); (5095, 43959); (5096, 43960);
    (5097, 43961); (5098, 43962); (5099, 43963); (5100, 43964);
    (5101, 43965); (5102, 43966); (5103, 43967); (5104, 5112);
    (5105, 5113); (5106, 5114); (5107, 5115); (5108, 5116); (5109, 5117);
    (7312, 4304); (7313, 4305); (7314, 4306); (7315, 4307); (7316, 4308);
    (7317, 4309); (7318, 4310); (7319, 4311); (7320, 4312); (7321, 4313);
    (7322, 4314); (7323, 4315); (7324, 4316); (7325, 4317); (7326, 4318);
    (7327, 4319); (7328, 4320); (7329, 4321); (7330, 4322); (7331, 4323);
    (7332, 4324); (7333, 4325); (7334, 4326); (7335, 4327); (7336, 4328);
    (7337, 4329); (7338, 4330); (7339, 4331); (7340, 4332); (7341, 4333);
    (7342, 4334); (7343, 4335); (7344, 4336); (7345, 4337); (7346, 4338);
    (7347, 4339); (7348, 4340); (7349, 4341); (7350, 4342); (7351, 4343);
    (7352, 4344); (7353, 4345); (7354, 4346); (7357, 4349); (7358, 4350);
    (7359, 4351); (7680, 7681); (7682, 7683); (7684, 7685); (7686, 7687);
    (7688, 7689); (7690, 7691); (7692, 7693); (7694, 7695); (7696, 7697);
    (7698, 7699); (7700, 7701); (7702, 7703); (7704, 7705); (7706, 7707);
    (7708, 7709); (7710, 7711); (7712, 7713); (7714, 7715); (7716, 7717);
    (7718, 7719); (7720, 7721); (7722, 7723); (7724, 7725); (7726, 7727);
    (7728, 7729); (7730, 7731); (7732, 7733); (7734, 7735); (7736, 7737);
    (7738, 7739); (7740, 7741); (7742, 7743); (7744, 7745); (7746, 7747);
    (7748, 7749); (7750, 7751); (7752, 7753); (7754, 7755); (7756, 7757);
    (7758, 7759); (7760, 7761); (7762, 7763); (7764, 7765); (7766, 7767);
    (7768, 7769); (7770, 7771); (7772, 7773); (7774, 7775); (7776, 7777);
    (7778, 7779); (7780, 7781); (7782, 7783); (7784, 7785); (7786, 7787);
    (7788, 7789); (7790, 7791); (7792, 7793); (7794, 7795); (7796, 7797);
    (7798, 7799); (7800, 7801); (7802, 7803); (7804, 7805); (7806, 7807);
    (7808, 7809); (7810, 7811); (7812, 7813); (7814, 7815); (7816, 7817);
    (7818, 7819); (7820, 7821); (7822, 7823); (7824, 7825); (7826, 7827);
    (7828, 7829); (7838, 223); (7840, 7841); (7842, 7843); (7844, 7845);
    (7846, 7847); (7848, 7849); (7850, 7851); (7852, 7853); (7854, 7855);
    (7856, 7857); (7858, 7859); (7860, 7861); (7862, 7863); (7864, 7865);
    (7866, 7867); (7868, 7869); (7870, 7871); (7872, 7873); (7874, 7875);
    (7876, 7877); (7878, 7879); (7880, 7881); (7882, 7883); (7884, 7885);
    (7886, 7887); (7888, 7889); (7890, 7891); (7892, 7893); (7894, 7895);
    (7896, 7897); (7898, 7899); (7900, 7901); (7902, 7903); (7904, 7905);
    (7906, 7907); (7908, 7909); (7910, 7911); (7912, 7913); (7914, 7915);
    (7916, 7917); (7918, 7919); (7920, 7921); (7922, 7923); (7924, 7925);
    (7926, 7927); (7928, 7929); (7930, 7931); (7932, 7933); (7934, 7935);
    (7944, 7936); (7945, 7937); (7946, 7938); (7947, 7939); (7948, 7940);
    (7949, 7941); (7950, 7942); (7951, 7943); (7960, 7952); (7961, 7953);
    (7962, 7954); (7963, 7955); (7964, 7956); (7965, 7957); (7976, 7968);
    (7977, 7969); (7978, 7970); (7979, 7971); (7980, 7972); (7981, 7973);
    (7982, 7974); (7983, 7975); (7992, 7984); (7993, 7985); (7994, 7986);
    (7995, 7987); (7996, 7988); (7997, 7989); (7998, 7990); (7999, 7991);
    (8008, 8000); (8009, 8001); (8010, 8002); (8011, 8003); (8012, 8004);
    (8013, 8005); (8025, 8017); (8027, 8019); (8029, 8021); (8031, 8023);
    (8040, 8032); (8041, 8033); (8042, 8034); (8043, 8035); (8044, 8036);
    (8045, 8037); (8046, 8038); (8047, 8039); (8072, 8064); (8073, 8065);
    (8074, 8066); (8075, 8067); (8076, 8068); (8077, 8069); (8078, 8070);
    (8079, 8071); (8088, 8080); (8089, 8081); (8090, 8082); (8091, 8083);
    (8092, 8084); (8093, 8085); (8094, 8086); (8095, 8087); (8104, 8096);
    (8105, 8097); (8106, 8098); (8107, 8099); (8108, 8100); (8109, 8101);
    (8110, 8102); (8111, 8103); (8120, 8112); (8121, 8113); (8122, 8048);
    (8123, 8049); (8124, 8115); (8136, 8050); (8137, 8051); (8138, 8052);
    (8139, 8053); (8140, 8131); (8152, 8144); (8153, 8145); (8154, 8054);
    (8155, 8055); (8168, 8160); (8169, 8161); (8170, 8058); (8171, 8059);
    (8172, 8165); (8184, 8056); (8185, 8057); (8186, 8060); (8187, 8061);
    (8188, 8179); (8486, 969); (8490, 107); (8491, 229); (8498, 8526);
    (8544, 8560); (8545, 8561); (8546, 8562); (8547, 8563); (8548, 8564);
    (8549, 8565); (8550, 8566); (8551, 8567); (8552, 8568); (8553, 8569);
    (8554, 8570); (8555, 8571); (8556, 8572); (8557, 8573); (8558, 8574);
    (8559, 8575); (8579, 8580); (9398, 9424); (9399, 9425); (9400, 9426);
    (9401, 9427); (9402, 9428); (9403, 9429); (9404, 9430); (9405, 9431);
    (9406, 9432); (9407, 9433); (9408, 9434); (9409, 9435); (9410, 9436);
    (9411, 9437); (9412, 9438); (9413, 9439); (9414, 9440); (9415, 9441);
    (9416, 9442); (9417, 9443); (9418, 9444); (9419, 9445); (9420, 9446);
    (9421, 9447); (9422, 9448); (9423, 9449); (11264, 11312);
    (11265, 11313); (11266, 11314); (11267, 11315); (11268, 11316);
    (11269, 11317); (11270, 11318); (11271, 11319); (11272, 11320);
    (11273, 11321); (11274, 11322); (11275, 11323); (11276, 11324);
    (11277, 11325); (11278, 11326); (11279, 11327); (11280, 11328);
    (11281, 11329); (11282, 11330); (11283, 11331); (11284, 11332);
    (11285, 11333); (11286, 11334); (11287, 11335); (11288, 11336);
    (11289, 11337); (11290, 11338); (11291, 11339); (11292, 11340);
    (11293, 11341); (11294, 11342); (11295, 11343); (11296, 11344);
    (11297, 11345); (11298, 11346); (11299, 11347); (11300, 11348);
    (11301, 11349); (11302, 11350); (11303, 11351); (11304, 11352);
    (11305, 11353); (11306, 11354); (11307, 11355); (11308, 11356);
    (11309, 11357); (11310, 11358); (11311, 11359); (11360, 11361);
    (11362, 619); (11363, 7549); (11364, 637); (11367, 11368);
    (11369, 11370); (11371, 11372); (11373, 593); (11374, 625);
    (11375, 592); (11376, 594); (11378, 11379); (11381, 11382);
    (11390, 575); (11391, 576); (11392, 11393); (11394, 11395);
    (11396, 11397); (11398, 11399); (11400, 11401); (11402, 11403);
    (11404, 11405); (11406, 11407); (11408, 11409); (11410, 11411);
    (11412, 11413); (11414, 11415); (11416, 11417); (11418, 11419);
    (11420, 11421); (11422, 11423); (11424, 11425); (11426, 11427);
    (11428, 11429); (11430, 11431); (11432, 11433); (11434, 11435);
    (11436, 11437); (11438, 11439); (11440, 11441); (11442, 11443);
    (11444, 11445); (11446, 11447); (11448, 11449); (11450, 11451);
    (11452, 11453); (11454, 11455); (11456, 11457); (11458, 11459);
    (11460, 11461); (11462, 11463); (11464, 11465); (11466, 11467);
    (11468, 11469); (11470, 11471); (11472, 11473); (11474, 11475);
    (11476, 11477); (11478, 11479); (11480, 11481); (11482, 11483);
    (11484, 11485); (11486, 11487); (11488, 11489); (11490, 11491);
    (11499, 11500); (11501, 11502); (11506, 11507); (42560, 42561);
    (42562, 42563); (42564, 42565); (42566, 42567); (42568, 42569);
    (42570, 42571); (42572, 42573); (42574, 42575); (42576, 42577);
    (42578, 42579); (42580, 42581); (42582, 42583); (42584, 42585);
    (42586, 42587); (42588, 42589); (42590, 42591); (42592, 42593);
    (42594, 42595); (42596, 42597); (42598, 42599); (42600, 42601);
    (42602, 42603); (42604, 42605); (42624, 42625); (42626, 42627);
    (42628, 42629); (42630, 42631); (42632, 42633); (42634, 42635);
    (42636, 42637); (42638, 42639); (42640, 42641); (42642, 42643);
    (42644, 42645); (42646, 42647); (42648, 42649); (42650, 42651);
    (42786, 42787); (42788, 42789); (42790, 42791); (42792, 42793);
    (42794, 42795); (42796, 42797); (42798, 42799); (42802, 42803);
    (42804, 42805); (42806, 42807); (42808, 42809); (42810, 42811);
    (42812, 42813); (42814, 42815); (42816, 42817); (42818, 42819);
    (42820, 42821); (42822, 42823); (42824, 42825); (42826, 42827);
    (42828, 42829); (42830, 42831); (42832, 42833); (42834, 42835);
    (42836, 42837); (42838, 42839); (42840, 42841); (42842, 42843);
    (42844, 42845); (42846, 42847); (42848, 42849); (42850, 42851);
    (42852, 42853); (42854, 42855); (42856, 42857); (42858, 42859);
    (42860, 42861); (42862, 42863); (42873, 42874); (42875, 42876);
    (42877, 7545); (42878, 42879); (42880, 42881); (42882, 42883);
    (42884, 42885); (42886, 42887); (42891, 42892); (42893, 613);
    (42896, 42897); (42898, 42899); (42902, 42903); (42904, 42905);
    (42906, 42907); (42908, 42909); (42910, 42911); (42912, 42913);
    (42914, 42915); (42916, 42917); (42918, 42919); (42920, 42921);
    (42922, 614); (42923, 604); (42924, 609); (42925, 620); (42926, 618);
    (42928, 670); (42929, 647); (42930, 669); (42931, 43859);
    (42932, 42933); (42934, 42935); (42936, 42937); (42938, 42939);
    (42940, 42941); (42942, 42943); (42944, 42945); (42946, 42947);
    (42948, 42900); (42949, 642); (42950, 7566); (42951, 42952);
    (42953, 42954); (42960, 42961); (42966, 42967); (42968, 42969);
    (42997, 42998); (65313, 65345); (65314, 65346); (65315, 65347);
    (65316, 65348); (65317, 65349); (65318, 65350); (65319, 65351);
    (65320, 65352); (65321, 65353); (65322, 65354); (65323, 65355);
    (65324, 65356); (65325, 65357); (65326, 65358); (65327, 65359);
    (65328, 65360); (65329, 65361); (65330, 65362); (65331, 65363);
    (65332, 65364); (65333, 65365); (65334, 65366); (65335, 65367);
    (65336, 65368); (65337, 65369); (65338, 65370); (66560, 66600);
    (66561, 66601); (66562, 66602); (66563, 66603); (66564, 66604);
    (66565, 66605); (66566, 66606); (66567, 66607); (66568, 66608);
    (66569, 66609); (66570, 66610); (66571, 66611); (66572, 66612);
    (66573, 66613); (66574, 66614); (66575, 66615); (66576, 66616);
    (66577, 66617); (66578, 66618); (66579, 66619); (66580, 66620);
    (66581, 66621); (66582, 66622); (66583, 66623); (66584, 66624);
    (66585, 66625); (66586, 66626); (66587, 66627); (66588, 66628);
    (66589, 66629); (66590, 66630); (66591, 66631); (66592, 66632);
    (66593, 66633); (66594, 66634); (66595, 66635); (66596, 66636);
    (66597, 66637); (66598, 66638); (66599, 66639); (66736, 66776);
    (66737, 66777); (66738, 66778); (66739, 66779); (66740, 66780);
    (66741, 66781); (66742, 66782); (66743, 66783); (66744, 66784);
    (66745, 66785); (66746, 66786); (66747, 66787); (66748, 66788);
    (66749, 66789); (66750, 66790); (66751, 66791); (66752, 66792);
    (66753, 66793); (66754, 66794); (66755, 66795); (66756, 66796);
    (66757, 66797); (66758, 66798); (66759, 66799); (66760, 66800);
    (66761, 66801); (66762, 66802); (66763, 66803); (66764, 66804);
    (66765, 66805); (66766, 66806); (66767, 66807); (66768, 66808);
    (66769, 66809); (66770, 66810); (66771, 66811); (66928, 66967);
    (66929, 66968); (66930, 66969); (66931, 66970); (66932, 66971);
    (66933, 66972); (66934, 66973); (66935, 66974); (66936, 66975);
    (66937, 66976); (66938, 66977); (66940, 66979); (66941, 66980);
    (66942, 66981); (66943, 66982); (66944, 66983); (66945, 66984);
    (66946, 66985); (66947, 66986); (66948, 66987); (66949, 66988);
    (66950, 66989); (66951, 66990); (66952, 66991); (66953, 66992);
    (66954, 66993); (66956, 66995); (66957, 66996); (66958, 66997);
    (66959, 66998); (66960, 66999); (66961, 67000); (66962, 67001);
    (66964, 67003); (66965, 67004); (68736, 68800); (68737, 68801);
    (68738, 68802); (68739, 68803); (68740, 68804); (68741, 68805);
    (68742, 68806); (68743, 68807); (68744, 68808); (68745, 68809);
    (68746, 68810); (68747, 68811); (68748, 68812); (68749, 68813);
    (68750, 68814); (68751, 68815); (68752, 68816); (68753, 68817);
    (68754, 68818); (68755, 68819); (68756, 68820); (68757, 68821);
    (68758, 68822); (68759, 68823); (68760, 68824); (68761, 68825);
    (68762, 68826); (68763, 68827); (68764, 68828); (68765, 68829);
    (68766, 68830); (68767, 68831); (68768, 68832); (68769, 68833);
    (68770, 68834); (68771, 68835); (68772, 68836); (68773, 68837);
    (68774, 68838); (68775, 68839); (68776, 68840); (68777, 68841);
    (68778, 68842); (68779, 68843); (68780, 68844); (68781, 68845);
    (68782, 68846); (68783, 68847); (68784, 68848); (68785, 68849);
    (68786, 68850); (71840, 71872); (71841, 71873); (71842, 71874);
    (71843, 71875); (71844, 71876); (71845, 71877); (71846, 71878);
    (71847, 71879); (71848, 71880); (71849, 71881); (71850, 71882);
    (71851, 71883); (71852, 71884); (71853, 71885); (71854, 71886);
    (71855, 71887); (71856, 71888); (71857, 71889); (71858, 71890);
    (71859, 71891); (71860, 71892); (71861, 71893); (71862, 71894);
    (71863, 71895); (71864, 71896); (71865, 71897); (71866, 71898);
    (71867, 71899); (71868, 71900); (71869, 71901); (71870, 71902);
    (71871, 71903); (93760, 93792); (93761, 93793); (93762, 93794);
    (93763, 93795); (93764, 93796); (93765, 93797); (93766, 93798);
    (93767, 93799); (93768, 93800); (93769, 93801); (93770, 93802);
    (93771, 93803); (93772, 93804); (93773, 93805); (93774, 93806);
    (93775, 93807); (93776, 93808); (93777, 93809); (93778, 93810);
    (93779, 93811); (93780, 93812); (93781, 93813); (93782, 93814);
    (93783, 93815); (93784, 93816); (93785, 93817); (93786, 93818);
    (93787, 93819); (93788, 93820); (93789, 93821); (93790, 93822);
    (93791, 93823); (125184, 125218); (125185, 125219); (125186, 125220);
    (125187, 125221); (125188, 125222); (125189, 125223);
    (125190, 125224); (125191, 125225); (125192, 125226);
    (125193, 125227); (125194, 125228); (125195, 125229);
    (125196, 125230); (125197, 125231); (125198, 125232);
    (125199, 125233); (125200, 125234); (125201, 125235);
    (125202, 125236); (125203, 125237); (125204, 125238);
    (125205, 125239); (125206, 125240); (125207, 125241);
    (125208, 125242); (125209, 125243); (125210, 125244);
    (125211, 125245); (125212, 125246); (125213, 125247);
    (125214, 125248); (125215, 125249); (125216, 125250); (125217, 125251) ]%N.

(** The property Cased: the letters that have a case. *)
Definition cased_ranges : list (N * N) :=
  [ (65, 90); (97, 122); (170, 170); (181, 181); (186, 186); (192, 214);
    (216, 246); (248, 442); (444, 447); (452, 659); (661, 696);
    (704, 705); (736, 740); (837, 837); (880, 883); (886, 887);
    (890, 893); (895, 895); (902, 902); (904, 906); (908, 908);
    (910, 929); (931, 1013); (1015, 1153); (1162, 1327); (1329, 1366);
    (1376, 1416); (4256, 4293); (4295, 4295); (4301, 4301); (4304, 4346);
    (4349, 4351); (5024, 5109); (5112, 5117); (7296, 7304); (7312, 7354);
    (7357, 7359); (7424, 7615); (7680, 7957); (7960, 7965); (7968, 8005);
    (8008, 8013); (8016, 8023); (8025, 8025); (8027, 8027); (8029, 8029);
    (8031, 8061); (8064, 8116); (8118, 8124); (8126, 8126); (8130, 8132);
    (8134, 8140); (8144, 8147); (8150, 8155); (8160, 8172); (8178, 8180);
    (8182, 8188); (8305, 8305); (8319, 8319); (8336, 8348); (8450, 8450);
    (8455, 8455); (8458, 8467); (8469, 8469); (8473, 8477); (8484, 8484);
    (8486, 8486); (8488, 8488); (8490, 8493); (8495, 8500); (8505, 8505);
    (8508, 8511); (8517, 8521); (8526, 8526); (8544, 8575); (8579, 8580);
    (9398, 9449); (11264, 11492); (11499, 11502); (11506, 11507);
    (11520, 11557); (11559, 11559); (11565, 11565); (42560, 42605);
    (42624, 42653); (42786, 42887); (42891, 42894); (42896, 42954);
    (42960, 42961); (42963, 42963); (42965, 42969); (42997, 42998);
    (43000, 43002); (43824, 43866); (43868, 43880); (43888, 43967);
    (64256, 64262); (64275, 64279); (65313, 65338); (65345, 65370);
    (66560, 66639); (66736, 66771); (66776, 66811); (66928, 66938);
    (66940, 66954); (66956, 66962); (66964, 66965); (66967, 66977);
    (66979, 66993); (66995, 67001); (67003, 67004); (67456, 67456);
    (67459, 67461); (67463, 67504); (67506, 67514); (68736, 68786);
    (68800, 68850); (71840, 71903); (93760, 93823); (119808, 119892);
    (119894, 119964); (119966, 119967); (119970, 119970);
    (119973, 119974); (119977, 119980); (119982, 119993);
    (119995, 119995); (119997, 120003); (120005, 120069);
    (120071, 120074); (120077, 120084); (120086, 120092);
    (120094, 120121); (120123, 120126); (120128, 120132);
    (120134, 120134); (120138, 120144); (120146, 120485);
    (120488, 120512); (120514, 120538); (120540, 120570);
    (120572, 120596); (120598, 120628); (120630, 120654);
    (120656, 120686); (120688, 120712); (120714, 120744);
    (120746, 120770); (120772, 120779); (122624, 122633);
    (122635, 122654); (125184, 125251); (127280, 127305);
    (127312, 127337); (127344, 127369) ]%N.

(** The property Case_Ignorable: apostrophe, full stop, colon, combining
    marks, modifier letters, format characters and the like. *)
Definition case_ignorable_ranges : list (N * N) :=
  [ (39, 39); (46, 46); (58, 58); (94, 94); (96, 96); (168, 168);
    (173, 173); (175, 175); (180, 180); (183, 184); (688, 879);
    (884, 885); (890, 890); (900, 901); (903, 903); (1155, 1161);
    (1369, 1369); (1375, 1375); (1425, 1469); (1471, 1471); (1473, 1474);
    (1476, 1477); (1479, 1479); (1524, 1524); (1536, 1541); (1552, 1562);
    (1564, 1564); (1600, 1600); (1611, 1631); (1648, 1648); (1750, 1757);
    (1759, 1768); (1770, 1773); (1807, 1807); (1809, 1809); (1840, 1866);
    (1958, 1968); (2027, 2037); (2042, 2042); (2045, 2045); (2070, 2093);
    (2137, 2139); (2184, 2184); (2192, 2193); (2200, 2207); (2249, 2306);
    (2362, 2362); (2364, 2364); (2369, 2376); (2381, 2381); (2385, 2391);
    (2402, 2403); (2417, 2417); (2433, 2433); (2492, 2492); (2497, 2500);
    (2509, 2509); (2530, 2531); (2558, 2558); (2561, 2562); (2620, 2620);
    (2625, 2626); (2631, 2632); (2635, 2637); (2641, 2641); (2672, 2673);
    (2677, 2677); (2689, 2690); (2748, 2748); (2753, 2757); (2759, 2760);
    (2765, 2765); (2786, 2787); (2810, 2815); (2817, 2817); (2876, 2876);
    (2879, 2879); (2881, 2884); (2893, 2893); (2901, 2902); (2914, 2915);
    (2946, 2946); (3008, 3008); (3021, 3021); (3072, 3072); (3076, 3076);
    (3132, 3132); (3134, 3136); (3142, 3144); (3146, 3149); (3157, 3158);
    (3170, 3171); (3201, 3201); (3260, 3260); (3263, 3263); (3270, 3270);
    (3276, 3277); (3298, 3299); (3328, 3329); (3387, 3388); (3393, 3396);
    (3405, 3405); (3426, 3427); (3457, 3457); (3530, 3530); (3538, 3540);
    (3542, 3542); (3633, 3633); (3636, 3642); (3654, 3662); (3761, 3761);
    (3764, 3772); (3782, 3782); (3784, 3789); (3864, 3865); (3893, 3893);
    (3895, 3895); (3897, 3897); (3953, 3966); (3968, 3972); (3974, 3975);
    (3981, 3991); (3993, 4028); (4038, 4038); (4141, 4144); (4146, 4151);
    (4153, 4154); (4157, 4158); (4184, 4185); (4190, 4192); (4209, 4212);
    (4226, 4226); (4229, 4230); (4237, 4237); (4253, 4253); (4348, 4348);
    (4957, 4959); (5906, 5908); (5938, 5939); (5970, 5971); (6002, 6003);
    (6068, 6069); (6071, 6077); (6086, 6086); (6089, 6099); (6103, 6103);
    (6109, 6109); (6155, 6159); (6211, 6211); (6277, 6278); (6313, 6313);
    (6432, 6434); (6439, 6440); (6450, 6450); (6457, 6459); (6679, 6680);
    (6683, 6683); (6742, 6742); (6744, 6750); (6752, 6752); (6754, 6754);
    (6757, 6764); (6771, 6780); (6783, 6783); (6823, 6823); (6832, 6862);
    (6912, 6915); (6964, 6964); (6966, 6970); (6972, 6972); (6978, 6978);
    (7019, 7027); (7040, 7041); (7074, 7077); (7080, 7081); (7083, 7085);
    (7142, 7142); (7144, 7145); (7149, 7149); (7151, 7153); (7212, 7219);
    (7222, 7223); (7288, 7293); (7376, 7378); (7380, 7392); (7394, 7400);
    (7405, 7405); (7412, 7412); (7416, 7417); (7468, 7530); (7544, 7544);
    (7579, 7679); (8125, 8125); (8127, 8129); (8141, 8143); (8157, 8159);
    (8173, 8175); (8189, 8190); (8203, 8207); (8216, 8217); (8228, 8228);
    (8231, 8231); (8234, 8238); (8288, 8292); (8294, 8303); (8305, 8305);
    (8319, 8319); (8336, 8348); (8400, 8432); (11388, 11389);
    (11503, 11505); (11631, 11631); (11647, 11647); (11744, 11775);
    (11823, 11823); (12293, 12293); (12330, 12333); (12337, 12341);
    (12347, 12347); (12441, 12446); (12540, 12542); (40981, 40981);
    (42232, 42237); (42508, 42508); (42607, 42610); (42612, 42621);
    (42623, 42623); (42652, 42655); (42736, 42737); (42752, 42785);
    (42864, 42864); (42888, 42890); (42994, 42996); (43000, 43001);
    (43010, 43010); (43014, 43014); (43019, 43019); (43045, 43046);
    (43052, 43052); (43204, 43205); (43232, 43249); (43263, 43263);
    (43302, 43309); (43335, 43345); (43392, 43394); (43443, 43443);
    (43446, 43449); (43452, 43453); (43471, 43471); (43493, 43494);
    (43561, 43566); (43569, 43570); (43573, 43574); (43587, 43587);
    (43596, 43596); (43632, 43632); (43644, 43644); (43696, 43696);
    (43698, 43700); (43703, 43704); (43710, 43711); (43713, 43713);
    (43741, 43741); (43756, 43757); (43763, 43764); (43766, 43766);
    (43867, 43871); (43881, 43883); (44005, 44005); (44008, 44008);
    (44013, 44013); (64286, 64286); (64434, 64450); (65024, 65039);
    (65043, 65043); (65056, 65071); (65106, 65106); (65109, 65109);
    (65279, 65279); (65287, 65287); (65294, 65294); (65306, 65306);
    (65342, 65342); (65344, 65344); (65392, 65392); (65438, 65439);
    (65507, 65507); (65529, 65531); (66045, 66045); (66272, 66272);
    (66422, 66426); (67456, 67461); (67463, 67504); (67506, 67514);
    (68097, 68099); (68101, 68102); (68108, 68111); (68152, 68154);
    (68159, 68159); (68325, 68326); (68900, 68903); (69291, 69292);
    (69446, 69456); (69506, 69509); (69633, 69633); (69688, 69702);
    (69744, 69744); (69747, 69748); (69759, 69761); (69811, 69814);
    (69817, 69818); (69821, 69821); (69826, 69826); (69837, 69837);
    (69888, 69890); (69927, 69931); (69933, 69940); (70003, 70003);
    (70016, 70017); (70070, 70078); (70089, 70092); (70095, 70095);
    (70191, 70193); (70196, 70196); (70198, 70199); (70206, 70206);
    (70367, 70367); (70371, 70378); (70400, 70401); (70459, 70460);
    (70464, 70464); (70502, 70508); (70512, 70516); (70712, 70719);
    (70722, 70724); (70726, 70726); (70750, 70750); (70835, 70840);
    (70842, 70842); (70847, 70848); (70850, 70851); (71090, 71093);
    (71100, 71101); (71103, 71104); (71132, 71133); (71219, 71226);
    (71229, 71229); (71231, 71232); (71339, 71339); (71341, 71341);
    (71344, 71349); (71351, 71351); (71453, 71455); (71458, 71461);
    (71463, 71467); (71727, 71735); (71737, 71738); (71995, 71996);
    (71998, 71998); (72003, 72003); (72148, 72151); (72154, 72155);
    (72160, 72160); (72193, 72202); (72243, 72248); (72251, 72254);
    (72263, 72263); (72273, 72278); (72281, 72283); (72330, 72342);
    (72344, 72345); (72752, 72758); (72760, 72765); (72767, 72767);
    (72850, 72871); (72874, 72880); (72882, 72883); (72885, 72886);
    (73009, 73014); (73018, 73018); (73020, 73021); (73023, 73029);
    (73031, 73031); (73104, 73105); (73109, 73109); (73111, 73111);
    (73459, 73460); (78896, 78904); (92912, 92916); (92976, 92982);
    (92992, 92995); (94031, 94031); (94095, 94111); (94176, 94177);
    (94179, 94180); (110576, 110579); (110581, 110587); (110589, 110590);
    (113821, 113822); (113824, 113827); (118528, 118573);
    (118576, 118598); (119143, 119145); (119155, 119170);
    (119173, 119179); (119210, 119213); (119362, 119364);
    (121344, 121398); (121403, 121452); (121461, 121461);
    (121476, 121476); (121499, 121503); (121505, 121519);
    (122880, 122886); (122888, 122904); (122907, 122913);
    (122915, 122916); (122918, 122922); (123184, 123197);
    (123566, 123566); (123628, 123631); (125136, 125142);
    (125252, 125259); (127995, 127999); (917505, 917505);
    (917536, 917631); (917760, 917999) ]%N.

Definition in_ranges (c : N) (rs : list (N * N)) : bool :=
  existsb (fun r => (fst r <=? c) && (c <=? snd r)) rs.

Definition cased (c : N) : bool := in_ranges c cased_ranges.

Definition case_ignorable (c : N) : bool :=
  in_ranges c case_ignorable_ranges.

Fixpoint find_pair (c : N) (l : list (N * N)) : option N :=
  match l with
  | [] => None
  | (k, v) :: l' =>
      if c <? k then None
      else if c =? k then Some v
      else find_pair c l'
  end.

Definition simple_lower (c : N) : N :=
  default c (find_pair c lower_pairs).

Definition capital_sigma : N := 931.
Definition small_sigma : N := 963.
Definition final_sigma : N := 962.
Definition capital_i_dot : N := 304.

(** The lower-case form of one character, read without its neighbours.
    The capital I with a dot above (U+0130) is the one character whose
    form has two characters: i and the combining dot above. *)
Definition lower_char (c : N) : list N :=
  if c =? capital_i_dot then [105; 775] else [simple_lower c].

Fixpoint skip_ignorable (l : list N) : list N :=
  match l with
  | [] => []
  | c :: l' => if case_ignorable c then skip_ignorable l' else l
  end.

(** Whether a capital sigma ends a word: [before] holds the characters
    that precede it, the nearest first, [after] those that follow. *)
Definition ends_word (before after : list N) : bool :=
  match skip_ignorable before with
  | [] => false
  | c :: _ =>
      cased c &&
      match skip_ignorable after with
      | [] => true
      | c' :: _ => negb (cased c')
      end
  end.

Fixpoint lower_from (before l : list N) : list N :=
  match l with
  | [] => []
  | c :: rest =>
      (if c =? capital_sigma
       then [if ends_word before rest then final_sigma else small_sigma]
       else lower_char c)
      ++ lower_from (c :: before) rest
  end.

Definition lower (s : string) : string :=
  utf8 (lower_from [] (chars s)).

End PyStr.

(** ** JSON values and Python's view of them *)

#[warning="-register-all"] Inductive json : Type :=
| JNull
| JBool (b : bool)
| JNum (q : Q)
| JStr (s : string)
| JArr (l : list json)
| JObj (fields : list (string * json)).

(** The exceptions the modelled code can raise.  The three [RuntimeError]s
    of [http_get] and [FetchWorker.run] are kept apart by their message. *)
Inductive pyexn : Type :=
| AttributeError
| TypeError
| KeyError
| IndexError
| ValueError
| RequestException                       (* requests.get itself failed *)
| NotFound404                            (* RuntimeError, status 404 *)
| CityNotFound                           (* RuntimeError, empty geocode result *)
| ServiceError (status : Z) (msg : json). (* RuntimeError, other status *)

Inductive result (A : Type) : Type :=
| Returns (a : A)
| Raises (e : pyexn).
Arguments Returns {A} a.
Arguments Raises {A} e.

Definition bind {A B : Type} (r : result A) (k : A -> result B) : result B :=
  match r with
  | Returns a => k a
  | Raises e => Raises e
  end.

Notation "'let*' x := r 'in' k" := (bind r (fun x => k))
  (at level 10, x name, r at level 100, k at level 200).

Module Py.

(** Truth value of a Python object. *)
Definition truthy (j : json) : bool :=
  match j with
  | JNull => false
  | JBool b => b
  | JNum q => negb (Qnum q =? 0)
  | JStr s => negb (PyStr.blank s)
  | JArr l => match l with [] => false | _ => true end
  | JObj fields => match fields with [] => false | _ => true end
  end.

Fixpoint assoc (k : string) (fields : list (string * json)) : option json :=
  match fields with
  | [] => None
  | (k', v) :: rest => if String.eqb k k' then Some v else assoc k rest
  end.

(** [d.get(k)]: only a dict has the method. *)
Definition get (d : json) (k : string) : result json :=
  match d with
  | JObj fields => Returns (default JNull (assoc k fields))
  | _ => Raises AttributeError
  end.

(** [d.get(k, dflt)]. *)
Definition get_or (d : json) (k : string) (dflt : json) : result json :=
  match d with
  | JObj fields => Returns (default dflt (assoc k fields))
  | _ => Raises AttributeError
  end.

(** [d[k]] for a string key. *)
Definition item (d : json) (k : string) : result json :=
  match d with
  | JObj fields =>
      match assoc k fields with
      | Some v => Returns v
      | None => Raises KeyError
      end
  | _ => Raises TypeError
  end.

(** [x[0]]. *)
Definition item0 (x : json) : result json :=
  match x with
  | JArr (v :: _) => Returns v
  | JArr [] => Raises IndexError
  | JStr (String a _) => Returns (JStr (String a EmptyString))
  | JStr EmptyString => Raises IndexError
  | JObj _ => Raises KeyError
  | _ => Raises TypeError
  end.

(** The number a value stands for in arithmetic; [bool] is an [int]. *)
Definition number (j : json) : result Q :=
  match j with
  | JNum q => Returns q
  | JBool b => Returns (if b then 1%Q else 0%Q)
  | _ => Raises TypeError
  end.

(** [a > b] on numbers. *)
Definition gt (a b : Q) : bool := negb (Qle_bool a b).

End Py.

(** ** Storage *)

(** The recognised settings; a key that the settings file lacks is [None]
    and is read through [dict.get] with the default of the call site. *)
Record Settings : Type := mkSettings {
  units : option string;
  show_aqi : option bool;
  cache_ttl_minutes : option Z;
  favorites : option (list string)
}.

Definition DEFAULT_SETTINGS : Settings :=
  {| units := Some "metric";
     show_aqi := Some true;
     cache_ttl_minutes := Some 20;
     favorites := Some [] |}.

(** The in-memory state of [Storage] and the three files it writes. *)
Record Storage : Type := mkStorage {
  settings : Settings;
  cache : gmap string json;
  history : list string;
  settings_file : option Settings;
  cache_file : option (gmap string json);
  history_file : option (list string)
}.

Definition save_settings (st : Storage) : Storage :=
  {| settings := settings st; cache := cache st; history := history st;
     settings_file := Some (settings st);
     cache_file := cache_file st; history_file := history_file st |}.

Definition save_cache (st : Storage) : Storage :=
  {| settings := settings st; cache := cache st; history := history st;
     settings_file := settings_file st;
     cache_file := Some (cache st); history_file := history_file st |}.

Definition save_history (st : Storage) : Storage :=
  {| settings := settings st; cache := cache st; history := history st;
     settings_file := settings_file st;
     cache_file := cache_file st; history_file := Some (history st) |}.

Definition with_history (st : Storage) (h : list string) : Storage :=
  {| settings := settings st; cache := cache st; history := h;
     settings_file := settings_file st;
     cache_file := cache_file st; history_file := history_file st |}.

Definition with_cache (st : Storage) (c : gmap string json) : Storage :=
  {| settings := settings st; cache := c; history := history st;
     settings_file := settings_file st;
     cache_file := cache_file st; history_file := history_file st |}.

Definition with_favorites (st : Storage) (favs : list string) : Storage :=
  {| settings :=
       {| units := units (settings st); show_aqi := show_aqi (settings st);
          cache_ttl_minutes := cache_ttl_minutes (settings st);
          favorites := Some favs |};
     cache := cache st; history := history st;
     settings_file := settings_file st;
     cache_file := cache_file st; history_file := history_file st |}.

(** [Storage.add_history] *)
Definition add_history (st : Storage) (city : string) : Storage :=
  let city := PyStr.strip city in
  if PyStr.blank city then st
  else
    let lst := filter (fun c => PyStr.lower c <> PyStr.lower city) (history st) in
    let lst := city :: lst in
    save_history (with_history st (take 20 lst)).

(** [Storage.clear_history] *)
Definition clear_history (st : Storage) : Storage :=
  save_history (with_history st []).

(** [Storage.add_favorite] *)
Definition add_favorite (st : Storage) (city : string) : Storage :=
  let favs := default [] (favorites (settings st)) in
  let favs := if decide (city ∈ favs) then favs else city :: favs in
  save_settings (with_favorites st (take 20 favs)).

(** [Storage.remove_favorite] *)
Definition remove_favorite (st : Storage) (city : string) : Storage :=
  let favs := filter (fun c => c <> city) (default [] (favorites (settings st))) in
  save_settings (with_favorites st favs).

(** [Storage.get_cached]; [JNull] is the [None] it returns for a miss. *)
Definition get_cached (st : Storage) (now : Q) (key : string) (ttl_minutes : Z)
  : result json :=
  let item := default JNull (cache st !! key) in
  if negb (Py.truthy item) then Returns JNull
  else
    let* ts := Py.get item "ts" in
    if negb (Py.truthy ts) then Returns JNull
    else
      let* t := Py.number ts in
      let age := ((now - t) / 60)%Q in
      if negb (ttl_minutes =? 0) && Py.gt age (inject_Z ttl_minutes)
      then Returns JNull
      else Py.get item "data".

(** The entry [{"ts": ts, "data": data}] that [set_cached] stores. *)
Definition cache_entry (ts : Q) (data : json) : json :=
  JObj [("ts", JNum ts); ("data", data)].

(** [Storage.set_cached] *)
Definition set_cached (st : Storage) (now : Q) (key : string) (data : json)
  : Storage :=
  save_cache (with_cache st (<[key := cache_entry now data]> (cache st))).

(** ** Cache keys *)

Module Fmt.

(** The nearest integer, ties to the even one: what Python's fixed-point
    formatting does with the exact value. *)
Definition round_half_even (q : Q) : Z :=
  let n := Qnum q in
  let d := Z.pos (Qden q) in
  let fl := n / d in
  match (2 * (n mod d) ?= d) with
  | Lt => fl
  | Gt => fl + 1
  | Eq => if Z.even fl then fl else fl + 1
  end.

Definition digit (n : Z) : ascii := ascii_of_N (Z.to_N (48 + n mod 10)).

Definition decimal (n : Z) : string :=
  NilZero.string_of_uint (N.to_uint (Z.to_N n)).

(** [f"{q:.4f}"] for a number. *)
Definition fixed4 (q : Q) : string :=
  let a := Z.abs (round_half_even (q * 10000)) in
  (if Qnum q <? 0 then "-" else "")
  +:+ decimal (a / 10000) +:+ "."
  +:+ String (digit (a / 1000)) (String (digit (a / 100))
       (String (digit (a / 10)) (String (digit a) EmptyString))).

(** [f"{v:.4f}"] for a Python value. *)
Definition format4 (v : json) : result string :=
  match v with
  | JNum q => Returns (fixed4 q)
  | JBool b => Returns (fixed4 (if b then 1 else 0))
  | JStr _ => Raises ValueError
  | _ => Raises TypeError
  end.

End Fmt.

(** [f"geo::{city.lower()}"] *)
Definition geo_key (city : string) : string := "geo::" +:+ PyStr.lower city.

(** [f"{geo['lat']:.4f},{geo['lon']:.4f}"] *)
Definition coords (geo : json) : result string :=
  let* lat := Py.item geo "lat" in
  let* flat := Fmt.format4 lat in
  let* lon := Py.item geo "lon" in
  let* flon := Fmt.format4 lon in
  Returns (flat +:+ "," +:+ flon).

(** [f"wx::{geo['lat']:.4f},{geo['lon']:.4f}::{units}"] *)
Definition w_key (geo : json) (units : string) : result string :=
  let* c := coords geo in Returns ("wx::" +:+ c +:+ "::" +:+ units).

(** [f"aqi::{geo['lat']:.4f},{geo['lon']:.4f}"] *)
Definition a_key (geo : json) : result string :=
  let* c := coords geo in Returns ("aqi::" +:+ c).

(** ** The external service and [http_get] *)

(** What [requests.get] yields: a status with a body that is JSON or not,
    or no response at all (time-out, connection failure). *)
Inductive response : Type :=
| Response (status : Z) (body : option json)
| NoResponse.

Record Service : Type := mkService {
  geo_api : string -> response;
  forecast_api : Q -> Q -> string -> response;
  air_api : Q -> Q -> response
}.

Definition http_get (r : response) : result json :=
  match r with
  | NoResponse => Raises RequestException
  | Response status body =>
      if status =? 200 then
        match body with
        | Some j => Returns j
        | None => Raises ValueError
        end
      else if status =? 404 then Raises NotFound404
      else
        let msg :=
          match body with
          | Some j =>
              match Py.get_or j "message" (JStr "") with
              | Returns m => m
              | Raises _ => JStr ""
              end
          | None => JStr ""
          end in
        Raises (ServiceError status msg)
  end.

(** ** FetchWorker *)

Record FetchWorker : Type := mkFetchWorker {
  w_city : string;
  w_units : string;
  w_show_aqi : bool
}.

(** The signal a worker emits when [run] ends. *)
Inductive signal : Type :=
| Done (geo wx aqi : json)
| Failed (e : pyexn).

Section Worker.

(** [float(s)] for a string [s]; [None] when it raises [ValueError]. *)
Variable float_of_str : string -> option Q.

Definition float (v : json) : result Q :=
  match v with
  | JNum q => Returns q
  | JBool b => Returns (if b then 1%Q else 0%Q)
  | JStr s =>
      match float_of_str s with
      | Some q => Returns q
      | None => Raises ValueError
      end
  | _ => Raises TypeError
  end.

(** [FetchWorker.run] *)
Definition run (w : FetchWorker) (svc : Service) : signal :=
  let r :=
    let* g := http_get (geo_api svc (w_city w)) in
    if negb (Py.truthy g) then Raises CityNotFound
    else
      let* item := Py.item0 g in
      let* lat_v := Py.item item "lat" in
      let* lat := float lat_v in
      let* lon_v := Py.item item "lon" in
      let* lon := float lon_v in
      let* name := Py.get_or item "name" (JStr "") in
      let* country := Py.get_or item "country" (JStr "") in
      let* wx := http_get (forecast_api svc lat lon (w_units w)) in
      let aqi :=
        if w_show_aqi w then
          match http_get (air_api svc lat lon) with
          | Returns a => a
          | Raises _ => JObj []
          end
        else JObj [] in
      Returns (JObj [("name", name); ("country", country);
                     ("lat", JNum lat); ("lon", JNum lon)], wx, aqi) in
  match r with
  | Returns (geo, wx, aqi) => Done geo wx aqi
  | Raises e => Failed e
  end.

End Worker.

(** ** WeatherApp: the cache-or-fetch decision and the completion handlers *)

(** The fields of [WeatherApp] that the fetch path reads or writes.
    [alerts] collects what [QMessageBox.critical] showed, newest first.
    Rendering ([apply_theme], [render_current], ...) is presentation and is
    not part of the state. *)
Record WeatherApp : Type := mkWeatherApp {
  storage : Storage;
  city_edit : string;
  search_enabled : bool;
  current_city : string;
  current_geo : json;
  current_weather : json;
  current_aqi : json;
  worker : option FetchWorker;
  alerts : list pyexn
}.

Definition with_storage (app : WeatherApp) (st : Storage) : WeatherApp :=
  {| storage := st; city_edit := city_edit app;
     search_enabled := search_enabled app;
     current_city := current_city app; current_geo := current_geo app;
     current_weather := current_weather app; current_aqi := current_aqi app;
     worker := worker app; alerts := alerts app |}.

Definition with_search_enabled (app : WeatherApp) (b : bool) : WeatherApp :=
  {| storage := storage app; city_edit := city_edit app;
     search_enabled := b;
     current_city := current_city app; current_geo := current_geo app;
     current_weather := current_weather app; current_aqi := current_aqi app;
     worker := worker app; alerts := alerts app |}.

Definition with_current (app : WeatherApp) (city : string) (geo wx aqi : json)
  : WeatherApp :=
  {| storage := storage app; city_edit := city_edit app;
     search_enabled := search_enabled app;
     current_city := city; current_geo := geo;
     current_weather := wx; current_aqi := aqi;
     worker := worker app; alerts := alerts app |}.

Definition with_worker (app : WeatherApp) (w : FetchWorker) : WeatherApp :=
  {| storage := storage app; city_edit := city_edit app;
     search_enabled := search_enabled app;
     current_city := current_city app; current_geo := current_geo app;
     current_weather := current_weather app; current_aqi := current_aqi app;
     worker := Some w; alerts := alerts app |}.

Definition critical (app : WeatherApp) (e : pyexn) : WeatherApp :=
  {| storage := storage app; city_edit := city_edit app;
     search_enabled := search_enabled app;
     current_city := current_city app; current_geo := current_geo app;
     current_weather := current_weather app; current_aqi := current_aqi app;
     worker := worker app; alerts := e :: alerts app |}.

(** [WeatherApp.on_worker_finished] *)
Definition on_worker_finished (app : WeatherApp) : WeatherApp :=
  with_search_enabled app true.

(** [WeatherApp.on_fetch_done], up to the assignment of [current_aqi]; the
    state comes back also when an exception leaves the handler. *)
Definition on_fetch_done (app : WeatherApp) (now : Q) (geo wx aqi : json)
  : result unit * WeatherApp :=
  let app := on_worker_finished app in
  let city := PyStr.strip (city_edit app) in
  let app := with_storage app (set_cached (storage app) now (geo_key city) geo) in
  let units := default "metric" (units (settings (storage app))) in
  match w_key geo units with
  | Raises e => (Raises e, app)
  | Returns wk =>
      let app := with_storage app (set_cached (storage app) now wk wx) in
      let written :=
        if default true (show_aqi (settings (storage app))) && Py.truthy aqi
        then
          match a_key geo with
          | Raises e => Raises e
          | Returns ak =>
              Returns (with_storage app (set_cached (storage app) now ak aqi))
          end
        else Returns app in
      match written with
      | Raises e => (Raises e, app)
      | Returns app =>
          let app := with_storage app (add_history (storage app) city) in
          (Returns tt, with_current app city geo wx aqi)
      end
  end.

(** [WeatherApp.on_fetch_failed] *)
Definition on_fetch_failed (app : WeatherApp) (err : pyexn) : WeatherApp :=
  critical (on_worker_finished app) err.

(** The three cache lookups of [fetch_and_render]. *)
Inductive category : Type := Geocode | Forecast | AirQuality.

Record lookup : Type := mkLookup {
  lk_category : category;
  lk_key : string;
  lk_ttl : Z;
  lk_result : result json
}.

(** How a call of [fetch_and_render] ends. *)
Inductive outcome : Type :=
| Ignored                              (* blank input: plain return *)
| CacheHit (geo wx aqi : json)         (* on_fetch_done called with cached data *)
| Dispatched (w : FetchWorker)         (* worker created and started *)
| Errored (e : pyexn).                 (* exception caught, shown in a dialog *)

Record fetched : Type := mkFetched {
  fr_outcome : outcome;
  fr_lookups : list lookup;            (* the get_cached calls made, in order *)
  fr_app : WeatherApp
}.

(** The [except Exception] branch of [fetch_and_render]. *)
Definition caught (app : WeatherApp) (log : list lookup) (e : pyexn) : fetched :=
  {| fr_outcome := Errored e; fr_lookups := log;
     fr_app := on_worker_finished (critical app e) |}.

(** The final [if wx and (aqi or not show_aqi)] of [fetch_and_render]. *)
Definition hit_or_dispatch (app : WeatherApp) (now : Q) (log : list lookup)
    (city units : string) (geo wx aqi : json) : fetched :=
  let show := default true (show_aqi (settings (storage app))) in
  if Py.truthy wx && (Py.truthy aqi || negb show) then
    let aqi' := if Py.truthy aqi then aqi else JObj [] in
    match on_fetch_done app now geo wx aqi' with
    | (Returns _, app') =>
        {| fr_outcome := CacheHit geo wx aqi'; fr_lookups := log; fr_app := app' |}
    | (Raises e, app') => caught app' log e
    end
  else
    let w := {| w_city := city; w_units := units; w_show_aqi := show |} in
    {| fr_outcome := Dispatched w; fr_lookups := log; fr_app := with_worker app w |}.

(** [WeatherApp.fetch_and_render].  [API_KEY] is never empty (the literal
    default replaces an unset or empty environment variable), so the guard
    on it cannot fire and has no counterpart here. *)
Definition fetch_and_render (app : WeatherApp) (now : Q) (force_refresh : bool)
  : fetched :=
  let city := PyStr.strip (city_edit app) in
  if PyStr.blank city then
    {| fr_outcome := Ignored; fr_lookups := []; fr_app := app |}
  else
    let app := with_search_enabled app false in
    let st := storage app in
    let units := default "metric" (units (settings st)) in
    let ttl := if force_refresh then 0 else default 20 (cache_ttl_minutes (settings st)) in
    let gk := geo_key city in
    let r_geo := get_cached st now gk 1440 in
    let log := [mkLookup Geocode gk 1440 r_geo] in
    match r_geo with
    | Raises e => caught app log e
    | Returns geo =>
        if Py.truthy geo then
          match w_key geo units with
          | Raises e => caught app log e
          | Returns wk =>
              let r_wx := get_cached st now wk ttl in
              let log := (log ++ [mkLookup Forecast wk ttl r_wx])%list in
              match r_wx with
              | Raises e => caught app log e
              | Returns wx =>
                  if default true (show_aqi (settings st)) then
                    match a_key geo with
                    | Raises e => caught app log e
                    | Returns ak =>
                        let r_aqi := get_cached st now ak 60 in
                        let log := (log ++ [mkLookup AirQuality ak 60 r_aqi])%list in
                        match r_aqi with
                        | Raises e => caught app log e
                        | Returns aqi => hit_or_dispatch app now log city units geo wx aqi
                        end
                    end
                  else hit_or_dispatch app now log city units geo wx JNull
              end
          end
        else hit_or_dispatch app now log city units geo JNull JNull
    end.

(** ** One whole request: decision, worker, completion *)

(** What the caller of a request ends up with. *)
Inductive delivery : Type :=
| NoRequest                            (* blank input *)
| Snapshot (geo wx aqi : json)         (* current_geo, current_weather, current_aqi *)
| FetchError (e : pyexn)               (* shown by on_fetch_failed or the except branch *)
| SlotRaised (e : pyexn).              (* exception left the on_fetch_done slot *)

Record resolved : Type := mkResolved {
  rs_delivery : delivery;
  rs_fetched : bool;                   (* a worker was dispatched *)
  rs_app : WeatherApp
}.

Section Resolve.

Variable float_of_str : string -> option Q.

(** [fetch_and_render] at clock [now]; when it starts a worker, the
    worker runs against [svc] and its signal is handled at clock [later],
    followed by the [finished] signal. *)
Definition resolve (app : WeatherApp) (now : Q) (force_refresh : bool)
    (svc : Service) (later : Q) : resolved :=
  let f := fetch_and_render app now force_refresh in
  match fr_outcome f with
  | Ignored => mkResolved NoRequest false (fr_app f)
  | CacheHit geo wx aqi => mkResolved (Snapshot geo wx aqi) false (fr_app f)
  | Errored e => mkResolved (FetchError e) false (fr_app f)
  | Dispatched w =>
      match run float_of_str w svc with
      | Done geo wx aqi =>
          match on_fetch_done (fr_app f) later geo wx aqi with
          | (Returns _, app') =>
              mkResolved (Snapshot geo wx aqi) true (on_worker_finished app')
          | (Raises e, app') =>
              mkResolved (SlotRaised e) true (on_worker_finished app')
          end
      | Failed e =>
          mkResolved (FetchError e) true
            (on_worker_finished (on_fetch_failed (fr_app f) e))
      end
  end.

End Resolve.

(** ** Vocabulary of the properties *)

(** Age in minutes at clock [now] of an entry stored at [ts]. *)
Definition age_minutes (now ts : Q) : Q := ((now - ts) / 60)%Q.

(** [key] holds an entry as [set_cached] writes it, with a time stamp that
    [get_cached] accepts. *)
Definition cached_any_age (st : Storage) (key : string) (d : json) : Prop :=
  exists ts, cache st !! key = Some (cache_entry ts d) /\ ~ (ts == 0)%Q.

(** The same, and the entry is at most [minutes] old at clock [now]. *)
Definition cached_within (st : Storage) (now : Q) (key : string) (minutes : Z)
    (d : json) : Prop :=
  exists ts, cache st !! key = Some (cache_entry ts d) /\ ~ (ts == 0)%Q /\
             (age_minutes now ts <= inject_Z minutes)%Q.

(** [key] holds nothing, or an entry older than [minutes] at clock [now]. *)
Definition not_fresh (st : Storage) (now : Q) (key : string) (minutes : Z) : Prop :=
  cache st !! key = None \/
  exists ts d, cache st !! key = Some (cache_entry ts d) /\ ~ (ts == 0)%Q /\
               (inject_Z minutes < age_minutes now ts)%Q.

(** The time stamp of a stored object is missing, null or zero. *)
Definition untimed (fields : list (string * json)) : Prop :=
  Py.assoc "ts" fields = None \/
  Py.assoc "ts" fields = Some JNull \/
  exists q, Py.assoc "ts" fields = Some (JNum q) /\ (q == 0)%Q.

Definition category_eqb (a b : category) : bool :=
  match a, b with
  | Geocode, Geocode | Forecast, Forecast | AirQuality, AirQuality => true
  | _, _ => false
  end.

(** A lookup was made and gave a value that counts as present. *)
Definition succeeded (lk : lookup) : bool :=
  match lk_result lk with
  | Returns v => Py.truthy v
  | Raises _ => false
  end.

Definition lookup_succeeded (c : category) (log : list lookup) : bool :=
  existsb (fun lk => category_eqb (lk_category lk) c && succeeded lk) log.

Definition is_hit (o : outcome) : bool :=
  match o with CacheHit _ _ _ => true | _ => false end.

Definition is_dispatched (o : outcome) : bool :=
  match o with Dispatched _ => true | _ => false end.

(** Two characters that are the same letter in either case: the character
    database gives them the same lower-case letter. *)
Definition same_letter (a b : N) : Prop :=
  PyStr.simple_lower a = PyStr.simple_lower b.

(** The two capital letters that [str.lower] does not simply replace by
    their lower-case letter are set apart. *)
Definition plain (c : N) : Prop :=
  c <> PyStr.capital_sigma /\ c <> PyStr.capital_i_dot.

Definition same_plain_letter (a b : N) : Prop :=
  a = b \/ (same_letter a b /\ plain a /\ plain b).

(** Two strings that differ only in letter case, for a given reading of
    "the same letter". *)
Definition case_variants (letter : N -> N -> Prop) (s t : string) : Prop :=
  Forall2 letter (PyStr.chars s) (PyStr.chars t).

(** A string of white-space characters. *)
Definition white (s : string) : Prop :=
  exists ws, Forall (fun c => PyStr.is_space c = true) ws /\ s = PyStr.utf8 ws.

(** A string that neither begins nor ends with a white-space character. *)
Definition bare (s : string) : Prop :=
  forall c x, PyStr.is_space c = true ->
              s <> PyStr.utf8 [c] +:+ x /\ s <> x +:+ PyStr.utf8 [c].

(** [s] is [core] with white space before and after it. *)
Definition padded (s core : string) : Prop :=
  exists l r, white l /\ white r /\ bare core /\ s = l +:+ core +:+ r.

(** Two place names that differ only in letter case and in leading and
    trailing white space. *)
Definition alike (letter : N -> N -> Prop) (s1 s2 : string) : Prop :=
  exists c1 c2, padded s1 c1 /\ padded s2 c2 /\ case_variants letter c1 c2.



(** [q] lies within half a unit of the fourth decimal place of [m / 10^4]. *)
Definition rounds_to (q : Q) (m : Z) : Prop :=
  (inject_Z m - (1 # 2) < q * 10000 /\ q * 10000 < inject_Z m + (1 # 2))%Q.

Definition same_sign (p q : Q) : Prop := (Qnum p <? 0) = (Qnum q <? 0).

(** [q] cut after the fourth decimal place, as an integer number of
    ten-thousandths. *)
Definition truncated4 (q : Q) : Z := Z.quot (Qnum (q * 10000)) (Z.pos (Qden (q * 10000))).

(** Recording a sequence of visits, first to last. *)
Definition record_all (st : Storage) (names : list string) : Storage :=
  fold_left add_history names st.

(** ** Sample states *)

Module Sample.

Definition payload : json := JObj [("list", JArr [JNum 1])].

Definition storage_of (c : gmap string json) : Storage :=
  {| settings := DEFAULT_SETTINGS; cache := c; history := [];
     settings_file := None; cache_file := None; history_file := None |}.

Definition app_of (st : Storage) (text : string) : WeatherApp :=
  {| storage := st; city_edit := text; search_enabled := true;
     current_city := ""; current_geo := JNull; current_weather := JNull;
     current_aqi := JNull; worker := None; alerts := [] |}.

(** Nothing cached, nothing visited. *)
Definition cold : Storage := storage_of ∅.

(** One entry stored at second 1000. *)
Definition one_entry : Storage :=
  storage_of {[ "k" := cache_entry 1000 payload ]}.

(** One entry whose time stamp is the epoch itself. *)
Definition epoch_entry : Storage :=
  storage_of {[ "k" := cache_entry 0 payload ]}.

(** One object without a time stamp. *)
Definition untimed_entry : Storage :=
  storage_of {[ "k" := JObj [("data", payload)] ]}.

(** Three geocode payloads with one longitude and the latitudes
    35.68991, 35.68999 and 35.68994. *)
Definition geo_of (lat lon : Q) : json :=
  JObj [("name", JStr "Tehran"); ("country", JStr "IR");
        ("lat", JNum lat); ("lon", JNum lon)].

Definition geo_a : json := geo_of (3568991 # 100000) (513890 # 10000).
Definition geo_b : json := geo_of (3568999 # 100000) (513890 # 10000).
Definition geo_c : json := geo_of (3568994 # 100000) (513890 # 10000).

Definition tehran : json := geo_of (356892 # 10000) (513890 # 10000).

Definition air : json :=
  JObj [("list", JArr [JObj [("main", JObj [("aqi", JNum 2)])]])].

(** Geocode, forecast and air quality of Tehran, all stored at second
    1000. *)
Definition warm : Storage :=
  storage_of
    (<["geo::tehran" := cache_entry 1000 tehran]>
       (<["wx::35.6892,51.3890::metric" := cache_entry 1000 payload]>
          (<["aqi::35.6892,51.3890" := cache_entry 1000 air]> ∅))).

(** Only an air-quality entry, stored at second 1000. *)
Definition air_only : Storage :=
  storage_of (<["aqi::35.6892,51.3890" := cache_entry 1000 air]> ∅).

(** A service that knows Tehran and nothing else; [air_status] is the
    status of its air-quality endpoint. *)
Definition service (air_status : Z) : Service :=
  {| geo_api := fun q =>
       if String.eqb q "Tehran" then Response 200 (Some (JArr [tehran]))
       else Response 200 (Some (JArr []));
     forecast_api := fun _ _ _ => Response 200 (Some payload);
     air_api := fun _ _ =>
       Response air_status (Some (if air_status =? 200 then air else JObj [])) |}.

(** A service whose forecast endpoint answers 503. *)
Definition forecast_down : Service :=
  {| geo_api := fun _ => Response 200 (Some (JArr [tehran]));
     forecast_api := fun _ _ _ =>
       Response 503 (Some (JObj [("message", JStr "unavailable")]));
     air_api := fun _ _ => Response 200 (Some air) |}.

Definition no_float (s : string) : option Q := None.

(** Twenty-five distinct names, none of them Paris. *)
Definition other_names : list string :=
  ["Tehran"; "Shiraz"; "Tabriz"; "Isfahan"; "Mashhad"; "Yazd"; "Qom";
   "Ahvaz"; "Rasht"; "Kerman"; "Karaj"; "Arak"; "Zanjan"; "Sari"; "Gorgan";
   "Ilam"; "Birjand"; "Bushehr"; "Semnan"; "Hamedan"; "Qazvin"; "Urmia";
   "Ardabil"; "Yasuj"; "Sanandaj"].

End Sample.

(** ** The rest of [Storage]: loading *)

From Stdlib Require Import Qround.

(** [Storage._load]: the content of the file, or the default when the file
    is missing or does not parse ([None]). *)
Definition _load {A : Type} (file : option A) (dflt : A) : A := default dflt file.

(** [Storage.load_all] *)
Definition load_all (st : Storage) : Storage :=
  {| settings := _load (settings_file st) DEFAULT_SETTINGS;
     cache := _load (cache_file st) ∅;
     history := _load (history_file st) [];
     settings_file := settings_file st;
     cache_file := cache_file st; history_file := history_file st |}.

(** ** Presentation helpers *)

Module PyList.

(** [l[i]] for a list: a negative index counts from the end. *)
Definition item {A : Type} (l : list A) (i : Z) : result A :=
  let n := Z.of_nat (length l) in
  let j := if i <? 0 then i + n else i in
  if (j <? 0) || (n <=? j) then Raises IndexError
  else
    match nth_error l (Z.to_nat j) with
    | Some x => Returns x
    | None => Raises IndexError
    end.

End PyList.

(** [weather_emoji] *)
Definition weather_emoji (code : Z) (is_night : bool) : string :=
  if code / 100 =? 2 then "⛈️"
  else if code / 100 =? 3 then "🌦️"
  else if code / 100 =? 5 then "🌧️"
  else if code / 100 =? 6 then "❄️"
  else if code / 100 =? 7 then "🌫️"
  else if code =? 800 then (if is_night then "🌙" else "☀️")
  else if code =? 801 then (if is_night then "🌥️" else "🌤️")
  else if (code =? 802) || (code =? 803) then "⛅"
  else if code =? 804 then "☁️"
  else "🌡️".

(** [get_day_name_fa] *)
Definition get_day_name_fa (i : Z) : result string :=
  let d := ["دوشنبه"; "سه‌شنبه"; "چهارشنبه"; "پنج‌شنبه"; "جمعه"; "شنبه"; "یکشنبه"] in
  PyList.item d i.

(** [x % m] on numbers, for a positive [m]: the result is in [0, m). *)
Definition fmod (x m : Q) : Q := (x - m * inject_Z (Qfloor (x / m)))%Q.

(** The index that [wind_dir_arrow] computes:
    [int(((deg % 360) + 22.5) // 45) % 8]. *)
Definition wind_dir_index (deg : Q) : Z :=
  Qfloor ((fmod deg 360 + (45 # 2)) / 45) mod 8.

(** [wind_dir_arrow] *)
Definition wind_dir_arrow (deg : option Q) : result string :=
  match deg with
  | None => Returns ""
  | Some deg =>
      let dirs := ["↑"; "↗"; "→"; "↘"; "↓"; "↙"; "←"; "↖"] in
      PyList.item dirs (wind_dir_index deg)
  end.

(** ** The rest of [WeatherApp]: the handlers around a request *)

Definition with_city_edit (app : WeatherApp) (text : string) : WeatherApp :=
  {| storage := storage app; city_edit := text;
     search_enabled := search_enabled app;
     current_city := current_city app; current_geo := current_geo app;
     current_weather := current_weather app; current_aqi := current_aqi app;
     worker := worker app; alerts := alerts app |}.

(** [WeatherApp.search_city] *)
Definition search_city (app : WeatherApp) (now : Q) (city : string) : fetched :=
  fetch_and_render (with_city_edit app city) now false.

(** [WeatherApp.refresh_current]; [None] when it does nothing. *)
Definition refresh_current (app : WeatherApp) (now : Q) : option fetched :=
  if PyStr.blank (current_city app) then None
  else Some (fetch_and_render app now true).

(** [WeatherApp.add_current_to_favorites] *)
Definition add_current_to_favorites (app : WeatherApp) : WeatherApp :=
  if PyStr.blank (current_city app) then app
  else
    let favs := default [] (favorites (settings (storage app))) in
    if decide (current_city app ∈ favs)
    then with_storage app (remove_favorite (storage app) (current_city app))
    else with_storage app (add_favorite (storage app) (current_city app)).

(** What [IpCityWorker.run] emits: [found] with the city, or [failed]. *)
Inductive ip_failure : Type :=
| IpRaised (e : pyexn)                 (* http_get, d.get or emit raised *)
| IpNoCity.                            (* RuntimeError: no city in the answer *)

Inductive ip_signal : Type :=
| IpFound (city : string)
| IpFailed (err : ip_failure).

Section Startup.

(** The string that a [Signal(str)] delivers for a value that is not a
    [str]; [None] when [emit] raises. *)
Variable emit_str : json -> option string.

(** [IpCityWorker.run] *)
Definition ip_run (r : response) : ip_signal :=
  match http_get r with
  | Raises e => IpFailed (IpRaised e)
  | Returns d =>
      match Py.get d "city" with
      | Raises e => IpFailed (IpRaised e)
      | Returns c =>
          if negb (Py.truthy c) then IpFailed IpNoCity
          else
            match c with
            | JStr s => IpFound s
            | _ =>
                match emit_str c with
                | Some s => IpFound s
                | None => IpFailed (IpRaised TypeError)
                end
            end
      end
  end.

(** [WeatherApp.on_ip_found] *)
Definition on_ip_found (app : WeatherApp) (now : Q) (city : string) : fetched :=
  fetch_and_render (with_city_edit app city) now false.

(** [WeatherApp.on_ip_failed] *)
Definition on_ip_failed (app : WeatherApp) (now : Q) (err : ip_failure) : fetched :=
  fetch_and_render (with_city_edit app "Tehran") now false.

(** [WeatherApp.detect_ip_and_fetch] followed by the handler of the
    signal that the worker emits for the answer [r]. *)
Definition detect_ip_and_fetch (app : WeatherApp) (now : Q) (r : response)
  : fetched :=
  match ip_run r with
  | IpFound city => on_ip_found app now city
  | IpFailed err => on_ip_failed app now err
  end.

End Startup.

(** ** Vocabulary of the further properties *)

(** A string that [strip] leaves alone and that is not empty. *)
Definition trimmed (s : string) : Prop :=
  PyStr.strip s = s /\ PyStr.blank s = false.

(** What [add_history] keeps true of the history list. *)
Definition history_ok (h : list string) : Prop :=
  (length h <= 20)%nat /\ NoDup (PyStr.lower <$> h) /\ Forall trimmed h.

(** Memory and files agree: loading changes nothing. *)
Definition synced (st : Storage) : Prop := load_all st = st.

(** The mutating operations of [Storage]. *)
Inductive storage_op : Type :=
| OpAddHistory (city : string)
| OpClearHistory
| OpAddFavorite (city : string)
| OpRemoveFavorite (city : string)
| OpSetCached (now : Q) (key : string) (data : json).

Definition apply_op (st : Storage) (op : storage_op) : Storage :=
  match op with
  | OpAddHistory city => add_history st city
  | OpClearHistory => clear_history st
  | OpAddFavorite city => add_favorite st city
  | OpRemoveFavorite city => remove_favorite st city
  | OpSetCached now key data => set_cached st now key data
  end.

Definition apply_ops (st : Storage) (ops : list storage_op) : Storage :=
  fold_left apply_op ops st.

(** Every cache value is an entry as [set_cached] writes it, and a geocode
    key holds a payload from which the coordinate keys can be formed. *)
Definition entry_ok (key : string) (v : json) : Prop :=
  exists ts d, v = cache_entry ts d /\
               (String.prefix "geo::" key = true ->
                Py.truthy d = false \/ exists c, coords d = Returns c).

Definition cache_ok (c : gmap string json) : Prop :=
  forall key v, c !! key = Some v -> entry_ok key v.

Definition is_errored (o : outcome) : bool :=
  match o with Errored _ => true | _ => false end.

Definition is_ignored (o : outcome) : bool :=
  match o with Ignored => true | _ => false end.

(** Two services that answer geocode and forecast queries alike. *)
Definition same_but_air (svc svc' : Service) : Prop :=
  (forall q, geo_api svc q = geo_api svc' q) /\
  (forall lat lon u, forecast_api svc lat lon u = forecast_api svc' lat lon u).

(** ** Further sample states *)

Module Sample2.

(** The sample service with an air-quality endpoint that answers 500. *)
Definition air_down : Service := Sample.service 500.

(** A state with a current city and two favourites. *)
Definition with_favs : Storage :=
  {| settings := {| units := Some "metric"; show_aqi := Some true;
                    cache_ttl_minutes := Some 20;
                    favorites := Some ["Yazd"; "Qom"] |};
     cache := ∅; history := ["Yazd"; "Qom"];
     settings_file := None; cache_file := None; history_file := None |}.

Definition viewing (city : string) : WeatherApp :=
  {| storage := with_favs; city_edit := city; search_enabled := true;
     current_city := city; current_geo := JNull; current_weather := JNull;
     current_aqi := JNull; worker := None; alerts := [] |}.

Definition no_emit (v : json) : option string := None.

End Sample2.

(** * Properties *)

(** ** The cache: time to live *)

Lemma truthy_num (q : Q) : ~ (q == 0)%Q -> Py.truthy (JNum q) = true.
Proof.
  intros H. simpl. apply negb_true_iff. apply Z.eqb_neq. intros E.
  apply H. unfold Qeq. simpl. lia.
Qed.

Lemma falsy_num (q : Q) : (q == 0)%Q -> Py.truthy (JNum q) = false.
Proof.
  unfold Qeq. simpl. intros H. apply negb_false_iff. apply Z.eqb_eq. lia.
Qed.

Lemma gt_true (a b : Q) : (b < a)%Q -> Py.gt a b = true.
Proof.
  intros H. unfold Py.gt. apply negb_true_iff.
  destruct (Qle_bool a b) eqn:E; [|reflexivity].
  apply Qle_bool_iff in E. exfalso. exact (Qlt_not_le _ _ H E).
Qed.

Lemma gt_false (a b : Q) : (a <= b)%Q -> Py.gt a b = false.
Proof.
  intros H. unfold Py.gt. apply negb_false_iff. now apply Qle_bool_iff.
Qed.

Lemma entry_truthy ts d : Py.truthy (cache_entry ts d) = true.
Proof. reflexivity. Qed.

Lemma entry_ts ts d : Py.get (cache_entry ts d) "ts" = Returns (JNum ts).
Proof. reflexivity. Qed.

Lemma entry_data ts d : Py.get (cache_entry ts d) "data" = Returns d.
Proof. reflexivity. Qed.

Lemma get_cached_missing (st : Storage) (now : Q) (key : string) (ttl : Z) :
  cache st !! key = None -> get_cached st now key ttl = Returns JNull.
Proof. intros Hk. unfold get_cached. now rewrite Hk. Qed.

Lemma get_cached_entry (st : Storage) (now : Q) (key : string) (ttl : Z)
    (ts : Q) (d : json) :
  cache st !! key = Some (cache_entry ts d) -> ~ (ts == 0)%Q ->
  get_cached st now key ttl =
    if negb (ttl =? 0) && Py.gt (age_minutes now ts) (inject_Z ttl)
    then Returns JNull else Returns d.
Proof.
  intros Hk Hts. unfold get_cached. rewrite Hk.
  change (default JNull (Some (cache_entry ts d))) with (cache_entry ts d).
  rewrite entry_truthy, entry_ts, entry_data. cbn [negb bind].
  rewrite (truthy_num _ Hts). cbn [negb Py.number bind].
  reflexivity.
Qed.

(** Claim C1, as the code has it.  [get_cached] returns [None] when the
    key has no entry.  For an entry whose time stamp is a number other than
    zero: with a positive ttl it returns [None] when the age in minutes,
    [(now - ts) / 60], is strictly greater than the ttl, and the stored
    payload when the age is at most the ttl (so still at age exactly ttl);
    with ttl 0 it returns the stored payload whatever the age. *)
Theorem get_cached_ttl (st : Storage) (now : Q) (key : string) (ttl : Z) :
  (cache st !! key = None -> get_cached st now key ttl = Returns JNull) /\
  (forall ts d,
      cache st !! key = Some (cache_entry ts d) -> ~ (ts == 0)%Q ->
      (0 < ttl -> (inject_Z ttl < age_minutes now ts)%Q ->
         get_cached st now key ttl = Returns JNull) /\
      (0 < ttl -> (age_minutes now ts <= inject_Z ttl)%Q ->
         get_cached st now key ttl = Returns d) /\
      (ttl = 0 -> get_cached st now key ttl = Returns d)).
Proof.
  split; [apply get_cached_missing|].
  intros ts d Hk Hts. rewrite (get_cached_entry _ _ _ _ _ _ Hk Hts).
  repeat split.
  - intros Hpos Hold. rewrite (gt_true _ _ Hold).
    destruct (ttl =? 0) eqn:E; [apply Z.eqb_eq in E; lia | reflexivity].
  - intros _ Hfresh. rewrite (gt_false _ _ Hfresh). now rewrite andb_false_r.
  - intros ->. reflexivity.
Qed.

(** At ttl 20 an entry is served at 19 min 59 s and at 20 min, and missed
    at 20 min 1 s; at ttl 0 it is served at any age. *)
Lemma get_cached_ttl_witness :
  get_cached Sample.one_entry 5000 "other" 20 = Returns JNull /\
  get_cached Sample.one_entry (1000 + 1201) "k" 20 = Returns JNull /\
  get_cached Sample.one_entry (1000 + 1199) "k" 20 = Returns Sample.payload /\
  get_cached Sample.one_entry (1000 + 1200) "k" 20 = Returns Sample.payload /\
  get_cached Sample.one_entry 1000000 "k" 0 = Returns Sample.payload.
Proof.
  assert (Hk : cache Sample.one_entry !! "k" = Some (cache_entry 1000 Sample.payload))
    by reflexivity.
  assert (Hts : ~ (1000 == 0)%Q) by (unfold Qeq; simpl; lia).
  split; [apply (proj1 (get_cached_ttl Sample.one_entry 5000 "other" 20)); reflexivity|].
  split.
  { destruct (proj2 (get_cached_ttl Sample.one_entry (1000 + 1201) "k" 20) _ _ Hk Hts)
      as (Hstale & _ & _).
    apply Hstale; [lia | reflexivity]. }
  split.
  { destruct (proj2 (get_cached_ttl Sample.one_entry (1000 + 1199) "k" 20) _ _ Hk Hts)
      as (_ & Hfresh & _).
    apply Hfresh; [lia | unfold Qle; simpl; lia]. }
  split.
  { destruct (proj2 (get_cached_ttl Sample.one_entry (1000 + 1200) "k" 20) _ _ Hk Hts)
      as (_ & Hfresh & _).
    apply Hfresh; [lia | unfold Qle; simpl; lia]. }
  destruct (proj2 (get_cached_ttl Sample.one_entry 1000000 "k" 0) _ _ Hk Hts)
    as (_ & _ & Hzero).
  apply Hzero. reflexivity.
Defined.

(** Claim C1 as stated fails for an entry stored at the epoch: the entry
    exists and is 19 min 59 s old, and the lookup misses at ttl 20 and at
    ttl 0. *)
Lemma get_cached_epoch_entry_is_missed :
  cache Sample.epoch_entry !! "k" = Some (cache_entry 0 Sample.payload) /\
  get_cached Sample.epoch_entry 1199 "k" 0 = Returns JNull /\
  get_cached Sample.epoch_entry 1199 "k" 20 = Returns JNull /\
  (age_minutes 1199 0 <= inject_Z 20)%Q /\
  Sample.payload <> JNull.
Proof.
  repeat split; try reflexivity; [unfold Qle; simpl; lia | discriminate].
Qed.

(** Claim C10.  When the object stored under the key has no ["ts"] field,
    or a null one, or the number zero, [get_cached] returns [None] at every
    ttl, zero included: it neither raises nor returns the payload. *)
Theorem get_cached_untimed (st : Storage) (now : Q) (key : string) (ttl : Z)
    (fields : list (string * json)) :
  cache st !! key = Some (JObj fields) -> untimed fields ->
  get_cached st now key ttl = Returns JNull.
Proof.
  intros Hk Hu. unfold get_cached. rewrite Hk.
  change (default JNull (Some (JObj fields))) with (JObj fields).
  destruct fields as [|f fields']; [reflexivity|].
  set (fs := f :: fields') in *.
  change (Py.truthy (JObj fs)) with true. cbn [negb Py.get bind].
  destruct Hu as [-> | [-> | (q & -> & Hq)]]; cbn [default from_option id]; try reflexivity.
  change (default JNull (Some (JNum q))) with (JNum q).
  now rewrite (falsy_num _ Hq).
Qed.

(** An object without a time stamp, and one stamped zero. *)
Lemma get_cached_untimed_witness :
  get_cached Sample.untimed_entry 5 "k" 0 = Returns JNull /\
  get_cached Sample.epoch_entry 5 "k" 0 = Returns JNull.
Proof.
  split.
  - apply (get_cached_untimed Sample.untimed_entry 5 "k" 0 [("data", Sample.payload)]).
    + reflexivity.
    + left. reflexivity.
  - apply (get_cached_untimed Sample.epoch_entry 5 "k" 0
             [("ts", JNum 0); ("data", Sample.payload)]).
    + reflexivity.
    + right. right. exists 0%Q. split; reflexivity.
Defined.

(** ** Trimming and letter case *)

Section DropLeading.

Import PyStr.
Local Open Scope list_scope.

Variable toks : list (list ascii).

(** Either nothing is dropped, or the sequence begins with one of the
    given byte sequences, which is dropped whatever follows it. *)
Lemma drop_leading_step (l : list ascii) :
  drop_leading toks l = l \/
  exists t r, t ∈ toks /\ t <> [] /\ l = t ++ r /\
              forall r', drop_leading toks (t ++ r') = drop_leading toks r'.
Proof.
  destruct l as [|a l1]; [now left|].
  destruct (bool_decide ([a] ∈ toks)) eqn:E1.
  { right. exists [a], l1. apply bool_decide_eq_true in E1 as H1.
    repeat split; [exact H1 | discriminate |].
    intros r'. cbn [List.app drop_leading]. now rewrite E1. }
  destruct l1 as [|b l2]; [left; cbn [drop_leading]; now rewrite E1|].
  destruct (bool_decide ([a; b] ∈ toks)) eqn:E2.
  { right. exists [a; b], l2. apply bool_decide_eq_true in E2 as H2.
    repeat split; [exact H2 | discriminate |].
    intros r'. cbn [List.app drop_leading]. now rewrite E1, E2. }
  destruct l2 as [|c l3]; [left; cbn [drop_leading]; now rewrite E1, E2|].
  destruct (bool_decide ([a; b; c] ∈ toks)) eqn:E3.
  { right. exists [a; b; c], l3. apply bool_decide_eq_true in E3 as H3.
    repeat split; [exact H3 | discriminate |].
    intros r'. cbn [List.app drop_leading]. now rewrite E1, E2, E3. }
  left. cbn [drop_leading]. now rewrite E1, E2, E3.
Qed.

Lemma drop_leading_length (l : list ascii) :
  (length (drop_leading toks l) <= length l)%nat.
Proof.
  remember (length l) as n eqn:En. revert l En.
  induction n as [n IH] using lt_wf_ind. intros l ->.
  destruct (drop_leading_step l) as [->|(t & r & _ & Ht & -> & Hd)]; [lia|].
  rewrite Hd, length_app.
  assert (length t <> 0)%nat by (destruct t; [congruence | discriminate]).
  specialize (IH (length r)). rewrite length_app in IH.
  specialize (IH ltac:(lia) r eq_refl). lia.
Qed.

Lemma drop_leading_idem (l : list ascii) :
  drop_leading toks (drop_leading toks l) = drop_leading toks l.
Proof.
  remember (length l) as n eqn:En. revert l En.
  induction n as [n IH] using lt_wf_ind. intros l ->.
  destruct (drop_leading_step l) as [E|(t & r & _ & Ht & -> & Hd)];
    [now rewrite !E|].
  rewrite Hd. apply (IH (length r)); [|reflexivity].
  rewrite length_app. destruct t; [congruence | simpl; lia].
Qed.

Lemma drop_leading_suffix (l : list ascii) :
  exists p, l = p ++ drop_leading toks l.
Proof.
  remember (length l) as n eqn:En. revert l En.
  induction n as [n IH] using lt_wf_ind. intros l ->.
  destruct (drop_leading_step l) as [E|(t & r & _ & Ht & -> & Hd)].
  - exists []. now rewrite E.
  - destruct (IH (length r)) with (l := r) as [p Hp]; [|reflexivity|].
    + rewrite length_app. destruct t; [congruence | simpl; lia].
    + exists (t ++ p). rewrite Hd, <- app_assoc. now rewrite <- Hp.
Qed.

(** What is dropped is a sequence of the given byte sequences. *)
Lemma drop_leading_dropped (l : list ascii) :
  exists ts, Forall (fun t => t ∈ toks) ts /\
             l = concat ts ++ drop_leading toks l.
Proof.
  remember (length l) as n eqn:En. revert l En.
  induction n as [n IH] using lt_wf_ind. intros l ->.
  destruct (drop_leading_step l) as [E|(t & r & Hin & Ht & -> & Hd)].
  - exists []. split; [constructor | now rewrite E].
  - destruct (IH (length r)) with (l := r) as (ts & Hts & Hr); [|reflexivity|].
    + rewrite length_app. destruct t; [congruence | simpl; lia].
    + exists (t :: ts). split; [now constructor|].
      rewrite Hd. cbn [concat]. rewrite <- app_assoc. now rewrite <- Hr.
Qed.

(** What is left alone has only beginnings that are left alone. *)
Lemma drop_leading_prefix (p q : list ascii) :
  drop_leading toks (p ++ q) = p ++ q -> drop_leading toks p = p.
Proof.
  intros H.
  destruct (drop_leading_step p) as [E|(t & r & _ & Ht & -> & Hd)];
    [exact E|].
  exfalso. rewrite <- app_assoc, Hd in H.
  pose proof (drop_leading_length (r ++ q)) as Hl.
  rewrite H, !length_app in Hl.
  destruct t; [congruence | simpl in Hl; lia].
Qed.

End DropLeading.

Section StringFacts.

Import PyStr.
Local Open Scope list_scope.

Lemma append_cons (a : ascii) (s t : string) :
  String a s +:+ t = String a (s +:+ t).
Proof. reflexivity. Qed.

Lemma append_nil_r (s : string) : s +:+ EmptyString = s.
Proof.
  induction s as [|a s IH]; [reflexivity|]. now rewrite append_cons, IH.
Qed.

Lemma append_assoc (s t u : string) : (s +:+ t) +:+ u = s +:+ (t +:+ u).
Proof.
  induction s as [|a s IH]; [reflexivity|]. now rewrite !append_cons, IH.
Qed.

Lemma list_ascii_of_string_app (s t : string) :
  list_ascii_of_string (s +:+ t)
  = list_ascii_of_string s ++ list_ascii_of_string t.
Proof.
  induction s as [|a s IH]; [reflexivity|].
  rewrite append_cons. simpl. now rewrite IH.
Qed.

Lemma string_of_list_ascii_app (l1 l2 : list ascii) :
  string_of_list_ascii (l1 ++ l2)
  = string_of_list_ascii l1 +:+ string_of_list_ascii l2.
Proof.
  induction l1 as [|a l1 IH]; [reflexivity|].
  simpl. now rewrite append_cons, IH.
Qed.

Lemma utf8_cons (c : N) (cs : list N) :
  utf8 (c :: cs) = string_of_list_ascii (code c) +:+ utf8 cs.
Proof.
  unfold utf8, of_bytes, encode, code. cbn [fmap list_fmap concat].
  now rewrite fmap_app, string_of_list_ascii_app.
Qed.

Lemma utf8_one (c : N) : utf8 [c] = string_of_list_ascii (code c).
Proof.
  rewrite utf8_cons. change (utf8 []) with EmptyString.
  apply append_nil_r.
Qed.

Lemma is_space_code (c : N) : is_space c = true -> code c ∈ spaces.
Proof.
  intros H. apply bool_decide_eq_true in H.
  unfold spaces. now apply list_elem_of_fmap_2.
Qed.

Lemma spaces_code (t : list ascii) :
  t ∈ spaces -> exists c, is_space c = true /\ t = code c.
Proof.
  unfold spaces. intros (c & -> & Hc)%list_elem_of_fmap_1.
  exists c. split; [now apply bool_decide_eq_true | reflexivity].
Qed.

Lemma lstrip_code (c : N) (x : list ascii) :
  is_space c = true -> lstrip (code c ++ x) = lstrip x.
Proof.
  intros H. apply bool_decide_eq_true in H. revert c H x.
  apply (proj1 (Forall_forall
                  (fun c => forall x, lstrip (code c ++ x) = lstrip x)
                  white_space)).
  unfold white_space.
  repeat (apply Forall_cons; split; [intros x; vm_compute; reflexivity|]).
  apply Forall_nil_2.
Qed.

Lemma rstrip_code (c : N) (x : list ascii) :
  is_space c = true -> rstrip (x ++ code c) = rstrip x.
Proof.
  intros H. unfold rstrip. rewrite rev_app_distr. f_equal.
  apply bool_decide_eq_true in H. revert c H x.
  apply (proj1 (Forall_forall
                  (fun c => forall x,
                     drop_leading (@rev ascii <$> spaces) (rev (code c) ++ rev x)
                     = drop_leading (@rev ascii <$> spaces) (rev x))
                  white_space)).
  unfold white_space.
  repeat (apply Forall_cons; split;
          [intros x; generalize (rev x); intros y; vm_compute; reflexivity|]).
  apply Forall_nil_2.
Qed.

Lemma white_nil : white EmptyString.
Proof. exists []. split; [constructor | reflexivity]. Qed.

Lemma lstrip_white (l : string) (x : list ascii) :
  white l -> lstrip (list_ascii_of_string l ++ x) = lstrip x.
Proof.
  intros (ws & Hws & ->). induction Hws as [|c ws Hc _ IH]; [reflexivity|].
  rewrite utf8_cons, list_ascii_of_string_app,
    list_ascii_of_string_of_list_ascii, <- app_assoc.
  now rewrite lstrip_code.
Qed.

Lemma rstrip_white (r : string) (x : list ascii) :
  white r -> rstrip (x ++ list_ascii_of_string r) = rstrip x.
Proof.
  intros (ws & Hws & ->). revert x.
  induction Hws as [|c ws Hc _ IH]; intros x.
  - change (utf8 []) with EmptyString. simpl. now rewrite app_nil_r.
  - rewrite utf8_cons, list_ascii_of_string_app,
      list_ascii_of_string_of_list_ascii, app_assoc, IH.
    now apply rstrip_code.
Qed.

Lemma rstrip_prefix (l : list ascii) : exists q, l = rstrip l ++ q.
Proof.
  unfold rstrip.
  destruct (drop_leading_suffix (@rev ascii <$> spaces) (rev l)) as [p Hp].
  exists (rev p). rewrite <- rev_app_distr, <- Hp. now rewrite rev_involutive.
Qed.

Lemma rstrip_idem (l : list ascii) : rstrip (rstrip l) = rstrip l.
Proof. unfold rstrip. now rewrite rev_involutive, drop_leading_idem. Qed.

Lemma lstrip_rstrip (l : list ascii) :
  lstrip l = l -> lstrip (rstrip l) = rstrip l.
Proof.
  intros H. destruct (rstrip_prefix l) as [q Hq].
  apply (drop_leading_prefix spaces _ q). unfold lstrip in H.
  now rewrite <- Hq.
Qed.

Lemma strip_strip (s : string) : strip (strip s) = strip s.
Proof.
  unfold strip. rewrite list_ascii_of_string_of_list_ascii.
  rewrite lstrip_rstrip by apply drop_leading_idem.
  now rewrite rstrip_idem.
Qed.

(** A string is left alone by [strip] exactly when it neither begins nor
    ends with a white-space character. *)
Lemma bare_lstrip (s : string) :
  bare s -> lstrip (list_ascii_of_string s) = list_ascii_of_string s.
Proof.
  intros Hb.
  destruct (drop_leading_step spaces (list_ascii_of_string s))
    as [E|(t & r & Ht & _ & E & _)]; [exact E|].
  exfalso. destruct (spaces_code t Ht) as (c & Hc & ->).
  apply (proj1 (Hb c (string_of_list_ascii r) Hc)).
  rewrite utf8_one, <- string_of_list_ascii_app, <- E.
  now rewrite string_of_list_ascii_of_string.
Qed.

Lemma bare_rstrip (s : string) :
  bare s -> rstrip (list_ascii_of_string s) = list_ascii_of_string s.
Proof.
  intros Hb. unfold rstrip.
  destruct (drop_leading_step (@rev ascii <$> spaces)
              (rev (list_ascii_of_string s)))
    as [E|(t & r & Ht & _ & E & _)]; [now rewrite E, rev_involutive|].
  exfalso. apply list_elem_of_fmap_1 in Ht as (t' & -> & Ht').
  destruct (spaces_code t' Ht') as (c & Hc & ->).
  apply (proj2 (Hb c (string_of_list_ascii (rev r)) Hc)).
  rewrite utf8_one, <- string_of_list_ascii_app.
  rewrite <- (rev_involutive (code c)), <- rev_app_distr, <- E.
  now rewrite rev_involutive, string_of_list_ascii_of_string.
Qed.

Lemma strip_bare (s : string) : bare s -> strip s = s.
Proof.
  intros Hb. unfold strip.
  rewrite (bare_lstrip s Hb), (bare_rstrip s Hb).
  apply string_of_list_ascii_of_string.
Qed.

Lemma rstrip_length (l : list ascii) : (length (rstrip l) <= length l)%nat.
Proof.
  unfold rstrip. rewrite length_rev.
  etransitivity; [apply drop_leading_length|]. now rewrite length_rev.
Qed.

Lemma strip_length (l : list ascii) :
  (length (rstrip (lstrip l)) <= length l)%nat.
Proof.
  etransitivity; [apply rstrip_length | apply drop_leading_length].
Qed.

Lemma code_not_nil (c : N) : code c <> [].
Proof.
  unfold code, encode1.
  repeat match goal with |- context [if ?b then _ else _] => destruct b end;
    discriminate.
Qed.

Lemma fixed_bare (s : string) : strip s = s -> bare s.
Proof.
  intros Hs c x Hc.
  assert (Hl : length (rstrip (lstrip (list_ascii_of_string s)))
               = length (list_ascii_of_string s)).
  { unfold strip in Hs. rewrite <- Hs at 2.
    now rewrite list_ascii_of_string_of_list_ascii. }
  pose proof (code_not_nil c) as Hn.
  split; intros ->; revert Hl;
    rewrite list_ascii_of_string_app, utf8_one,
      list_ascii_of_string_of_list_ascii.
  - rewrite lstrip_code by exact Hc.
    pose proof (strip_length (list_ascii_of_string x)) as H.
    rewrite length_app. destruct (code c); [congruence | simpl; lia].
  - intros Hl.
    pose proof (rstrip_length (lstrip (list_ascii_of_string x ++ code c))) as H1.
    pose proof (drop_leading_length spaces (list_ascii_of_string x ++ code c)) as H2.
    fold (lstrip (list_ascii_of_string x ++ code c)) in H2.
    assert (E : lstrip (list_ascii_of_string x ++ code c)
                = list_ascii_of_string x ++ code c).
    { destruct (drop_leading_suffix spaces (list_ascii_of_string x ++ code c))
        as [p Hp]. fold (lstrip (list_ascii_of_string x ++ code c)) in Hp.
      destruct p as [|a p]; [symmetry; exact Hp|].
      exfalso. apply (f_equal (@length ascii)) in Hp.
      rewrite (length_app (a :: p)) in Hp. simpl in Hp. lia. }
    rewrite E, rstrip_code in Hl by exact Hc.
    pose proof (rstrip_length (list_ascii_of_string x)) as H3.
    rewrite length_app in Hl. destruct (code c); [congruence | simpl in Hl; lia].
Qed.

(** The bytes of a white-space character: one that is no continuation
    byte, followed by continuation bytes. *)
Lemma code_shape (c : N) :
  is_space c = true ->
  exists b rest, code c = b :: rest /\ is_cont (N_of_ascii b) = false /\
                 Forall (fun b' => is_cont (N_of_ascii b') = true) rest.
Proof.
  intros H. apply bool_decide_eq_true in H. revert c H.
  apply (proj1 (Forall_forall
                  (fun c => exists b rest,
                     code c = b :: rest /\ is_cont (N_of_ascii b) = false /\
                     Forall (fun b' => is_cont (N_of_ascii b') = true) rest)
                  white_space)).
  unfold white_space.
  repeat (apply Forall_cons; split;
          [eexists _, _; split; [vm_compute; reflexivity|];
           split; [reflexivity | repeat constructor]|]).
  apply Forall_nil_2.
Qed.

Lemma white_head (r : string) :
  white r ->
  match list_ascii_of_string r with
  | [] => True
  | b :: _ => is_cont (N_of_ascii b) = false
  end.
Proof.
  intros (ws & Hws & ->). destruct Hws as [|c ws Hc _]; [exact I|].
  rewrite utf8_cons, list_ascii_of_string_app,
    list_ascii_of_string_of_list_ascii.
  destruct (code_shape c Hc) as (b & rest & -> & Hb & _). exact Hb.
Qed.

(** White space after a string that does not begin with white space
    makes no white space at its beginning. *)
Lemma lstrip_before_white (core r : string) :
  bare core -> core <> EmptyString -> white r ->
  lstrip (list_ascii_of_string core ++ list_ascii_of_string r)
  = list_ascii_of_string core ++ list_ascii_of_string r.
Proof.
  intros Hb Hne Hr.
  destruct (drop_leading_step spaces
              (list_ascii_of_string core ++ list_ascii_of_string r))
    as [E|(t & r0 & Ht & _ & E & _)]; [exact E|].
  exfalso. destruct (spaces_code t Ht) as (c & Hc & ->).
  destruct (code_shape c Hc) as (b & rest & Hcode & _ & Hrest).
  (* the white-space character is not a beginning of the core *)
  assert (Hnot : forall k, list_ascii_of_string core <> code c ++ k).
  { intros k Hk. apply (proj1 (Hb c (string_of_list_ascii k) Hc)).
    rewrite utf8_one, <- string_of_list_ascii_app, <- Hk.
    now rewrite string_of_list_ascii_of_string. }
  pose proof (white_head r Hr) as Hh.
  destruct (list_ascii_of_string core) as [|a k] eqn:Ek.
  { apply Hne. rewrite <- (string_of_list_ascii_of_string core), Ek.
    reflexivity. }
  rewrite Hcode in E, Hnot. simpl in E. injection E as -> E.
  (* [k ++ r = rest ++ r0] with [rest] made of continuation bytes *)
  assert (Hnot' : forall k', k <> rest ++ k')
    by (intros k' ->; now apply (Hnot k')).
  clear Hcode Ek Hb Hne Ht Hc Hnot.
  revert k E Hnot'. induction Hrest as [|b' rest Hb' _ IH]; intros k E Hnot.
  - now apply (Hnot k).
  - destruct k as [|a' k].
    + simpl in E. rewrite E in Hh. simpl in Hh. congruence.
    + simpl in E. injection E as -> E. apply (IH k E).
      intros k' ->. now apply (Hnot k').
Qed.

Lemma white_concat (ts : list (list ascii)) :
  Forall (fun t => t ∈ spaces) ts -> white (string_of_list_ascii (concat ts)).
Proof.
  induction 1 as [|t ts Ht _ (ws & Hws & E)]; [apply white_nil|].
  destruct (spaces_code t Ht) as (c & Hc & ->).
  exists (c :: ws). split; [now constructor|].
  cbn [concat]. now rewrite utf8_cons, string_of_list_ascii_app, E.
Qed.

Lemma white_app (l r : string) : white l -> white r -> white (l +:+ r).
Proof.
  intros (ws & Hws & ->) Hr. induction Hws as [|c ws Hc _ IH]; [exact Hr|].
  destruct IH as (ws' & Hws' & E). exists (c :: ws').
  split; [now constructor|].
  now rewrite !utf8_cons, <- E, append_assoc.
Qed.

Lemma white_concat_rev (ts : list (list ascii)) :
  Forall (fun t => t ∈ @rev ascii <$> spaces) ts ->
  white (string_of_list_ascii (rev (concat ts))).
Proof.
  induction 1 as [|t ts Ht _ IH]; [apply white_nil|].
  apply list_elem_of_fmap_1 in Ht as (t' & -> & Ht').
  cbn [concat]. rewrite rev_app_distr, rev_involutive, string_of_list_ascii_app.
  apply white_app; [exact IH|].
  replace t' with (concat [t']) by (cbn [concat]; apply app_nil_r).
  apply white_concat. constructor; [exact Ht' | constructor].
Qed.

(** Every string is its trimmed form with white space around it. *)
Lemma padded_strip (s : string) : padded s (strip s).
Proof.
  destruct (drop_leading_dropped spaces (list_ascii_of_string s))
    as (ts & Hts & E).
  fold (lstrip (list_ascii_of_string s)) in E.
  destruct (drop_leading_dropped (@rev ascii <$> spaces)
              (rev (lstrip (list_ascii_of_string s)))) as (ts' & Hts' & E').
  exists (string_of_list_ascii (concat ts)),
         (string_of_list_ascii (rev (concat ts'))).
  split; [now apply white_concat|].
  split; [now apply white_concat_rev|].
  split; [apply fixed_bare, strip_strip|].
  unfold strip. rewrite <- !string_of_list_ascii_app.
  rewrite <- (string_of_list_ascii_of_string s) at 1. f_equal.
  rewrite E at 1. f_equal. unfold rstrip.
  rewrite <- rev_app_distr, <- E'. now rewrite rev_involutive.
Qed.

Lemma strip_padded (s core : string) : padded s core -> strip s = core.
Proof.
  intros (l & r & Hl & Hr & Hb & ->). unfold strip.
  rewrite !list_ascii_of_string_app, lstrip_white by exact Hl.
  destruct (string_dec core EmptyString) as [->|Hne].
  - simpl. rewrite <- (app_nil_r (list_ascii_of_string r)).
    now rewrite lstrip_white by exact Hr.
  - rewrite lstrip_before_white by assumption.
    rewrite rstrip_white by exact Hr.
    rewrite bare_rstrip by exact Hb.
    apply string_of_list_ascii_of_string.
Qed.

(** So two names are alike exactly when their trimmed forms differ only
    in letter case. *)
Lemma alike_strip (letter : N -> N -> Prop) (s1 s2 : string) :
  alike letter s1 s2 <-> case_variants letter (strip s1) (strip s2).
Proof.
  split.
  - intros (c1 & c2 & H1 & H2 & H).
    now rewrite (strip_padded _ _ H1), (strip_padded _ _ H2).
  - intros H. exists (strip s1), (strip s2).
    split; [apply padded_strip|]. split; [apply padded_strip | exact H].
Qed.

End StringFacts.

Section LowerFacts.

Import PyStr.
Local Open Scope list_scope.

Lemma find_pair_elem (c : N) (l : list (N * N)) (v : N) :
  find_pair c l = Some v -> (c, v) ∈ l.
Proof.
  induction l as [|[k w] l IH]; simpl; [discriminate|].
  destruct (c <? k)%N; [discriminate|].
  destruct (c =? k)%N eqn:E.
  - intros [= ->]. apply N.eqb_eq in E as ->. left.
  - intros H. right. now apply IH.
Qed.

(** A character and its lower-case letter are both cased or both not,
    and both case-ignorable or both not. *)
Lemma lower_pairs_class :
  Forall (fun p => cased (fst p) = cased (snd p) /\
                   case_ignorable (fst p) = case_ignorable (snd p))
         lower_pairs.
Proof.
  assert (H : forallb (fun p => Bool.eqb (cased (fst p)) (cased (snd p)) &&
                               Bool.eqb (case_ignorable (fst p))
                                        (case_ignorable (snd p)))
                      lower_pairs = true) by (vm_compute; reflexivity).
  apply Forall_forall. intros p Hp. apply list_elem_of_In in Hp.
  apply (proj1 (forallb_forall _ _) H) in Hp.
  apply andb_true_iff in Hp as [H1 H2].
  split; now apply Bool.eqb_prop.
Qed.

Lemma simple_lower_class (c : N) :
  cased (simple_lower c) = cased c /\
  case_ignorable (simple_lower c) = case_ignorable c.
Proof.
  unfold simple_lower. destruct (find_pair c lower_pairs) as [v|] eqn:E;
    [|now split].
  apply find_pair_elem in E.
  destruct (proj1 (Forall_forall _ _) lower_pairs_class _ E) as [H1 H2].
  simpl in *. now split.
Qed.

Lemma same_letter_class (a b : N) :
  same_letter a b ->
  cased a = cased b /\ case_ignorable a = case_ignorable b.
Proof.
  unfold same_letter. intros H.
  destruct (simple_lower_class a) as [Ha1 Ha2].
  destruct (simple_lower_class b) as [Hb1 Hb2].
  rewrite <- Ha1, <- Ha2, <- Hb1, <- Hb2, H. now split.
Qed.

Lemma same_plain_letter_class (a b : N) :
  same_plain_letter a b ->
  cased a = cased b /\ case_ignorable a = case_ignorable b.
Proof. intros [->|[H _]]; [now split | now apply same_letter_class]. Qed.

Lemma skip_ignorable_alike (l1 l2 : list N) :
  Forall2 same_plain_letter l1 l2 ->
  Forall2 same_plain_letter (skip_ignorable l1) (skip_ignorable l2).
Proof.
  induction 1 as [|a b l1 l2 Hab Hl IH]; [constructor|].
  simpl. destruct (same_plain_letter_class a b Hab) as [_ <-].
  destruct (case_ignorable a); [exact IH | now constructor].
Qed.

Lemma ends_word_alike (b1 b2 r1 r2 : list N) :
  Forall2 same_plain_letter b1 b2 -> Forall2 same_plain_letter r1 r2 ->
  ends_word b1 r1 = ends_word b2 r2.
Proof.
  intros Hb Hr. unfold ends_word.
  destruct (skip_ignorable_alike _ _ Hb) as [|a b ? ? Hab _]; [reflexivity|].
  destruct (same_plain_letter_class a b Hab) as [<- _]. f_equal.
  destruct (skip_ignorable_alike _ _ Hr) as [|a' b' ? ? Hab' _]; [reflexivity|].
  now destruct (same_plain_letter_class a' b' Hab') as [<- _].
Qed.

Lemma lower_from_alike (l1 l2 : list N) :
  Forall2 same_plain_letter l1 l2 ->
  forall b1 b2, Forall2 same_plain_letter b1 b2 ->
                lower_from b1 l1 = lower_from b2 l2.
Proof.
  induction 1 as [|a b l1 l2 Hab Hl IH]; intros b1 b2 Hb; [reflexivity|].
  cbn [lower_from]. rewrite (IH (a :: b1) (b :: b2)) by now constructor.
  f_equal. destruct Hab as [->|(Hs & [Ha1 Ha2] & [Hb1 Hb2])].
  - now rewrite (ends_word_alike b1 b2 l1 l2).
  - apply N.eqb_neq in Ha1, Hb1. rewrite Ha1, Hb1.
    unfold lower_char. apply N.eqb_neq in Ha2, Hb2. rewrite Ha2, Hb2.
    now rewrite Hs.
Qed.

(** Names that differ only in the case of plain letters have the same
    lower-case form. *)
Lemma lower_alike (s t : string) :
  case_variants same_plain_letter s t -> lower s = lower t.
Proof.
  intros H. unfold lower. f_equal. apply lower_from_alike; [exact H|constructor].
Qed.

End LowerFacts.

(** ** History and favourites *)

Section History.

Implicit Types (st : Storage) (city c : string).

Lemma add_history_blank st city :
  PyStr.blank (PyStr.strip city) = true -> add_history st city = st.
Proof. intros H. unfold add_history. now rewrite H. Qed.

Lemma add_history_history st city :
  PyStr.blank (PyStr.strip city) = false ->
  history (add_history st city) =
    take 20 (PyStr.strip city ::
             filter (fun c => PyStr.lower c <> PyStr.lower (PyStr.strip city)) (history st)).
Proof. intros H. unfold add_history. now rewrite H. Qed.

Lemma add_history_length st city :
  PyStr.blank (PyStr.strip city) = false ->
  (length (history (add_history st city)) <= 20)%nat.
Proof. intros H. rewrite (add_history_history _ _ H), length_take. lia. Qed.

Lemma add_history_elem st city c :
  c ∈ history (add_history st city) -> c = PyStr.strip city \/ c ∈ history st.
Proof.
  unfold add_history. destruct (PyStr.blank (PyStr.strip city)); [now right|].
  cbn [history save_history with_history take].
  intros [->|H]%elem_of_cons; [now left|right].
  apply elem_of_take in H as (i & H & _). apply list_elem_of_lookup_2 in H.
  now apply list_elem_of_filter in H as [_ H].
Qed.

Lemma record_all_elem st names c :
  c ∈ history (record_all st names) ->
  c ∈ history st \/ exists n, n ∈ names /\ c = PyStr.strip n.
Proof.
  unfold record_all. revert st.
  induction names as [|n names IH]; intros st; cbn [fold_left]; [now left|].
  intros [H | (m & Hm & ->)]%IH.
  - apply add_history_elem in H as [-> | H]; [right|now left].
    exists n. split; [left | reflexivity].
  - right. exists m. split; [now right | reflexivity].
Qed.

Lemma record_all_length st names :
  (length (history st) <= 20)%nat ->
  (length (history (record_all st names)) <= 20)%nat.
Proof.
  unfold record_all. revert st.
  induction names as [|n names IH]; intros st Hst; cbn [fold_left]; [exact Hst|].
  apply IH. destruct (PyStr.blank (PyStr.strip n)) eqn:E.
  - now rewrite (add_history_blank _ _ E).
  - now apply add_history_length.
Qed.

End History.

(** Claim C8, as the code has it.  [add_history] leaves the storage as it
    is on blank or white-space-only input.  Otherwise the trimmed city is at
    the front; the rest is what remains of the old list, in its order,
    without the entries whose lower-case form is that of the city, among
    them every entry that differs from the city only in letter case, where,
    character by character, a letter is replaced by one with the same
    lower-case letter and the Greek capital sigma and the capital I with
    dot above are left as they are; the list has at most 20 entries, and
    the history file holds the new list.  Recording "Paris", then "paris",
    then any further names other than Paris leaves "Paris" out of the list
    and the list at most 20 long. *)
Theorem add_history_spec (st : Storage) (city : string) :
  (PyStr.blank (PyStr.strip city) = true -> add_history st city = st) /\
  (PyStr.blank (PyStr.strip city) = false ->
   exists rest,
     history (add_history st city) = PyStr.strip city :: rest /\
     rest = take 19 (filter (fun c => PyStr.lower c <> PyStr.lower (PyStr.strip city))
                            (history st)) /\
     Forall (fun c => PyStr.lower c <> PyStr.lower (PyStr.strip city)) rest /\
     (forall c, case_variants same_plain_letter c (PyStr.strip city) -> c ∉ rest) /\
     rest `sublist_of` history st /\
     (length (history (add_history st city)) <= 20)%nat /\
     history_file (add_history st city) = Some (history (add_history st city)) /\
     settings (add_history st city) = settings st /\
     cache (add_history st city) = cache st) /\
  (forall others,
     Forall (fun o => PyStr.strip o <> "Paris") others ->
     ("Paris" ∉ history (record_all st ("Paris" :: "paris" :: others))) /\
     (length (history (record_all st ("Paris" :: "paris" :: others))) <= 20)%nat).
Proof.
  split; [apply add_history_blank|]. split.
  - intros Hcity.
    exists (take 19 (filter (fun c => PyStr.lower c <> PyStr.lower (PyStr.strip city))
                            (history st))).
    assert (Hrest : Forall (fun c => PyStr.lower c <> PyStr.lower (PyStr.strip city))
                      (take 19 (filter (fun c => PyStr.lower c
                                                 <> PyStr.lower (PyStr.strip city))
                                       (history st)))).
    { apply Forall_take, Forall_forall; intros c Hc.
      now apply list_elem_of_filter in Hc as [Hc _]. }
    split; [now rewrite (add_history_history _ _ Hcity)|].
    split; [reflexivity|].
    split; [exact Hrest|].
    split; [intros c Hc Hin; rewrite Forall_forall in Hrest;
            now apply (Hrest c Hin), lower_alike|].
    split; [etransitivity; [apply sublist_take | apply sublist_filter]|].
    split; [now apply add_history_length|].
    unfold add_history. rewrite Hcity. repeat split.
  - intros others Hothers.
    change (record_all st ("Paris" :: "paris" :: others))
      with (record_all (add_history (add_history st "Paris") "paris") others).
    set (st1 := add_history st "Paris").
    assert (Hlen : (length (history (add_history st1 "paris")) <= 20)%nat)
      by (now apply add_history_length).
    assert (Hgone : "Paris" ∉ history (add_history st1 "paris")).
    { rewrite add_history_history by reflexivity.
      change (PyStr.strip "paris") with "paris". cbn [take].
      intros [H|H]%elem_of_cons; [discriminate|].
      apply elem_of_take in H as (i & H & _). apply list_elem_of_lookup_2 in H.
      apply list_elem_of_filter in H as [H _]. now apply H. }
    split; [|now apply record_all_length].
    intros [H | (n & Hn & Heq)]%record_all_elem; [now apply Hgone|].
    rewrite Forall_forall in Hothers. now apply (Hothers n Hn).
Qed.

(** Blank input, white space beyond ASCII, the Paris pair, two spellings
    of Zürich, and 25 further names. *)
Lemma add_history_spec_witness :
  add_history Sample.cold "   " = Sample.cold /\
  add_history Sample.cold (PyStr.utf8 [160%N; 12288%N]) = Sample.cold /\
  history (add_history (add_history Sample.cold "Paris") " paris ") = ["paris"] /\
  history (add_history (add_history Sample.cold "Zürich") "ZÜRICH") = ["ZÜRICH"] /\
  ("Paris" ∉ history (record_all Sample.cold
                       ("Paris" :: "paris" :: Sample.other_names))) /\
  (length (history (record_all Sample.cold
                       ("Paris" :: "paris" :: Sample.other_names))) <= 20)%nat.
Proof.
  split; [apply (proj1 (add_history_spec Sample.cold "   ")); reflexivity|].
  split; [apply (proj1 (add_history_spec Sample.cold
                          (PyStr.utf8 [160%N; 12288%N]))); reflexivity|].
  split.
  { destruct (proj1 (proj2 (add_history_spec
                (add_history Sample.cold "Paris") " paris ")) eq_refl)
      as (rest & Hh & Hrest & _).
    rewrite Hh, Hrest. reflexivity. }
  split.
  { destruct (proj1 (proj2 (add_history_spec
                (add_history Sample.cold "Zürich") "ZÜRICH")) eq_refl)
      as (rest & Hh & Hrest & _).
    rewrite Hh, Hrest. vm_compute. reflexivity. }
  apply (proj2 (proj2 (add_history_spec Sample.cold "x")) Sample.other_names).
  unfold Sample.other_names. repeat constructor; discriminate.
Defined.

(** Claim C8 as stated fails for an entry that differs from the city only
    in the case of a sigma at the end of the word: the lower-case forms
    differ, and the entry stays in the list. *)
Lemma add_history_keeps_case_variant :
  case_variants same_letter "πατρασ" "ΠΑΤΡΑΣ" /\
  history (add_history (with_history Sample.cold ["πατρασ"]) "ΠΑΤΡΑΣ")
  = ["ΠΑΤΡΑΣ"; "πατρασ"].
Proof.
  split; [|vm_compute; reflexivity].
  unfold case_variants.
  change (PyStr.chars "ΠΑΤΡΑΣ") with [928; 913; 932; 929; 913; 931]%N.
  change (PyStr.chars "πατρασ") with [960; 945; 964; 961; 945; 963]%N.
  repeat (constructor; [vm_compute; reflexivity|]). constructor.
Qed.

Section Favorites.

Implicit Types (st : Storage) (city c : string).

Lemma add_favorite_favorites st city :
  favorites (settings (add_favorite st city)) =
    Some (take 20 (if decide (city ∈ default [] (favorites (settings st)))
                   then default [] (favorites (settings st))
                   else city :: default [] (favorites (settings st)))).
Proof. reflexivity. Qed.

Lemma remove_favorite_favorites st city :
  favorites (settings (remove_favorite st city)) =
    Some (filter (fun c => c <> city) (default [] (favorites (settings st)))).
Proof. reflexivity. Qed.

End Favorites.

(** Claim C9.  [add_favorite] puts the city at the front exactly when no
    entry is the same string, and keeps at most 20 entries; starting from no
    favourites, adding "Paris" and then "paris" gives two entries.
    [remove_favorite] keeps, in order, exactly the entries that differ from
    the given string.  Each of the two writes the settings file. *)
Theorem favorites_spec (st : Storage) (city : string) :
  let favs := default [] (favorites (settings st)) in
  (* addFavorite *)
  (city ∉ favs ->
     favorites (settings (add_favorite st city)) = Some (take 20 (city :: favs))) /\
  (city ∈ favs ->
     favorites (settings (add_favorite st city)) = Some (take 20 favs)) /\
  (exists favs', favorites (settings (add_favorite st city)) = Some favs' /\
                 (length favs' <= 20)%nat) /\
  settings_file (add_favorite st city) = Some (settings (add_favorite st city)) /\
  (favs = [] ->
     favorites (settings (add_favorite (add_favorite st "Paris") "paris"))
       = Some ["paris"; "Paris"]) /\
  (* removeFavorite *)
  (exists favs', favorites (settings (remove_favorite st city)) = Some favs' /\
                 (forall c, c ∈ favs' <-> c ∈ favs /\ c <> city) /\
                 favs' `sublist_of` favs /\
                 favs' = filter (fun c => c <> city) favs) /\
  settings_file (remove_favorite st city) = Some (settings (remove_favorite st city)).
Proof.
  intros favs. subst favs. repeat split.
  - intros Hnew. rewrite add_favorite_favorites. now rewrite decide_False.
  - intros Hold. rewrite add_favorite_favorites. now rewrite decide_True.
  - eexists. split; [apply add_favorite_favorites|]. rewrite length_take. lia.
  - intros Hempty. rewrite add_favorite_favorites.
    change (default [] (favorites (settings (add_favorite st "Paris"))))
      with (take 20 (if decide ("Paris" ∈ default [] (favorites (settings st)))
                     then default [] (favorites (settings st))
                     else "Paris" :: default [] (favorites (settings st)))).
    rewrite Hempty. reflexivity.
  - eexists. split; [apply remove_favorite_favorites|].
    split; [|split; [apply sublist_filter | reflexivity]].
    intros c. rewrite list_elem_of_filter. tauto.
Qed.

(** Adding "Paris" once, twice, and then "paris". *)
Lemma favorites_spec_witness :
  favorites (settings (add_favorite Sample.cold "Paris")) = Some ["Paris"] /\
  favorites (settings (add_favorite (add_favorite Sample.cold "Paris") "Paris"))
    = Some ["Paris"] /\
  favorites (settings (add_favorite (add_favorite Sample.cold "Paris") "paris"))
    = Some ["paris"; "Paris"].
Proof.
  split.
  { apply (proj1 (favorites_spec Sample.cold "Paris")).
    apply not_elem_of_nil. }
  split.
  { apply (proj1 (proj2 (favorites_spec (add_favorite Sample.cold "Paris") "Paris"))).
    left. }
  apply (proj1 (proj2 (proj2 (proj2 (proj2 (favorites_spec Sample.cold "x")))))).
  reflexivity.
Defined.

(** ** Coordinates in cache keys *)

Lemma round_half_even_near (x : Q) (m : Z) :
  (inject_Z m - (1 # 2) < x)%Q -> (x < inject_Z m + (1 # 2))%Q ->
  Fmt.round_half_even x = m.
Proof.
  destruct x as [n d]. unfold Qlt, Fmt.round_half_even. cbn.
  intros Hlo Hhi.
  pose proof (Z.div_mod n (Z.pos d) ltac:(lia)) as Hdm.
  pose proof (Z.mod_pos_bound n (Z.pos d) ltac:(lia)) as Hr.
  set (fl := n / Z.pos d) in *. set (r := n mod Z.pos d) in *.
  clearbody fl r. change (Z.pos (1 * 2)) with 2 in *.
  assert (Hd : 0 < Z.pos d) by lia. set (D := Z.pos d) in *. clearbody D.
  assert (H1 : (2 * m - 1) * D < (2 * fl) * D + 2 * r) by lia.
  assert (H2 : (2 * fl) * D + 2 * r < (2 * m + 1) * D) by lia.
  destruct (Z.compare_spec (2 * r) D) as [He|Hl|Hg].
  - exfalso. rewrite He in H1, H2.
    assert (2 * m - 1 < 2 * fl + 1) by nia. assert (2 * fl + 1 < 2 * m + 1) by nia. lia.
  - assert (2 * m - 1 < 2 * fl + 1) by nia. assert (2 * fl < 2 * m + 1) by nia. lia.
  - assert (2 * m - 1 < 2 * fl + 2) by nia. assert (2 * fl + 1 < 2 * m + 1) by nia. lia.
Qed.

Lemma fixed4_rounds (p q : Q) (m : Z) :
  rounds_to p m -> rounds_to q m -> same_sign p q -> Fmt.fixed4 p = Fmt.fixed4 q.
Proof.
  intros [Hp1 Hp2] [Hq1 Hq2] Hs. unfold Fmt.fixed4.
  rewrite (round_half_even_near _ _ Hp1 Hp2), (round_half_even_near _ _ Hq1 Hq2).
  unfold same_sign in Hs. now rewrite Hs.
Qed.

(** Claim C6, as the code has it.  The forecast and air-quality keys are
    formed by rounding each coordinate to four decimal places: two
    coordinate pairs of equal signs whose latitudes lie within half a unit
    of the fourth decimal place of one value, and whose longitudes do so
    too, give the same forecast key for fixed units and the same
    air-quality key. *)
Theorem coordinate_keys_rounded (geo1 geo2 : json) (lat1 lon1 lat2 lon2 : Q)
    (m n : Z) (units : string) :
  Py.item geo1 "lat" = Returns (JNum lat1) -> Py.item geo1 "lon" = Returns (JNum lon1) ->
  Py.item geo2 "lat" = Returns (JNum lat2) -> Py.item geo2 "lon" = Returns (JNum lon2) ->
  rounds_to lat1 m -> rounds_to lat2 m -> same_sign lat1 lat2 ->
  rounds_to lon1 n -> rounds_to lon2 n -> same_sign lon1 lon2 ->
  (exists k, w_key geo1 units = Returns k /\ w_key geo2 units = Returns k) /\
  (exists k, a_key geo1 = Returns k /\ a_key geo2 = Returns k).
Proof.
  intros Hlat1 Hlon1 Hlat2 Hlon2 Hm1 Hm2 Hsm Hn1 Hn2 Hsn.
  unfold w_key, a_key, coords.
  rewrite Hlat1, Hlon1, Hlat2, Hlon2. cbn [bind Fmt.format4].
  rewrite (fixed4_rounds lat1 lat2 m Hm1 Hm2 Hsm).
  rewrite (fixed4_rounds lon1 lon2 n Hn1 Hn2 Hsn).
  split; eexists; split; reflexivity.
Qed.

(** Latitudes 35.68991 and 35.68994 both round to 35.6899. *)
Lemma coordinate_keys_rounded_witness :
  (exists k, w_key Sample.geo_a "metric" = Returns k /\
             w_key Sample.geo_c "metric" = Returns k) /\
  (exists k, a_key Sample.geo_a = Returns k /\ a_key Sample.geo_c = Returns k).
Proof.
  apply (coordinate_keys_rounded Sample.geo_a Sample.geo_c
           (3568991 # 100000) (513890 # 10000) (3568994 # 100000) (513890 # 10000)
           356899 513890 "metric");
    try reflexivity; split; reflexivity.
Defined.

(** Claim C6 as stated fails: latitudes 35.68991 and 35.68999 agree in
    their first four decimals, and their keys differ. *)
Lemma coordinate_keys_differ_beyond_fourth_decimal :
  truncated4 (3568991 # 100000) = truncated4 (3568999 # 100000) /\
  Py.item Sample.geo_a "lon" = Py.item Sample.geo_b "lon" /\
  w_key Sample.geo_a "metric" = Returns "wx::35.6899,51.3890::metric" /\
  w_key Sample.geo_b "metric" = Returns "wx::35.6900,51.3890::metric" /\
  a_key Sample.geo_a = Returns "aqi::35.6899,51.3890" /\
  a_key Sample.geo_b = Returns "aqi::35.6900,51.3890" /\
  w_key Sample.geo_a "metric" <> w_key Sample.geo_b "metric" /\
  a_key Sample.geo_a <> a_key Sample.geo_b.
Proof.
  repeat split; try reflexivity; vm_compute; discriminate.
Qed.

(** ** Keys, completion and the decision *)

Section Keys.

Lemma w_key_coords (geo : json) (u wk : string) :
  w_key geo u = Returns wk ->
  exists c, coords geo = Returns c /\ wk = "wx::" +:+ c +:+ "::" +:+ u.
Proof.
  unfold w_key. destruct (coords geo) as [c|e]; cbn [bind]; [|discriminate].
  intros [= <-]. now exists c.
Qed.

Lemma a_key_coords (geo : json) (ak : string) :
  a_key geo = Returns ak ->
  exists c, coords geo = Returns c /\ ak = "aqi::" +:+ c.
Proof.
  unfold a_key. destruct (coords geo) as [c|e]; cbn [bind]; [|discriminate].
  intros [= <-]. now exists c.
Qed.

Lemma geo_key_not_w_key (city c u : string) :
  geo_key city <> "wx::" +:+ c +:+ "::" +:+ u.
Proof. discriminate. Qed.

Lemma geo_key_not_a_key (city c : string) : geo_key city <> "aqi::" +:+ c.
Proof. discriminate. Qed.

Lemma w_key_not_a_key (c c' u : string) :
  "wx::" +:+ c +:+ "::" +:+ u <> "aqi::" +:+ c'.
Proof. discriminate. Qed.

End Keys.

Section Completion.

Implicit Types (app : WeatherApp) (st : Storage).

(** The storage that a completed [on_fetch_done] leaves. *)
Lemma on_fetch_done_ok app now geo wx aqi c :
  coords geo = Returns c ->
  let city := PyStr.strip (city_edit app) in
  let st := storage app in
  let u := default "metric" (units (settings st)) in
  let st1 := set_cached st now (geo_key city) geo in
  let st2 := set_cached st1 now ("wx::" +:+ c +:+ "::" +:+ u) wx in
  let st3 := if default true (show_aqi (settings st)) && Py.truthy aqi
             then set_cached st2 now ("aqi::" +:+ c) aqi else st2 in
  on_fetch_done app now geo wx aqi =
    (Returns tt,
     with_current (with_storage (on_worker_finished app) (add_history st3 city))
                  city geo wx aqi).
Proof.
  intros Hc. cbv zeta. unfold on_fetch_done, w_key, a_key. rewrite Hc. cbn [bind].
  cbn [storage with_storage on_worker_finished with_search_enabled city_edit
       settings set_cached save_cache with_cache].
  destruct (default true (show_aqi (settings (storage app))) && Py.truthy aqi);
    reflexivity.
Qed.

Lemma on_fetch_failed_storage app e : storage (on_fetch_failed app e) = storage app.
Proof. reflexivity. Qed.

End Completion.

Section Decision.

Implicit Types (app : WeatherApp) (st : Storage).

Lemma hit_or_dispatch_lookups app now log city u geo wx aqi :
  fr_lookups (hit_or_dispatch app now log city u geo wx aqi) = log.
Proof.
  unfold hit_or_dispatch.
  destruct (Py.truthy wx && _); [|reflexivity].
  now destruct (on_fetch_done _ _ _ _ _) as [[?|?] ?].
Qed.

Lemma hit_or_dispatch_hit app now log city u geo wx aqi c :
  coords geo = Returns c ->
  Py.truthy wx
    && (Py.truthy aqi || negb (default true (show_aqi (settings (storage app))))) = true ->
  hit_or_dispatch app now log city u geo wx aqi =
    let aqi' := if Py.truthy aqi then aqi else JObj [] in
    {| fr_outcome := CacheHit geo wx aqi'; fr_lookups := log;
       fr_app := snd (on_fetch_done app now geo wx aqi') |}.
Proof.
  intros Hc Hcond. unfold hit_or_dispatch. rewrite Hcond. cbv zeta.
  now rewrite (on_fetch_done_ok _ _ _ _ _ _ Hc).
Qed.

Lemma hit_or_dispatch_miss app now log city u geo wx aqi :
  Py.truthy wx
    && (Py.truthy aqi || negb (default true (show_aqi (settings (storage app))))) = false ->
  hit_or_dispatch app now log city u geo wx aqi =
    let w := {| w_city := city; w_units := u;
                w_show_aqi := default true (show_aqi (settings (storage app))) |} in
    {| fr_outcome := Dispatched w; fr_lookups := log; fr_app := with_worker app w |}.
Proof. intros Hcond. unfold hit_or_dispatch. now rewrite Hcond. Qed.

Lemma hit_or_dispatch_is_hit app now log city u geo wx aqi :
  (exists c, coords geo = Returns c) \/ Py.truthy wx = false ->
  is_hit (fr_outcome (hit_or_dispatch app now log city u geo wx aqi)) =
    Py.truthy wx
    && (Py.truthy aqi || negb (default true (show_aqi (settings (storage app))))).
Proof.
  intros H.
  destruct (Py.truthy wx
            && (Py.truthy aqi || negb (default true (show_aqi (settings (storage app))))))
    eqn:Hcond.
  - destruct H as [[c Hc] | Hwx]; [|now rewrite Hwx in Hcond].
    now rewrite (hit_or_dispatch_hit _ _ _ _ _ _ _ _ _ Hc Hcond).
  - now rewrite (hit_or_dispatch_miss _ _ _ _ _ _ _ _ Hcond).
Qed.

(** A cache hit is the conjunction of the lookups that succeeded. *)
Lemma fetch_and_render_is_hit app now force :
  is_hit (fr_outcome (fetch_and_render app now force)) =
    lookup_succeeded Forecast (fr_lookups (fetch_and_render app now force))
    && (lookup_succeeded AirQuality (fr_lookups (fetch_and_render app now force))
        || negb (default true (show_aqi (settings (storage app))))).
Proof.
  unfold fetch_and_render.
  destruct (PyStr.blank _); [reflexivity|].
  cbn [storage with_search_enabled].
  destruct (get_cached _ _ (geo_key _) _) as [geo|e] eqn:Hgeo; [|reflexivity].
  destruct (Py.truthy geo) eqn:Hg.
  2:{ rewrite hit_or_dispatch_lookups, hit_or_dispatch_is_hit by now right.
      reflexivity. }
  destruct (w_key geo _) as [wk|e] eqn:Hwk; [|reflexivity].
  apply w_key_coords in Hwk as (c & Hc & ->).
  destruct (get_cached _ _ ("wx::" +:+ _) _) as [wx|e] eqn:Hwx; [|reflexivity].
  destruct (default true (show_aqi (settings (storage app)))) eqn:Hshow.
  - unfold a_key. rewrite Hc. cbn [bind].
    destruct (get_cached _ _ ("aqi::" +:+ _) _) as [aqi|e] eqn:Haqi.
    + rewrite hit_or_dispatch_lookups, hit_or_dispatch_is_hit by (left; eauto).
      cbn [storage with_search_enabled]. rewrite Hshow.
      unfold lookup_succeeded, succeeded.
      cbn [existsb List.app lk_category lk_result category_eqb andb orb negb].
      now rewrite !orb_false_r.
    + unfold lookup_succeeded, succeeded.
      cbn [caught fr_outcome fr_lookups is_hit existsb List.app lk_category lk_result
           category_eqb andb orb negb].
      now rewrite !orb_false_r, andb_false_r.
  - rewrite hit_or_dispatch_lookups, hit_or_dispatch_is_hit by (left; eauto).
    cbn [storage with_search_enabled]. rewrite Hshow.
    unfold lookup_succeeded, succeeded.
    cbn [existsb List.app lk_category lk_result category_eqb andb orb negb].
    now rewrite !orb_false_r, !orb_true_r.
Qed.

End Decision.

Section CacheFacts.

Implicit Types (app : WeatherApp) (st : Storage).

Lemma get_cached_within st now key minutes d :
  cached_within st now key minutes d -> get_cached st now key minutes = Returns d.
Proof.
  intros (ts & Hk & Hts & Hage). rewrite (get_cached_entry _ _ _ _ _ _ Hk Hts).
  now rewrite (gt_false _ _ Hage), andb_false_r.
Qed.


Lemma get_cached_any_age_total st now key ttl d :
  cached_any_age st key d ->
  get_cached st now key ttl = Returns d \/ get_cached st now key ttl = Returns JNull.
Proof.
  intros (ts & Hk & Hts). rewrite (get_cached_entry _ _ _ _ _ _ Hk Hts).
  destruct (negb (ttl =? 0) && _); auto.
Qed.

Lemma get_cached_not_fresh st now key minutes :
  0 < minutes -> not_fresh st now key minutes ->
  get_cached st now key minutes = Returns JNull.
Proof.
  intros Hpos [Hk | (ts & d & Hk & Hts & Hage)].
  - now apply get_cached_missing.
  - rewrite (get_cached_entry _ _ _ _ _ _ Hk Hts), (gt_true _ _ Hage).
    destruct (minutes =? 0) eqn:E; [apply Z.eqb_eq in E; lia | reflexivity].
Qed.

Lemma coords_truthy (geo : json) (c : string) :
  coords geo = Returns c -> Py.truthy geo = true.
Proof.
  unfold coords, Py.item. destruct geo as [| | | | |fields]; try discriminate.
  destruct fields; [discriminate | reflexivity].
Qed.

End CacheFacts.

Section Requests.

Implicit Types (app : WeatherApp) (st : Storage) (force : bool).

(** The time-to-live of each lookup that [fetch_and_render] makes. *)
Lemma fetch_and_render_ttls app now force :
  Forall (fun lk =>
            lk_ttl lk =
              match lk_category lk with
              | Geocode => 1440
              | Forecast =>
                  if force then 0
                  else default 20 (cache_ttl_minutes (settings (storage app)))
              | AirQuality => 60
              end)
         (fr_lookups (fetch_and_render app now force)).
Proof.
  unfold fetch_and_render.
  destruct (PyStr.blank _); [constructor|].
  cbn [storage with_search_enabled].
  destruct (get_cached _ _ (geo_key _) _) as [geo|e];
    [|repeat constructor].
  destruct (Py.truthy geo);
    [|rewrite hit_or_dispatch_lookups; repeat constructor].
  destruct (w_key geo _) as [wk|e]; [|repeat constructor].
  destruct (get_cached _ _ wk _) as [wx|e]; [|repeat constructor].
  destruct (default true (show_aqi (settings (storage app))));
    [|rewrite hit_or_dispatch_lookups; repeat constructor].
  destruct (a_key geo) as [ak|e]; [|repeat constructor].
  destruct (get_cached _ _ ak _) as [aqi|e];
    [rewrite hit_or_dispatch_lookups|]; repeat constructor.
Qed.

(** The call when all three lookups are made and return. *)
Lemma fetch_and_render_three app now force geo wx aqi c :
  let st := storage app in
  let city := PyStr.strip (city_edit app) in
  let u := default "metric" (units (settings st)) in
  let ttl := if force then 0 else default 20 (cache_ttl_minutes (settings st)) in
  PyStr.blank city = false ->
  get_cached st now (geo_key city) 1440 = Returns geo ->
  coords geo = Returns c ->
  get_cached st now ("wx::" +:+ c +:+ "::" +:+ u) ttl = Returns wx ->
  default true (show_aqi (settings st)) = true ->
  get_cached st now ("aqi::" +:+ c) 60 = Returns aqi ->
  fetch_and_render app now force =
    hit_or_dispatch (with_search_enabled app false) now
      [mkLookup Geocode (geo_key city) 1440 (Returns geo);
       mkLookup Forecast ("wx::" +:+ c +:+ "::" +:+ u) ttl (Returns wx);
       mkLookup AirQuality ("aqi::" +:+ c) 60 (Returns aqi)]
      city u geo wx aqi.
Proof.
  cbv zeta. intros Hcity Hgeo Hc Hwx Hshow Haqi.
  unfold fetch_and_render. rewrite Hcity. cbn [storage with_search_enabled].
  rewrite Hgeo, (coords_truthy _ _ Hc). unfold w_key, a_key. rewrite Hc. cbn [bind].
  rewrite Hwx, Hshow, Haqi. reflexivity.
Qed.

(** The call when air quality is switched off. *)
Lemma fetch_and_render_two app now force geo wx c :
  let st := storage app in
  let city := PyStr.strip (city_edit app) in
  let u := default "metric" (units (settings st)) in
  let ttl := if force then 0 else default 20 (cache_ttl_minutes (settings st)) in
  PyStr.blank city = false ->
  get_cached st now (geo_key city) 1440 = Returns geo ->
  coords geo = Returns c ->
  get_cached st now ("wx::" +:+ c +:+ "::" +:+ u) ttl = Returns wx ->
  default true (show_aqi (settings st)) = false ->
  fetch_and_render app now force =
    hit_or_dispatch (with_search_enabled app false) now
      [mkLookup Geocode (geo_key city) 1440 (Returns geo);
       mkLookup Forecast ("wx::" +:+ c +:+ "::" +:+ u) ttl (Returns wx)]
      city u geo wx JNull.
Proof.
  cbv zeta. intros Hcity Hgeo Hc Hwx Hshow.
  unfold fetch_and_render. rewrite Hcity. cbn [storage with_search_enabled].
  rewrite Hgeo, (coords_truthy _ _ Hc). unfold w_key. rewrite Hc. cbn [bind].
  rewrite Hwx, Hshow. reflexivity.
Qed.

(** What a cache hit was computed from. *)
Lemma fetch_and_render_hit_inv app now force geo wx aqi :
  fr_outcome (fetch_and_render app now force) = CacheHit geo wx aqi ->
  fr_app (fetch_and_render app now force) =
    snd (on_fetch_done (with_search_enabled app false) now geo wx aqi) /\
  get_cached (storage app) now (geo_key (PyStr.strip (city_edit app))) 1440
    = Returns geo /\
  exists c, coords geo = Returns c.
Proof.
  unfold fetch_and_render.
  destruct (PyStr.blank _); [discriminate|].
  cbn [storage with_search_enabled].
  destruct (get_cached _ _ (geo_key _) _) as [geo'|e] eqn:Hgeo; [|discriminate].
  destruct (Py.truthy geo') eqn:Hg.
  2:{ rewrite hit_or_dispatch_miss by reflexivity. discriminate. }
  destruct (w_key geo' _) as [wk|e] eqn:Hwk; [|discriminate].
  apply w_key_coords in Hwk as (c & Hc & ->).
  destruct (get_cached _ _ ("wx::" +:+ _) _) as [wx'|e] eqn:Hwx; [|discriminate].
  assert (Hleaf : forall log aqi0,
    fr_outcome (hit_or_dispatch (with_search_enabled app false) now log
                  (PyStr.strip (city_edit app))
                  (default "metric" (units (settings (storage app))))
                  geo' wx' aqi0) = CacheHit geo wx aqi ->
    fr_app (hit_or_dispatch (with_search_enabled app false) now log
                  (PyStr.strip (city_edit app))
                  (default "metric" (units (settings (storage app))))
                  geo' wx' aqi0) =
      snd (on_fetch_done (with_search_enabled app false) now geo wx aqi) /\
    Returns geo' = Returns geo /\ exists c, coords geo = Returns c).
  { intros log aqi0.
    destruct (Py.truthy wx' && (Py.truthy aqi0
                || negb (default true (show_aqi (settings
                     (storage (with_search_enabled app false))))))) eqn:Hcond.
    - rewrite (hit_or_dispatch_hit _ _ _ _ _ _ _ _ _ Hc Hcond). cbv zeta.
      cbn [fr_outcome fr_app]. intros [= <- <- <-]. eauto.
    - rewrite (hit_or_dispatch_miss _ _ _ _ _ _ _ _ Hcond). discriminate. }
  destruct (default true (show_aqi (settings (storage app)))); [|apply Hleaf].
  destruct (a_key geo') as [ak|e]; [|discriminate].
  destruct (get_cached _ _ ak _) as [aqi0|e]; [apply Hleaf | discriminate].
Qed.

End Requests.

(** ** Cache hit or fetch *)

(** Claim C3.  [fetch_and_render] calls [on_fetch_done] with cached data
    exactly when the forecast lookup succeeded and the air-quality lookup
    succeeded or air quality is switched off; then no worker is started.
    With geocode and forecast cached, air quality switched on and no
    air-quality entry younger than 60 minutes, a worker is started. *)
Theorem cache_completeness_gate (app : WeatherApp) (now : Q) (force : bool) :
  let f := fetch_and_render app now force in
  let st := storage app in
  let city := PyStr.strip (city_edit app) in
  let u := default "metric" (units (settings st)) in
  let show := default true (show_aqi (settings st)) in
  is_hit (fr_outcome f) =
    lookup_succeeded Forecast (fr_lookups f)
    && (lookup_succeeded AirQuality (fr_lookups f) || negb show) /\
  (is_hit (fr_outcome f) = true ->
     is_dispatched (fr_outcome f) = false /\ worker (fr_app f) = worker app) /\
  (forall geo wx wk ak,
     PyStr.blank city = false ->
     cached_within st now (geo_key city) 1440 geo ->
     w_key geo u = Returns wk -> cached_any_age st wk wx ->
     show = true ->
     a_key geo = Returns ak -> not_fresh st now ak 60 ->
     exists w, fr_outcome f = Dispatched w /\ w_city w = city /\
               worker (fr_app f) = Some w).
Proof.
  cbv zeta. split; [apply fetch_and_render_is_hit|]. split.
  - destruct (fr_outcome (fetch_and_render app now force)) as [|geo wx aqi| |] eqn:Ho;
      try discriminate.
    intros _. split; [reflexivity|].
    apply fetch_and_render_hit_inv in Ho as (-> & _ & c & Hc).
    now rewrite (on_fetch_done_ok _ _ _ _ _ _ Hc).
  - intros geo wx wk ak Hcity Hgeo Hwk Hwx Hshow Hak Haqi.
    apply w_key_coords in Hwk as (c & Hc & ->).
    apply a_key_coords in Hak as (c' & Hc' & ->).
    rewrite Hc in Hc'. injection Hc' as <-.
    apply (get_cached_within _ now) in Hgeo.
    apply (get_cached_not_fresh _ now) in Haqi; [|lia].
    destruct (get_cached_any_age_total (storage app) now _
                (if force then 0
                 else default 20 (cache_ttl_minutes (settings (storage app)))) _ Hwx)
      as [Hwx' | Hwx'];
      rewrite (fetch_and_render_three _ _ _ _ _ _ _ Hcity Hgeo Hc Hwx' Hshow Haqi);
      rewrite hit_or_dispatch_miss
        by (cbn [storage with_search_enabled Py.truthy]; rewrite Hshow;
            now rewrite andb_false_r);
      cbv zeta; eexists; repeat split.
Qed.


(** A warm cache 50 minutes old is a hit under forced refresh; at 66
    minutes the air-quality entry is stale and a worker is started. *)
Lemma cache_completeness_gate_witness :
  (is_dispatched (fr_outcome (fetch_and_render (Sample.app_of Sample.warm " Tehran ")
                                4000 true)) = false /\
   worker (fr_app (fetch_and_render (Sample.app_of Sample.warm " Tehran ") 4000 true))
     = None) /\
  exists w,
    fr_outcome (fetch_and_render (Sample.app_of Sample.warm " Tehran ") 5000 true)
      = Dispatched w /\
    w_city w = "Tehran" /\
    worker (fr_app (fetch_and_render (Sample.app_of Sample.warm " Tehran ") 5000 true))
      = Some w.
Proof.
  split.
  - apply (proj1 (proj2 (cache_completeness_gate
                           (Sample.app_of Sample.warm " Tehran ") 4000 true))).
    reflexivity.
  - apply (proj2 (proj2 (cache_completeness_gate
                           (Sample.app_of Sample.warm " Tehran ") 5000 true))
             Sample.tehran Sample.payload
             "wx::35.6892,51.3890::metric" "aqi::35.6892,51.3890").
    + reflexivity.
    + exists 1000%Q. split; [reflexivity|]. split; [discriminate|].
      unfold age_minutes, Qle. simpl. lia.
    + reflexivity.
    + exists 1000%Q. split; [reflexivity | discriminate].
    + reflexivity.
    + reflexivity.
    + right. exists 1000%Q, Sample.air. split; [reflexivity|]. split; [discriminate|].
      reflexivity.
Defined.


(** ** Requests that go to the network *)

Section Network.

Variable float_of_str : string -> option Q.
Implicit Types (app : WeatherApp) (st : Storage) (force : bool) (svc : Service).

(** What a dispatched worker is made from, and the state it leaves. *)
Lemma fetch_and_render_dispatched_inv app now force w :
  fr_outcome (fetch_and_render app now force) = Dispatched w ->
  w = {| w_city := PyStr.strip (city_edit app);
         w_units := default "metric" (units (settings (storage app)));
         w_show_aqi := default true (show_aqi (settings (storage app))) |} /\
  fr_app (fetch_and_render app now force) =
    with_worker (with_search_enabled app false) w.
Proof.
  unfold fetch_and_render.
  destruct (PyStr.blank _); [discriminate|].
  cbn [storage with_search_enabled].
  assert (Hleaf : forall log geo wx aqi,
    fr_outcome (hit_or_dispatch (with_search_enabled app false) now log
                  (PyStr.strip (city_edit app))
                  (default "metric" (units (settings (storage app))))
                  geo wx aqi) = Dispatched w ->
    w = {| w_city := PyStr.strip (city_edit app);
           w_units := default "metric" (units (settings (storage app)));
           w_show_aqi := default true (show_aqi (settings (storage app))) |} /\
    fr_app (hit_or_dispatch (with_search_enabled app false) now log
                  (PyStr.strip (city_edit app))
                  (default "metric" (units (settings (storage app))))
                  geo wx aqi) =
      with_worker (with_search_enabled app false) w).
  { intros log geo wx aqi. unfold hit_or_dispatch.
    destruct (Py.truthy wx && _).
    - destruct (on_fetch_done _ _ _ _ _) as [[?|?] ?]; discriminate.
    - cbn [fr_outcome fr_app storage with_search_enabled].
      intros [= <-]. split; reflexivity. }
  destruct (get_cached _ _ (geo_key _) _) as [geo|e]; [|discriminate].
  destruct (Py.truthy geo); [|apply Hleaf].
  destruct (w_key geo _) as [wk|e]; [|discriminate].
  destruct (get_cached _ _ wk _) as [wx|e]; [|discriminate].
  destruct (default true (show_aqi (settings (storage app)))); [|apply Hleaf].
  destruct (a_key geo) as [ak|e]; [|discriminate].
  destruct (get_cached _ _ ak _) as [aqi|e]; [apply Hleaf | discriminate].
Qed.

(** A request that went to the network. *)
Lemma resolve_fetched app now force svc later :
  rs_fetched (resolve float_of_str app now force svc later) = true ->
  let w := {| w_city := PyStr.strip (city_edit app);
              w_units := default "metric" (units (settings (storage app)));
              w_show_aqi := default true (show_aqi (settings (storage app))) |} in
  let app1 := with_worker (with_search_enabled app false) w in
  resolve float_of_str app now force svc later =
    match run float_of_str w svc with
    | Done geo wx aqi =>
        match on_fetch_done app1 later geo wx aqi with
        | (Returns _, app') =>
            mkResolved (Snapshot geo wx aqi) true (on_worker_finished app')
        | (Raises e, app') =>
            mkResolved (SlotRaised e) true (on_worker_finished app')
        end
    | Failed e =>
        mkResolved (FetchError e) true
          (on_worker_finished (on_fetch_failed app1 e))
    end.
Proof.
  unfold resolve.
  destruct (fr_outcome (fetch_and_render app now force)) as [| | w |] eqn:Ho;
    try discriminate.
  intros _. cbv zeta.
  now apply fetch_and_render_dispatched_inv in Ho as [<- ->].
Qed.

Lemma run_empty_geocode w svc :
  geo_api svc (w_city w) = Response 200 (Some (JArr [])) ->
  run float_of_str w svc = Failed CityNotFound.
Proof. intros H. unfold run. now rewrite H. Qed.

Lemma run_geocoded w svc item rest lat_v lon_v lat lon :
  geo_api svc (w_city w) = Response 200 (Some (JArr (item :: rest))) ->
  Py.item item "lat" = Returns lat_v -> float float_of_str lat_v = Returns lat ->
  Py.item item "lon" = Returns lon_v -> float float_of_str lon_v = Returns lon ->
  exists name country,
    run float_of_str w svc =
      match http_get (forecast_api svc lat lon (w_units w)) with
      | Returns wx =>
          Done (JObj [("name", name); ("country", country);
                      ("lat", JNum lat); ("lon", JNum lon)])
               wx
               (if w_show_aqi w then
                  match http_get (air_api svc lat lon) with
                  | Returns a => a
                  | Raises _ => JObj []
                  end
                else JObj [])
      | Raises e => Failed e
      end.
Proof.
  intros Hg Hlat Hflat Hlon Hflon. unfold run. rewrite Hg.
  cbn [http_get Z.eqb Pos.eqb bind Py.truthy negb Py.item0].
  rewrite Hlat. cbn [bind]. rewrite Hflat. cbn [bind].
  rewrite Hlon. cbn [bind]. rewrite Hflon. cbn [bind].
  destruct item as [| | | | |fields]; try discriminate.
  cbn [Py.get_or bind]. do 2 eexists.
  destruct (http_get (forecast_api svc lat lon (w_units w))); reflexivity.
Qed.

Lemma http_get_service_error status body :
  status <> 200 -> status <> 404 ->
  exists msg, http_get (Response status body) = Raises (ServiceError status msg).
Proof.
  intros H200 H404. unfold http_get.
  destruct (Z.eqb_spec status 200); [contradiction|].
  destruct (Z.eqb_spec status 404); [contradiction|].
  eexists. reflexivity.
Qed.

End Network.

Lemma add_history_cache (st : Storage) (city : string) :
  cache (add_history st city) = cache st.
Proof. unfold add_history. now destruct (PyStr.blank _). Qed.

(** Claim C4.  For a request that went to the network: when the geocode
    query answers with an empty array, the caller gets the city-not-found
    error and the storage (cache, history and their files) is as before;
    when the forecast query answers with a status other than 200 and 404,
    the caller gets the service error and the storage is as before; and so
    for every error a worker reports. *)
Theorem failed_fetch_changes_nothing (float_of_str : string -> option Q)
    (app : WeatherApp) (now : Q) (force : bool) (svc : Service) (later : Q) :
  let r := resolve float_of_str app now force svc later in
  let city := PyStr.strip (city_edit app) in
  let u := default "metric" (units (settings (storage app))) in
  rs_fetched r = true ->
  (geo_api svc city = Response 200 (Some (JArr [])) ->
   rs_delivery r = FetchError CityNotFound /\
   alerts (rs_app r) = CityNotFound :: alerts app /\
   storage (rs_app r) = storage app) /\
  (forall item rest lat_v lon_v lat lon status body,
     geo_api svc city = Response 200 (Some (JArr (item :: rest))) ->
     Py.item item "lat" = Returns lat_v -> float float_of_str lat_v = Returns lat ->
     Py.item item "lon" = Returns lon_v -> float float_of_str lon_v = Returns lon ->
     forecast_api svc lat lon u = Response status body ->
     status <> 200 -> status <> 404 ->
     exists msg,
       rs_delivery r = FetchError (ServiceError status msg) /\
       alerts (rs_app r) = ServiceError status msg :: alerts app /\
       storage (rs_app r) = storage app) /\
  (forall e, rs_delivery r = FetchError e -> storage (rs_app r) = storage app).
Proof.
  cbv zeta. intros Hfetched.
  rewrite (resolve_fetched _ _ _ _ _ _ Hfetched). cbv zeta.
  split; [|split].
  - intros Hgeo.
    rewrite (run_empty_geocode float_of_str
               (mkFetchWorker (PyStr.strip (city_edit app))
                   (default "metric" (units (settings (storage app))))
                   (default true (show_aqi (settings (storage app))))) svc Hgeo).
    repeat split.
  - intros item rest lat_v lon_v lat lon status body Hgeo Hlat Hflat Hlon Hflon Hwx H200 H404.
    destruct (run_geocoded float_of_str
                (mkFetchWorker (PyStr.strip (city_edit app))
                   (default "metric" (units (settings (storage app))))
                   (default true (show_aqi (settings (storage app)))))
                svc _ _ _ _ _ _ Hgeo Hlat Hflat Hlon Hflon)
      as (name & country & ->).
    cbn [w_units]. rewrite Hwx.
    destruct (http_get_service_error status body H200 H404) as [msg ->].
    exists msg. repeat split.
  - intros e.
    destruct (run float_of_str _ svc) as [geo wx aqi|e']; [|reflexivity].
    now destruct (on_fetch_done _ _ _ _ _) as [[?|?] ?].
Qed.

(** An unknown place, and a forecast endpoint that answers 503. *)
Lemma failed_fetch_changes_nothing_witness :
  (rs_delivery (resolve Sample.no_float (Sample.app_of Sample.air_only "Zzzxyqq")
                  5000 false (Sample.service 200) 5001) = FetchError CityNotFound /\
   storage (rs_app (resolve Sample.no_float (Sample.app_of Sample.air_only "Zzzxyqq")
                      5000 false (Sample.service 200) 5001)) = Sample.air_only) /\
  exists msg,
    rs_delivery (resolve Sample.no_float (Sample.app_of Sample.air_only "Tehran")
                   5000 false Sample.forecast_down 5001)
      = FetchError (ServiceError 503 msg) /\
    storage (rs_app (resolve Sample.no_float (Sample.app_of Sample.air_only "Tehran")
                       5000 false Sample.forecast_down 5001)) = Sample.air_only.
Proof.
  split.
  - destruct (proj1 (failed_fetch_changes_nothing Sample.no_float
                       (Sample.app_of Sample.air_only "Zzzxyqq") 5000 false
                       (Sample.service 200) 5001 eq_refl) eq_refl)
      as (Hd & _ & Hs).
    split; [exact Hd | exact Hs].
  - destruct (proj1 (proj2 (failed_fetch_changes_nothing Sample.no_float
                       (Sample.app_of Sample.air_only "Tehran") 5000 false
                       Sample.forecast_down 5001 eq_refl))
                Sample.tehran [] (JNum (356892 # 10000)) (JNum (513890 # 10000))
                (356892 # 10000)%Q (513890 # 10000)%Q 503
                (Some (JObj [("message", JStr "unavailable")]))
                eq_refl eq_refl eq_refl eq_refl eq_refl eq_refl
                ltac:(discriminate) ltac:(discriminate))
      as (msg & Hd & _ & Hs).
    exists msg. split; [exact Hd | exact Hs].
Defined.

(** Claim C5, as the code has it.  When geocode and forecast succeed and
    the air-quality query fails, the request delivers a snapshot whose air
    quality is the empty object, the cache holds the geocode and the
    forecast under their keys, and the air-quality key holds what it held
    before the request: nothing is written under it. *)
Theorem air_quality_failure_tolerated (float_of_str : string -> option Q)
    (app : WeatherApp) (now : Q) (force : bool) (svc : Service) (later : Q)
    (item : json) (rest : list json) (lat_v lon_v : json) (lat lon : Q)
    (wx : json) (e : pyexn) :
  let r := resolve float_of_str app now force svc later in
  let city := PyStr.strip (city_edit app) in
  let u := default "metric" (units (settings (storage app))) in
  let c := Fmt.fixed4 lat +:+ "," +:+ Fmt.fixed4 lon in
  rs_fetched r = true ->
  default true (show_aqi (settings (storage app))) = true ->
  geo_api svc city = Response 200 (Some (JArr (item :: rest))) ->
  Py.item item "lat" = Returns lat_v -> float float_of_str lat_v = Returns lat ->
  Py.item item "lon" = Returns lon_v -> float float_of_str lon_v = Returns lon ->
  forecast_api svc lat lon u = Response 200 (Some wx) ->
  http_get (air_api svc lat lon) = Raises e ->
  exists geo,
    Py.item geo "lat" = Returns (JNum lat) /\
    Py.item geo "lon" = Returns (JNum lon) /\
    rs_delivery r = Snapshot geo wx (JObj []) /\
    current_geo (rs_app r) = geo /\
    current_weather (rs_app r) = wx /\
    current_aqi (rs_app r) = JObj [] /\
    cache (storage (rs_app r)) !! geo_key city = Some (cache_entry later geo) /\
    cache (storage (rs_app r)) !! ("wx::" +:+ c +:+ "::" +:+ u)
      = Some (cache_entry later wx) /\
    cache (storage (rs_app r)) !! ("aqi::" +:+ c)
      = cache (storage app) !! ("aqi::" +:+ c).
Proof.
  cbv zeta. intros Hfetched Hshow Hgeo Hlat Hflat Hlon Hflon Hwx Hair.
  rewrite (resolve_fetched _ _ _ _ _ _ Hfetched). cbv zeta.
  destruct (run_geocoded float_of_str
                (mkFetchWorker (PyStr.strip (city_edit app))
                   (default "metric" (units (settings (storage app))))
                   (default true (show_aqi (settings (storage app)))))
                svc _ _ _ _ _ _ Hgeo Hlat Hflat Hlon Hflon)
    as (name & country & ->).
  cbn [w_units w_show_aqi]. rewrite Hwx, Hshow, Hair.
  cbn [http_get Z.eqb Pos.eqb].
  set (geo := JObj [("name", name); ("country", country);
                    ("lat", JNum lat); ("lon", JNum lon)]).
  assert (Hc : coords geo = Returns (Fmt.fixed4 lat +:+ "," +:+ Fmt.fixed4 lon))
    by reflexivity.
  rewrite (on_fetch_done_ok _ _ _ _ _ _ Hc).
  cbn [rs_delivery rs_app on_worker_finished with_search_enabled with_current
       with_storage with_worker storage city_edit current_geo current_weather
       current_aqi Py.truthy].
  rewrite andb_false_r, add_history_cache.
  cbn [set_cached save_cache with_cache cache].
  exists geo. repeat split.
  - rewrite lookup_insert_ne by (symmetry; apply geo_key_not_w_key).
    apply lookup_insert_eq.
  - apply lookup_insert_eq.
  - rewrite lookup_insert_ne by apply w_key_not_a_key.
    apply lookup_insert_ne, geo_key_not_a_key.
Qed.

(** A cold cache and an air-quality endpoint that answers 500. *)
Lemma air_quality_failure_tolerated_witness :
  exists geo,
    rs_delivery (resolve Sample.no_float (Sample.app_of Sample.cold "Tehran")
                   5000 false (Sample.service 500) 5001)
      = Snapshot geo Sample.payload (JObj []) /\
    cache (storage (rs_app (resolve Sample.no_float
                              (Sample.app_of Sample.cold "Tehran")
                              5000 false (Sample.service 500) 5001)))
      !! "aqi::35.6892,51.3890" = None.
Proof.
  destruct (air_quality_failure_tolerated Sample.no_float
              (Sample.app_of Sample.cold "Tehran") 5000 false
              (Sample.service 500) 5001
              Sample.tehran [] (JNum (356892 # 10000)) (JNum (513890 # 10000))
              (356892 # 10000)%Q (513890 # 10000)%Q Sample.payload
              (ServiceError 500 (JStr ""))
              eq_refl eq_refl eq_refl eq_refl eq_refl eq_refl eq_refl eq_refl eq_refl)
    as (geo & _ & _ & Hd & _ & _ & _ & _ & _ & Ha).
  exists geo. split; [exact Hd | exact Ha].
Defined.

(** Claim C5 as stated fails when an air-quality entry was cached before:
    the fetch with a failing air-quality endpoint leaves it in the cache. *)
Lemma stale_air_quality_entry_survives :
  rs_fetched (resolve Sample.no_float (Sample.app_of Sample.air_only "Tehran")
                9000 false (Sample.service 500) 9001) = true /\
  rs_delivery (resolve Sample.no_float (Sample.app_of Sample.air_only "Tehran")
                 9000 false (Sample.service 500) 9001)
    = Snapshot Sample.tehran Sample.payload (JObj []) /\
  a_key Sample.tehran = Returns "aqi::35.6892,51.3890" /\
  cache (storage (rs_app (resolve Sample.no_float (Sample.app_of Sample.air_only "Tehran")
                            9000 false (Sample.service 500) 9001)))
    !! "aqi::35.6892,51.3890" = Some (cache_entry 1000 Sample.air).
Proof. repeat split. Qed.

(** ** The geocode key *)

(** The key of the geocode lookup that [fetch_and_render] makes. *)
Lemma fetch_and_render_geo_key (app : WeatherApp) (now : Q) (force : bool) :
  Forall (fun lk : lookup =>
            lk_category lk = Geocode ->
            lk_key lk = geo_key (PyStr.strip (city_edit app)))
         (fr_lookups (fetch_and_render app now force)).
Proof.
  unfold fetch_and_render.
  destruct (PyStr.blank _); [constructor|].
  cbn [storage with_search_enabled city_edit].
  destruct (get_cached _ _ (geo_key _) _) as [geo|e];
    [|repeat constructor].
  destruct (Py.truthy geo);
    [|rewrite hit_or_dispatch_lookups; repeat constructor].
  destruct (w_key geo _) as [wk|e]; [|repeat constructor].
  destruct (get_cached _ _ wk _) as [wx|e];
    [|repeat constructor; discriminate].
  destruct (default true (show_aqi (settings (storage app))));
    [|rewrite hit_or_dispatch_lookups; repeat constructor; discriminate].
  destruct (a_key geo) as [ak|e]; [|repeat constructor; discriminate].
  destruct (get_cached _ _ ak _) as [aqi|e];
    [rewrite hit_or_dispatch_lookups|]; repeat constructor; discriminate.
Qed.




(** * Further properties *)

(** ** Storage: cache round trip and the history list *)

Lemma strip_trimmed (s : string) :
  PyStr.blank (PyStr.strip s) = false -> trimmed (PyStr.strip s).
Proof. intros H. split; [apply strip_strip | exact H]. Qed.

(** Property X1.  What [set_cached] stores at a clock reading other than
    zero, [get_cached] returns for that key while the entry is within the
    ttl (or the ttl is 0); lookups of other keys are as before; a second
    [set_cached] on the key replaces the first; and the cache file holds
    the new cache. *)
Theorem set_cached_then_get (st : Storage) (t now : Q) (key : string)
    (d : json) (ttl : Z) :
  ~ (t == 0)%Q ->
  ttl = 0 \/ (age_minutes now t <= inject_Z ttl)%Q ->
  get_cached (set_cached st t key d) now key ttl = Returns d /\
  (forall key', key' <> key ->
     get_cached (set_cached st t key d) now key' ttl = get_cached st now key' ttl) /\
  (forall t0 d0,
     cache (set_cached (set_cached st t0 key d0) t key d)
       = cache (set_cached st t key d)) /\
  cache_file (set_cached st t key d) = Some (cache (set_cached st t key d)).
Proof.
  intros Ht Hage. split; [|split; [|split]].
  - rewrite (get_cached_entry _ now key ttl t d); [|apply lookup_insert_eq|exact Ht].
    destruct Hage as [-> | Hage]; [reflexivity|].
    now rewrite (gt_false _ _ Hage), andb_false_r.
  - intros key' Hne. unfold get_cached, set_cached.
    cbn [cache save_cache with_cache]. now rewrite lookup_insert_ne.
  - intros t0 d0. cbn [set_cached cache save_cache with_cache].
    apply insert_insert_eq.
  - reflexivity.
Qed.

Lemma set_cached_then_get_witness :
  get_cached (set_cached Sample.cold 1000 "k" Sample.payload) 2200 "k" 20
    = Returns Sample.payload.
Proof.
  apply (set_cached_then_get Sample.cold 1000 2200 "k" Sample.payload 20).
  - discriminate.
  - right. unfold age_minutes, Qle. simpl. lia.
Defined.

Section HistoryInvariant.

Implicit Types (st : Storage) (city c : string) (h : list string).

Lemma filter_all {A} (P : A -> Prop) `{!forall x, Decision (P x)} (l : list A) :
  Forall P l -> filter P l = l.
Proof.
  induction 1 as [|x l Hx _ IH]; [reflexivity|].
  now rewrite filter_cons_True, IH.
Qed.

Lemma add_history_twice st city :
  add_history (add_history st city) city = add_history st city.
Proof.
  destruct (PyStr.blank (PyStr.strip city)) eqn:Hb.
  - now rewrite !(add_history_blank _ _ Hb).
  - unfold add_history at 1. rewrite Hb.
    rewrite (add_history_history _ _ Hb).
    set (c := PyStr.strip city).
    set (P := fun x => PyStr.lower x <> PyStr.lower c).
    cbn [take]. rewrite filter_cons_False by (unfold P; tauto).
    rewrite (filter_all P) by
      (apply Forall_take, Forall_forall; intros x Hx;
       now apply list_elem_of_filter in Hx as [Hx _]).
    rewrite take_take. change (Init.Nat.min 19 19) with 19%nat.
    unfold add_history. rewrite Hb. reflexivity.
Qed.

Lemma NoDup_fmap_filter {A B} (f : A -> B) (P : A -> Prop)
    `{!forall x, Decision (P x)} (l : list A) :
  NoDup (f <$> l) -> NoDup (f <$> filter P l).
Proof.
  induction l as [|x l IH]; [intros; constructor|].
  rewrite fmap_cons. intros [Hx Hl]%NoDup_cons.
  destruct (decide (P x)).
  - rewrite filter_cons_True by assumption. rewrite fmap_cons.
    apply NoDup_cons. split; [|auto].
    intros (y & Hy & Hin)%list_elem_of_fmap. apply Hx.
    apply list_elem_of_filter in Hin as [_ Hin].
    apply list_elem_of_fmap. eauto.
  - rewrite filter_cons_False by assumption. auto.
Qed.

Lemma add_history_ok st city :
  history_ok (history st) -> history_ok (history (add_history st city)).
Proof.
  intros (Hlen & Hnd & Htr).
  destruct (PyStr.blank (PyStr.strip city)) eqn:Hb.
  { rewrite (add_history_blank _ _ Hb). now repeat split. }
  split; [now apply add_history_length|].
  rewrite (add_history_history _ _ Hb).
  set (c := PyStr.strip city).
  set (P := fun x => PyStr.lower x <> PyStr.lower c).
  split.
  - rewrite fmap_take. eapply sublist_NoDup; [|apply sublist_take].
    rewrite fmap_cons. apply NoDup_cons. split.
    + intros (y & Hy & Hin)%list_elem_of_fmap.
      apply list_elem_of_filter in Hin as [Hin _]. now apply Hin.
    + now apply NoDup_fmap_filter.
  - apply Forall_take. constructor; [now apply strip_trimmed|].
    apply Forall_forall. intros x [_ Hx]%list_elem_of_filter.
    rewrite Forall_forall in Htr. auto.
Qed.

End HistoryInvariant.

(** Property X2.  [add_history] keeps the history list at most 20 long,
    free of two entries with the same lower-case form, and made of
    trimmed, non-empty names; so does any sequence of visits, also after
    [clear_history]. *)
Theorem history_invariant (st : Storage) (names : list string) :
  history_ok (history st) ->
  history_ok (history (record_all st names)) /\
  history_ok (history (record_all (clear_history st) names)).
Proof.
  assert (H : forall names st,
             history_ok (history st) -> history_ok (history (record_all st names))).
  { clear. intros names. unfold record_all.
    induction names as [|n names IH]; intros st Hst; cbn [fold_left]; [exact Hst|].
    apply IH. now apply add_history_ok. }
  intros Hst. split; [now apply H|]. apply H.
  cbn [clear_history history save_history with_history].
  repeat split; [cbn; lia | constructor | constructor].
Qed.

(** A list of two names, then a second spelling of the first, the Paris
    pair and 25 further names. *)
Lemma history_invariant_witness :
  history_ok (history (record_all (with_history Sample.cold ["Zürich"; "Tehran"])
                         ("ZÜRICH" :: " paris " :: "Paris" :: Sample.other_names))).
Proof.
  apply (history_invariant (with_history Sample.cold ["Zürich"; "Tehran"])
           ("ZÜRICH" :: " paris " :: "Paris" :: Sample.other_names)).
  split; [cbn; lia|]. split.
  - apply (bool_decide_unpack _). vm_compute. exact I.
  - repeat constructor; vm_compute; reflexivity.
Defined.

(** Property X3.  Recording the same city twice in a row leaves the
    storage as recording it once. *)
Theorem add_history_idempotent (st : Storage) (city : string) :
  add_history (add_history st city) city = add_history st city.
Proof. apply add_history_twice. Qed.

(** ** Storage: favourites and persistence *)

(** Property X4.  [add_favorite] and [remove_favorite] keep a list of
    favourites without repetitions free of repetitions, and removing a city
    just added to a list of fewer than 20 entries gives the list back. *)
Theorem favorites_invariant (st : Storage) (city : string) :
  let favs := default [] (favorites (settings st)) in
  (NoDup favs ->
     NoDup (default [] (favorites (settings (add_favorite st city)))) /\
     NoDup (default [] (favorites (settings (remove_favorite st city))))) /\
  (city ∉ favs -> (length favs < 20)%nat ->
     favorites (settings (remove_favorite (add_favorite st city) city)) = Some favs).
Proof.
  cbv zeta. split.
  - intros Hnd. split.
    + rewrite add_favorite_favorites. cbn [default from_option id].
      eapply sublist_NoDup; [|apply sublist_take].
      destruct (decide (city ∈ _)) as [Hin|Hout]; [exact Hnd|].
      apply NoDup_cons. now split.
    + rewrite remove_favorite_favorites. cbn [default from_option id].
      now apply NoDup_filter.
  - intros Hout Hlen. rewrite remove_favorite_favorites, add_favorite_favorites.
    cbn [default from_option id]. rewrite decide_False by exact Hout.
    rewrite take_ge by (cbn [length]; lia).
    rewrite filter_cons_False by tauto.
    f_equal. apply filter_all. apply Forall_forall. intros x Hx ->. contradiction.
Qed.

Lemma favorites_invariant_witness :
  NoDup (default [] (favorites (settings (add_favorite Sample2.with_favs "Qom")))) /\
  favorites (settings (remove_favorite (add_favorite Sample2.with_favs "Arak") "Arak"))
    = Some ["Yazd"; "Qom"].
Proof.
  assert (Hnd : NoDup ["Yazd"; "Qom"]).
  { apply (bool_decide_unpack _). vm_compute. exact I. }
  split.
  - apply (proj1 (favorites_invariant Sample2.with_favs "Qom")). exact Hnd.
  - apply (proj2 (favorites_invariant Sample2.with_favs "Arak")).
    + apply (bool_decide_unpack _). vm_compute. exact I.
    + cbn. lia.
Defined.

(** Property X5.  [add_current_to_favorites] does nothing when there is
    no current city; otherwise it flips the membership of the current city
    in the favourites, writes the settings file, and leaves history and
    cache alone. *)
Theorem favourite_toggle (app : WeatherApp) :
  let cc := current_city app in
  let favs := default [] (favorites (settings (storage app))) in
  let app' := add_current_to_favorites app in
  let favs' := default [] (favorites (settings (storage app'))) in
  (PyStr.blank cc = true -> app' = app) /\
  (PyStr.blank cc = false ->
     (cc ∈ favs <-> cc ∉ favs') /\
     settings_file (storage app') = Some (settings (storage app')) /\
     history (storage app') = history (storage app) /\
     cache (storage app') = cache (storage app)).
Proof.
  cbv zeta. unfold add_current_to_favorites. split.
  - now intros ->.
  - intros ->.
    destruct (decide (current_city app ∈ default [] (favorites (settings (storage app)))))
      as [Hin|Hout]; cbn [storage with_storage].
    + repeat split; try tauto. intros _.
      rewrite remove_favorite_favorites. cbn [default from_option id].
      intros [H _]%list_elem_of_filter. now apply H.
    + repeat split; try tauto.
      * intros H. exfalso. apply H.
        rewrite add_favorite_favorites. cbn [default from_option id].
        rewrite decide_False by exact Hout. cbn [take]. left.
Qed.

Lemma favourite_toggle_witness :
  add_current_to_favorites (Sample2.viewing "") = Sample2.viewing "" /\
  "Arak" ∈ default [] (favorites (settings (storage
             (add_current_to_favorites (Sample2.viewing "Arak"))))) /\
  "Qom" ∉ default [] (favorites (settings (storage
             (add_current_to_favorites (Sample2.viewing "Qom"))))).
Proof.
  split; [apply (proj1 (favourite_toggle (Sample2.viewing ""))); reflexivity|].
  split.
  - destruct (proj2 (favourite_toggle (Sample2.viewing "Arak")) eq_refl) as ([H1 H2] & _).
    destruct (decide ("Arak" ∈ default [] (favorites (settings (storage
                (add_current_to_favorites (Sample2.viewing "Arak"))))))) as [Hin|Hout];
      [exact Hin|].
    exfalso. apply H2 in Hout.
    revert Hout. apply (bool_decide_unpack _). vm_compute. exact I.
  - apply (proj1 (proj2 (favourite_toggle (Sample2.viewing "Qom")) eq_refl)).
    apply (bool_decide_unpack _). vm_compute. exact I.
Defined.

Section Synced.

Implicit Types (st : Storage) (op : storage_op).

Lemma synced_fields st :
  settings st = _load (settings_file st) DEFAULT_SETTINGS ->
  cache st = _load (cache_file st) ∅ ->
  history st = _load (history_file st) [] ->
  synced st.
Proof.
  destruct st as [s c h sf cf hf]. cbn. intros -> -> ->. reflexivity.
Qed.

Lemma synced_inv st :
  synced st ->
  settings st = _load (settings_file st) DEFAULT_SETTINGS /\
  cache st = _load (cache_file st) ∅ /\
  history st = _load (history_file st) [].
Proof.
  unfold synced. destruct st as [s c h sf cf hf]. cbn.
  intros [= <- <- <-]. repeat split.
Qed.

Lemma load_all_synced st : synced (load_all st).
Proof. apply synced_fields; reflexivity. Qed.

Lemma apply_op_synced st op : synced st -> synced (apply_op st op).
Proof.
  intros (Hs & Hc & Hh)%synced_inv.
  destruct op as [city| |city|city|now key data]; cbn [apply_op].
  - unfold add_history. destruct (PyStr.blank _).
    + now apply synced_fields.
    + now apply synced_fields.
  - now apply synced_fields.
  - now apply synced_fields.
  - now apply synced_fields.
  - now apply synced_fields.
Qed.

End Synced.

(** Property X6.  After [load_all], whatever sequence of [add_history],
    [clear_history], [add_favorite], [remove_favorite] and [set_cached]
    follows, loading again from the files gives the state in memory. *)
Theorem restart_reads_back (st : Storage) (ops : list storage_op) :
  load_all (apply_ops (load_all st) ops) = apply_ops (load_all st) ops.
Proof.
  change (synced (apply_ops (load_all st) ops)).
  generalize (load_all_synced st). generalize (load_all st). clear st.
  unfold apply_ops. induction ops as [|op ops IH]; intros st Hst; cbn [fold_left].
  - exact Hst.
  - apply IH. now apply apply_op_synced.
Qed.

(** ** Presentation helpers *)

Section ListIndex.

Context {A : Type}.
Implicit Types (l : list A) (i : Z).

Lemma item_in_range l i :
  - Z.of_nat (length l) <= i < Z.of_nat (length l) ->
  exists x, PyList.item l i = Returns x.
Proof.
  intros Hi. unfold PyList.item.
  set (n := Z.of_nat (length l)) in *.
  set (j := if i <? 0 then i + n else i).
  assert (Hj : 0 <= j < n) by (subst j; destruct (Z.ltb_spec i 0); lia).
  destruct (Z.ltb_spec j 0); [lia|]. destruct (Z.leb_spec n j); [lia|].
  cbn [orb].
  destruct (nth_error l (Z.to_nat j)) as [x|] eqn:E; [eauto|].
  apply nth_error_None in E. lia.
Qed.

Lemma item_out_of_range l i :
  i < - Z.of_nat (length l) \/ Z.of_nat (length l) <= i ->
  PyList.item l i = Raises IndexError.
Proof.
  intros Hi. unfold PyList.item.
  set (n := Z.of_nat (length l)) in *.
  set (j := if i <? 0 then i + n else i).
  assert (Hj : j < 0 \/ n <= j) by (subst j; destruct (Z.ltb_spec i 0); lia).
  destruct (Z.ltb_spec j 0); [reflexivity|]. destruct (Z.leb_spec n j); [reflexivity|].
  lia.
Qed.

Lemma item_negative l i :
  - Z.of_nat (length l) <= i < 0 ->
  PyList.item l i = PyList.item l (i + Z.of_nat (length l)).
Proof.
  intros Hi.
  assert (E1 : (i <? 0) = true) by (apply Z.ltb_lt; lia).
  assert (E2 : (i + Z.of_nat (length l) <? 0) = false) by (apply Z.ltb_ge; lia).
  unfold PyList.item. cbv zeta. now rewrite E1, !E2.
Qed.

End ListIndex.

(** Property X7.  [weather_emoji] depends on [is_night] for the codes 800
    and 801 and for no other code. *)
Theorem weather_emoji_night (code : Z) :
  (code <> 800 -> code <> 801 ->
   weather_emoji code true = weather_emoji code false) /\
  weather_emoji 800 true <> weather_emoji 800 false /\
  weather_emoji 801 true <> weather_emoji 801 false.
Proof.
  split; [|split; discriminate].
  intros H800 H801. unfold weather_emoji.
  destruct (Z.eqb_spec code 800); [contradiction|].
  destruct (Z.eqb_spec code 801); [contradiction|].
  reflexivity.
Qed.

Lemma weather_emoji_night_witness :
  weather_emoji 500 true = weather_emoji 500 false.
Proof.
  apply (proj1 (weather_emoji_night 500)); discriminate.
Defined.

(** Property X8.  [weather_emoji] gives the thermometer exactly for the
    codes outside 200..399, 500..799 and 800..804. *)
Theorem weather_emoji_fallback (code : Z) (is_night : bool) :
  weather_emoji code is_night = "🌡️" <->
  ~ (200 <= code < 400 \/ 500 <= code < 800 \/ 800 <= code <= 804).
Proof.
  unfold weather_emoji.
  repeat match goal with
         | |- context [Z.eqb ?a ?b] => destruct (Z.eqb_spec a b)
         end;
    cbn [orb]; try destruct is_night;
    (split; [intros H; try discriminate H | intros H; try reflexivity]);
    try (Z.to_euclidean_division_equations; lia);
    try (exfalso; apply H; Z.to_euclidean_division_equations; lia).
Qed.

Section Floor.

Lemma Qfloor_unique (x : Q) (k : Z) :
  (inject_Z k <= x)%Q -> (x < inject_Z (k + 1))%Q -> Qfloor x = k.
Proof.
  intros Hlo Hhi.
  assert (k <= Qfloor x).
  { rewrite <- (Qfloor_Z k). now apply Qfloor_resp_le. }
  assert (Qfloor x < k + 1).
  { rewrite Zlt_Qlt. eapply Qle_lt_trans; [apply Qfloor_le | exact Hhi]. }
  lia.
Qed.

Lemma fmod_small (deg : Q) :
  (0 <= deg)%Q -> (deg < 360)%Q -> (fmod deg 360 == deg)%Q.
Proof.
  intros Hlo Hhi. unfold fmod.
  rewrite (Qfloor_unique (deg / 360) 0).
  - ring.
  - apply Qle_shift_div_l; [reflexivity|]. now rewrite Qmult_0_l.
  - apply Qlt_shift_div_r; [reflexivity|]. now rewrite Qmult_1_l.
Qed.

Lemma wind_dir_index_range (deg : Q) : 0 <= wind_dir_index deg < 8.
Proof. unfold wind_dir_index. apply Z.mod_pos_bound. lia. Qed.

End Floor.

(** Property X9.  [wind_dir_arrow] returns for every direction, negative
    and beyond 360 included: its index never leaves the list; for [None] it
    returns the empty string. *)
Theorem wind_dir_arrow_total (deg : option Q) :
  (exists arrow, wind_dir_arrow deg = Returns arrow) /\
  wind_dir_arrow None = Returns "".
Proof.
  split; [|reflexivity].
  destruct deg as [deg|]; [|now exists ""].
  apply item_in_range. cbn [length]. pose proof (wind_dir_index_range deg). lia.
Qed.

(** Property X10.  For a direction in [0, 360), [wind_dir_arrow] gives
    the arrow of the 45-degree sector centred on the multiple [45 k] of 45
    nearest to it, the sector of 360 being the one of 0. *)
Theorem wind_dir_arrow_sectors (deg : Q) (k : Z) :
  (0 <= deg)%Q -> (deg < 360)%Q ->
  0 <= k <= 8 ->
  (inject_Z (45 * k) - (45 # 2) <= deg)%Q ->
  (deg < inject_Z (45 * k) + (45 # 2))%Q ->
  wind_dir_index deg = k mod 8 /\
  wind_dir_arrow (Some deg) =
    PyList.item ["↑"; "↗"; "→"; "↘"; "↓"; "↙"; "←"; "↖"] (k mod 8).
Proof.
  intros Hlo Hhi Hk Hklo Hkhi.
  assert (Hidx : wind_dir_index deg = k mod 8).
  { unfold wind_dir_index. f_equal.
    rewrite (Qfloor_comp _ ((deg + (45 # 2)) / 45))
      by now rewrite (fmod_small _ Hlo Hhi).
    apply Qfloor_unique.
    - apply Qle_shift_div_l; [reflexivity|].
      apply (Qplus_le_l _ _ (- (45 # 2))). ring_simplify.
      eapply Qle_trans; [|exact Hklo].
      rewrite inject_Z_mult. apply Qle_lteq. right. ring.
    - apply Qlt_shift_div_r; [reflexivity|].
      apply (Qplus_lt_l _ _ (- (45 # 2))). ring_simplify.
      eapply Qlt_le_trans; [exact Hkhi|].
      rewrite inject_Z_plus, inject_Z_mult. apply Qle_lteq. right. ring. }
  split; [exact Hidx|]. cbn [wind_dir_arrow]. now rewrite Hidx.
Qed.

Lemma wind_dir_arrow_sectors_witness :
  wind_dir_arrow (Some 100%Q) = Returns "→" /\
  wind_dir_arrow (Some 350%Q) = Returns "↑".
Proof.
  split.
  - apply (proj2 (wind_dir_arrow_sectors 100 2 ltac:(discriminate) ltac:(reflexivity)
             ltac:(lia) ltac:(discriminate) ltac:(reflexivity))).
  - apply (proj2 (wind_dir_arrow_sectors 350 8 ltac:(discriminate) ltac:(reflexivity)
             ltac:(lia) ltac:(discriminate) ltac:(reflexivity))).
Defined.

(** Property X11.  [get_day_name_fa] returns for the indices -7..6 and
    raises [IndexError] elsewhere; a negative index names the day seven
    later; the names of the days 0..6 are pairwise different. *)
Theorem get_day_name_fa_range (i : Z) :
  (-7 <= i < 7 -> exists name, get_day_name_fa i = Returns name) /\
  (i < -7 \/ 7 <= i -> get_day_name_fa i = Raises IndexError) /\
  (-7 <= i < 0 -> get_day_name_fa i = get_day_name_fa (i + 7)) /\
  (forall j, 0 <= i < 7 -> 0 <= j < 7 ->
             get_day_name_fa i = get_day_name_fa j -> i = j).
Proof.
  unfold get_day_name_fa. repeat split.
  - intros Hi. apply item_in_range. cbn [length]. lia.
  - intros Hi. apply item_out_of_range. cbn [length]. lia.
  - intros Hi. apply item_negative. cbn [length]. lia.
  - intros j Hi Hj.
    assert (Ei : i = 0 \/ i = 1 \/ i = 2 \/ i = 3 \/ i = 4 \/ i = 5 \/ i = 6) by lia.
    assert (Ej : j = 0 \/ j = 1 \/ j = 2 \/ j = 3 \/ j = 4 \/ j = 5 \/ j = 6) by lia.
    destruct Ei as [->|[->|[->|[->|[->|[->| ->]]]]]];
      destruct Ej as [->|[->|[->|[->|[->|[->| ->]]]]]];
      intros H; try reflexivity; vm_compute in H; discriminate H.
Qed.

Lemma get_day_name_fa_range_witness :
  (exists name, get_day_name_fa 6 = Returns name) /\
  get_day_name_fa 7 = Raises IndexError /\
  get_day_name_fa (-1) = get_day_name_fa 6.
Proof.
  split; [apply (proj1 (get_day_name_fa_range 6)); lia|].
  split; [apply (proj1 (proj2 (get_day_name_fa_range 7))); lia|].
  apply (proj1 (proj2 (proj2 (get_day_name_fa_range (-1))))). lia.
Defined.

(** ** The worker *)

Section WorkerFacts.

Variable float_of_str : string -> option Q.
Implicit Types (w : FetchWorker) (svc : Service).

(** The geocode payload that a worker delivers has both coordinates. *)
Lemma run_done_coords w svc geo wx aqi :
  run float_of_str w svc = Done geo wx aqi -> exists c, coords geo = Returns c.
Proof.
  unfold run.
  destruct (http_get (geo_api svc (w_city w))) as [g|e]; cbn [bind]; [|discriminate].
  destruct (negb (Py.truthy g)); [discriminate|].
  destruct (Py.item0 g) as [item|e]; cbn [bind]; [|discriminate].
  destruct (Py.item item "lat") as [lat_v|e]; cbn [bind]; [|discriminate].
  destruct (float float_of_str lat_v) as [lat|e]; cbn [bind]; [|discriminate].
  destruct (Py.item item "lon") as [lon_v|e]; cbn [bind]; [|discriminate].
  destruct (float float_of_str lon_v) as [lon|e]; cbn [bind]; [|discriminate].
  destruct (Py.get_or item "name" _) as [name|e]; cbn [bind]; [|discriminate].
  destruct (Py.get_or item "country" _) as [country|e]; cbn [bind]; [|discriminate].
  destruct (http_get (forecast_api svc lat lon (w_units w))) as [wx'|e];
    cbn [bind]; [|discriminate].
  intros [= <- _ _]. eexists. reflexivity.
Qed.

End WorkerFacts.

(** Property X12.  Whether [FetchWorker.run] fails, and with what, and
    the geocode and forecast it delivers, are decided by the geocode and
    forecast endpoints alone; with [show_aqi] off the air-quality endpoint
    has no influence at all. *)
Theorem run_ignores_air_quality (float_of_str : string -> option Q)
    (w : FetchWorker) (svc svc' : Service) :
  same_but_air svc svc' ->
  (forall e, run float_of_str w svc = Failed e <-> run float_of_str w svc' = Failed e) /\
  (forall geo wx aqi,
     run float_of_str w svc = Done geo wx aqi ->
     exists aqi', run float_of_str w svc' = Done geo wx aqi') /\
  (w_show_aqi w = false -> run float_of_str w svc = run float_of_str w svc').
Proof.
  intros [Hgeo Hwx]. unfold run. rewrite <- Hgeo.
  destruct (http_get (geo_api svc (w_city w))) as [g|e]; cbn [bind];
    [|repeat split; eauto; discriminate].
  destruct (negb (Py.truthy g)); [repeat split; eauto; discriminate|].
  destruct (Py.item0 g) as [item|e]; cbn [bind];
    [|repeat split; eauto; discriminate].
  destruct (Py.item item "lat") as [lat_v|e]; cbn [bind];
    [|repeat split; eauto; discriminate].
  destruct (float float_of_str lat_v) as [lat|e]; cbn [bind];
    [|repeat split; eauto; discriminate].
  destruct (Py.item item "lon") as [lon_v|e]; cbn [bind];
    [|repeat split; eauto; discriminate].
  destruct (float float_of_str lon_v) as [lon|e]; cbn [bind];
    [|repeat split; eauto; discriminate].
  destruct (Py.get_or item "name" _) as [name|e]; cbn [bind];
    [|repeat split; eauto; discriminate].
  destruct (Py.get_or item "country" _) as [country|e]; cbn [bind];
    [|repeat split; eauto; discriminate].
  rewrite <- Hwx.
  destruct (http_get (forecast_api svc lat lon (w_units w))) as [wx'|e]; cbn [bind];
    [|repeat split; eauto; discriminate].
  repeat split; try discriminate.
  - intros geo wx aqi [= <- <- _]. eauto.
  - now intros ->.
Qed.

Lemma run_ignores_air_quality_witness :
  exists aqi',
    run Sample.no_float (mkFetchWorker "Tehran" "metric" true) (Sample.service 500)
      = Done Sample.tehran Sample.payload aqi'.
Proof.
  apply (proj1 (proj2 (run_ignores_air_quality Sample.no_float
                         (mkFetchWorker "Tehran" "metric" true)
                         (Sample.service 200) (Sample.service 500)
                         (conj (fun _ => eq_refl) (fun _ _ _ => eq_refl))))
           Sample.tehran Sample.payload Sample.air).
  reflexivity.
Defined.

(** Property X13.  In the part of [on_fetch_done] that stores and records
    (all of it before rendering) no exception leaves the slot, whatever the
    services answer: the geocode payload of a worker always has the two
    coordinates the keys are formatted from. *)
Theorem completion_slot_never_raises (float_of_str : string -> option Q)
    (app : WeatherApp) (now : Q) (force : bool) (svc : Service) (later : Q)
    (e : pyexn) :
  rs_delivery (resolve float_of_str app now force svc later) <> SlotRaised e.
Proof.
  unfold resolve.
  destruct (fr_outcome (fetch_and_render app now force)) as [| | w |]; try discriminate.
  destruct (run float_of_str w svc) as [geo wx aqi|e'] eqn:Hrun; [|discriminate].
  apply run_done_coords in Hrun as [c Hc].
  rewrite (on_fetch_done_ok _ _ _ _ _ _ Hc). discriminate.
Qed.

(** ** What a completed request leaves *)

Section AfterCompletion.

Implicit Types (app : WeatherApp) (st : Storage) (force : bool).

Lemma on_fetch_done_coords app now geo wx aqi app' :
  on_fetch_done app now geo wx aqi = (Returns tt, app') ->
  exists c, coords geo = Returns c.
Proof.
  unfold on_fetch_done, w_key.
  destruct (coords geo) as [c|e]; cbn [bind]; [eauto | discriminate].
Qed.

Lemma fetch_and_render_hit_nonblank app now force geo wx aqi :
  fr_outcome (fetch_and_render app now force) = CacheHit geo wx aqi ->
  PyStr.blank (PyStr.strip (city_edit app)) = false.
Proof.
  unfold fetch_and_render. destruct (PyStr.blank _); [discriminate | reflexivity].
Qed.

(** The cache that a completed [on_fetch_done] leaves, key by key. *)
Lemma on_fetch_done_cache app now geo wx aqi c :
  coords geo = Returns c ->
  let city := PyStr.strip (city_edit app) in
  let u := default "metric" (units (settings (storage app))) in
  let show := default true (show_aqi (settings (storage app))) in
  let st' := storage (snd (on_fetch_done app now geo wx aqi)) in
  cache st' !! geo_key city = Some (cache_entry now geo) /\
  cache st' !! ("wx::" +:+ c +:+ "::" +:+ u) = Some (cache_entry now wx) /\
  cache st' !! ("aqi::" +:+ c) =
    (if show && Py.truthy aqi then Some (cache_entry now aqi)
     else cache (storage app) !! ("aqi::" +:+ c)) /\
  cache_file st' = Some (cache st') /\
  settings st' = settings (storage app) /\
  city_edit (snd (on_fetch_done app now geo wx aqi)) = city_edit app /\
  history st' = history (add_history (storage app) city).
Proof.
  intros Hc. cbv zeta. rewrite (on_fetch_done_ok _ _ _ _ _ _ Hc).
  cbn [snd storage with_current with_storage on_worker_finished
       with_search_enabled city_edit].
  rewrite add_history_cache.
  assert (Hfile : forall st city, cache_file (add_history st city) = cache_file st).
  { intros st city. unfold add_history. now destruct (PyStr.blank _). }
  assert (Hset : forall st city, settings (add_history st city) = settings st).
  { intros st city. unfold add_history. now destruct (PyStr.blank _). }
  assert (Hhist : forall st st' city,
             history st = history st' ->
             history (add_history st city) = history (add_history st' city)).
  { intros st st' city H. unfold add_history.
    destruct (PyStr.blank _); cbn [history save_history with_history]; now rewrite H. }
  rewrite Hfile, Hset.
  destruct (default true (show_aqi (settings (storage app))) && Py.truthy aqi);
    cbn [set_cached save_cache with_cache cache cache_file settings];
    repeat split;
    rewrite ?lookup_insert_eq; try reflexivity;
    try (apply Hhist; reflexivity).
  - rewrite lookup_insert_ne by (symmetry; apply geo_key_not_a_key).
    rewrite lookup_insert_ne by (symmetry; apply geo_key_not_w_key).
    apply lookup_insert_eq.
  - rewrite lookup_insert_ne by (symmetry; apply w_key_not_a_key).
    apply lookup_insert_eq.
  - rewrite lookup_insert_ne by (symmetry; apply geo_key_not_w_key).
    apply lookup_insert_eq.
  - rewrite lookup_insert_ne by apply w_key_not_a_key.
    apply lookup_insert_ne, geo_key_not_a_key.
Qed.

End AfterCompletion.

(** Property X14.  A cache hit stores the geocode and the forecast again
    under the current clock reading, writes the cache file, and puts the
    trimmed city at the front of the history and of the history file. *)
Theorem cache_hit_restamps (app : WeatherApp) (now : Q) (force : bool)
    (geo wx aqi : json) :
  let f := fetch_and_render app now force in
  let city := PyStr.strip (city_edit app) in
  let u := default "metric" (units (settings (storage app))) in
  fr_outcome f = CacheHit geo wx aqi ->
  exists c,
    coords geo = Returns c /\
    cache (storage (fr_app f)) !! geo_key city = Some (cache_entry now geo) /\
    cache (storage (fr_app f)) !! ("wx::" +:+ c +:+ "::" +:+ u)
      = Some (cache_entry now wx) /\
    cache_file (storage (fr_app f)) = Some (cache (storage (fr_app f))) /\
    (exists rest, history (storage (fr_app f)) = city :: rest) /\
    history_file (storage (fr_app f)) = Some (history (storage (fr_app f))).
Proof.
  cbv zeta. intros Ho.
  pose proof (fetch_and_render_hit_nonblank _ _ _ _ _ _ Ho) as Hcity.
  apply fetch_and_render_hit_inv in Ho as (-> & _ & c & Hc).
  exists c. split; [exact Hc|].
  destruct (on_fetch_done_cache (with_search_enabled app false) now geo wx aqi c Hc)
    as (Hg & Hw & _ & Hf & _ & _ & Hh).
  cbn [storage with_search_enabled city_edit] in Hg, Hw, Hh.
  split; [exact Hg|]. split; [exact Hw|]. split; [exact Hf|].
  split.
  - rewrite Hh. rewrite add_history_history by now rewrite strip_strip.
    rewrite strip_strip. cbn [take]. eauto.
  - rewrite (on_fetch_done_ok _ _ _ _ _ _ Hc).
    cbn [snd storage with_current with_storage on_worker_finished
         with_search_enabled city_edit].
    unfold add_history. rewrite strip_strip, Hcity. reflexivity.
Qed.

Lemma cache_hit_restamps_witness :
  cache (storage (fr_app (fetch_and_render (Sample.app_of Sample.warm " Tehran ")
                            4000 true)))
    !! "wx::35.6892,51.3890::metric" = Some (cache_entry 4000 Sample.payload) /\
  cache Sample.warm !! "wx::35.6892,51.3890::metric"
    = Some (cache_entry 1000 Sample.payload).
Proof.
  destruct (cache_hit_restamps (Sample.app_of Sample.warm " Tehran ") 4000 true
              Sample.tehran Sample.payload Sample.air eq_refl)
    as (c & Hc & _ & Hw & _).
  injection Hc as <-. split; [exact Hw | reflexivity].
Defined.

(** Property X15.  After [on_fetch_done] has completed at a clock reading
    other than zero with a non-empty forecast, and with air quality either
    non-empty or switched off, a request for the same text within 60
    minutes and within the ttl (or forced, or with ttl 0) is a cache hit
    with the stored geocode and forecast, and starts no worker. *)
Theorem stored_snapshot_is_served (app app' : WeatherApp) (later now : Q)
    (force : bool) (geo wx aqi : json) :
  let show := default true (show_aqi (settings (storage app))) in
  let ttl := default 20 (cache_ttl_minutes (settings (storage app))) in
  on_fetch_done app later geo wx aqi = (Returns tt, app') ->
  PyStr.blank (PyStr.strip (city_edit app)) = false ->
  ~ (later == 0)%Q ->
  Py.truthy wx = true ->
  show = false \/ Py.truthy aqi = true ->
  (age_minutes now later <= 60)%Q ->
  force = true \/ ttl = 0 \/ (age_minutes now later <= inject_Z ttl)%Q ->
  fr_outcome (fetch_and_render app' now force)
    = CacheHit geo wx (if show then aqi else JObj []) /\
  worker (fr_app (fetch_and_render app' now force)) = worker app.
Proof.
  cbv zeta. intros Hdone Hcity Hlater Hwx Haqi Hage Httl.
  destruct (on_fetch_done_coords _ _ _ _ _ _ Hdone) as [c Hc].
  destruct (on_fetch_done_cache app later geo wx aqi c Hc)
    as (Hg & Hw & Ha & _ & Hset & Hedit & _).
  assert (Hwk : worker app' = worker app).
  { rewrite (on_fetch_done_ok _ _ _ _ _ _ Hc) in Hdone. now injection Hdone as <-. }
  rewrite Hdone in Hg, Hw, Ha, Hset, Hedit. cbn [snd] in Hg, Hw, Ha, Hset, Hedit.
  rewrite <- Hedit in Hcity, Hg. rewrite <- Hset in Hw.
  assert (H1440 : (age_minutes now later <= inject_Z 1440)%Q).
  { eapply Qle_trans; [exact Hage|]. unfold Qle. simpl. lia. }
  assert (Hgeo : get_cached (storage app') now (geo_key (PyStr.strip (city_edit app'))) 1440
                 = Returns geo).
  { apply get_cached_within. exists later. auto. }
  assert (Hfc : get_cached (storage app') now
                  ("wx::" +:+ c +:+ "::" +:+ default "metric" (units (settings (storage app'))))
                  (if force then 0 else default 20 (cache_ttl_minutes (settings (storage app'))))
                = Returns wx).
  { rewrite (get_cached_entry _ _ _ _ _ _ Hw Hlater). rewrite Hset.
    destruct force; [reflexivity|].
    destruct Httl as [Hf | [-> | Hle]]; [discriminate | reflexivity |].
    now rewrite (gt_false _ _ Hle), andb_false_r. }
  destruct (default true (show_aqi (settings (storage app)))) eqn:Hshow.
  - destruct Haqi as [Hoff | Haqi]; [discriminate|].
    rewrite Haqi in Ha. cbn [andb] in Ha.
    assert (Hair : get_cached (storage app') now ("aqi::" +:+ c) 60 = Returns aqi).
    { apply get_cached_within. exists later. unfold Qle in *. auto. }
    rewrite <- Hset in Hshow.
    rewrite (fetch_and_render_three app' now force geo wx aqi c
               Hcity Hgeo Hc Hfc Hshow Hair).
    rewrite (hit_or_dispatch_hit _ _ _ _ _ _ _ _ _ Hc)
      by (cbn [storage with_search_enabled]; now rewrite Hwx, Haqi).
    cbv zeta. rewrite Haqi. cbn [fr_outcome fr_app].
    split; [reflexivity|].
    now rewrite (on_fetch_done_ok _ _ _ _ _ _ Hc).
  - rewrite <- Hset in Hshow.
    rewrite (fetch_and_render_two app' now force geo wx c Hcity Hgeo Hc Hfc Hshow).
    rewrite (hit_or_dispatch_hit _ _ _ _ _ _ _ _ _ Hc)
      by (cbn [storage with_search_enabled Py.truthy]; now rewrite Hwx, Hshow).
    cbv zeta. cbn [Py.truthy fr_outcome fr_app].
    split; [reflexivity|].
    now rewrite (on_fetch_done_ok _ _ _ _ _ _ Hc).
Qed.

Lemma stored_snapshot_is_served_witness :
  fr_outcome
    (fetch_and_render
       (rs_app (resolve Sample.no_float (Sample.app_of Sample.cold "Tehran")
                  5000 false (Sample.service 200) 5001))
       6000 false)
    = CacheHit Sample.tehran Sample.payload Sample.air.
Proof.
  apply (stored_snapshot_is_served
           (with_worker (with_search_enabled (Sample.app_of Sample.cold "Tehran") false)
              (mkFetchWorker "Tehran" "metric" true))
           (rs_app (resolve Sample.no_float (Sample.app_of Sample.cold "Tehran")
                      5000 false (Sample.service 200) 5001))
           5001 6000 false Sample.tehran Sample.payload Sample.air).
  - reflexivity.
  - reflexivity.
  - discriminate.
  - reflexivity.
  - right. reflexivity.
  - unfold age_minutes, Qle. simpl. lia.
  - right. right. unfold age_minutes, Qle. simpl. lia.
Defined.

(** Property X16.  After [on_fetch_done] has completed with an empty air
    quality while air quality is switched on, and the air-quality key held
    nothing fresh before, the next request for the same text starts a
    worker again, forced or not, although geocode and forecast are
    cached. *)
Theorem air_quality_outage_refetches (app app' : WeatherApp) (later now : Q)
    (force : bool) (geo wx aqi : json) (ak : string) :
  on_fetch_done app later geo wx aqi = (Returns tt, app') ->
  PyStr.blank (PyStr.strip (city_edit app)) = false ->
  ~ (later == 0)%Q ->
  (age_minutes now later <= inject_Z 1440)%Q ->
  default true (show_aqi (settings (storage app))) = true ->
  Py.truthy aqi = false ->
  a_key geo = Returns ak ->
  not_fresh (storage app) now ak 60 ->
  is_dispatched (fr_outcome (fetch_and_render app' now force)) = true.
Proof.
  intros Hdone Hcity Hlater Hage Hshow Haqi Hak Hold.
  apply a_key_coords in Hak as (c & Hc & ->).
  destruct (on_fetch_done_cache app later geo wx aqi c Hc)
    as (Hg & Hw & Ha & _ & Hset & Hedit & _).
  rewrite Hdone in Hg, Hw, Ha, Hset, Hedit. cbn [snd] in Hg, Hw, Ha, Hset, Hedit.
  rewrite Hshow, Haqi in Ha. cbn [andb] in Ha.
  rewrite <- Hedit in Hcity, Hg. rewrite <- Hset in Hw, Hshow.
  assert (Hgeo : get_cached (storage app') now (geo_key (PyStr.strip (city_edit app'))) 1440
                 = Returns geo).
  { apply get_cached_within. exists later. auto. }
  assert (Hair : get_cached (storage app') now ("aqi::" +:+ c) 60 = Returns JNull).
  { apply get_cached_not_fresh; [lia|].
    destruct Hold as [Hnone | (ts & d & Hk & Hts & Hstale)].
    - left. now rewrite Ha.
    - right. exists ts, d. now rewrite Ha. }
  destruct (get_cached_any_age_total (storage app') now _
              (if force then 0
               else default 20 (cache_ttl_minutes (settings (storage app')))) wx
              (ex_intro _ later (conj Hw Hlater)))
    as [Hfc | Hfc];
    rewrite (fetch_and_render_three app' now force geo _ JNull c
               Hcity Hgeo Hc Hfc Hshow Hair);
    rewrite hit_or_dispatch_miss
      by (cbn [storage with_search_enabled Py.truthy]; rewrite Hshow;
          now rewrite andb_false_r);
    reflexivity.
Qed.

Lemma air_quality_outage_refetches_witness :
  is_dispatched
    (fr_outcome
       (fetch_and_render
          (rs_app (resolve Sample.no_float (Sample.app_of Sample.cold "Tehran")
                     5000 false Sample2.air_down 5001))
          5002 false)) = true.
Proof.
  apply (air_quality_outage_refetches
           (with_worker (with_search_enabled (Sample.app_of Sample.cold "Tehran") false)
              (mkFetchWorker "Tehran" "metric" true))
           (rs_app (resolve Sample.no_float (Sample.app_of Sample.cold "Tehran")
                      5000 false Sample2.air_down 5001))
           5001 5002 false Sample.tehran Sample.payload (JObj [])
           "aqi::35.6892,51.3890").
  - reflexivity.
  - reflexivity.
  - discriminate.
  - unfold age_minutes, Qle. simpl. lia.
  - reflexivity.
  - reflexivity.
  - reflexivity.
  - left. reflexivity.
Defined.

(** ** Well-formed caches *)

Section WellFormedCache.

Implicit Types (app : WeatherApp) (st : Storage) (force : bool).

Lemma get_cached_ok st now key ttl :
  cache_ok (cache st) ->
  get_cached st now key ttl = Returns JNull \/
  exists ts d, cache st !! key = Some (cache_entry ts d) /\
               get_cached st now key ttl = Returns d.
Proof.
  intros Hok.
  destruct (cache st !! key) as [v|] eqn:Hk;
    [|left; now apply get_cached_missing].
  destruct (Hok _ _ Hk) as (ts & d & -> & _).
  destruct (Z.eq_dec (Qnum ts) 0) as [Hz|Hnz].
  - left. unfold get_cached. rewrite Hk.
    change (default JNull (Some (cache_entry ts d))) with (cache_entry ts d).
    rewrite entry_truthy, entry_ts. cbn [negb bind].
    rewrite falsy_num; [reflexivity|]. unfold Qeq. simpl. lia.
  - assert (Hts : ~ (ts == 0)%Q) by (unfold Qeq; simpl; lia).
    rewrite (get_cached_entry _ _ _ _ _ _ Hk Hts).
    destruct (negb (ttl =? 0) && _); [now left|].
    right. exists ts, d. auto.
Qed.

Lemma cache_ok_insert (c : gmap string json) key v :
  cache_ok c -> entry_ok key v -> cache_ok (<[key := v]> c).
Proof.
  intros Hc Hv key' v'. rewrite lookup_insert.
  destruct (decide (key = key')) as [<-|Hne]; [now intros [= <-]|]. apply Hc.
Qed.

Lemma geo_key_prefix city : String.prefix "geo::" (geo_key city) = true.
Proof.
  apply String.prefix_correct. unfold geo_key.
  now destruct (PyStr.lower city).
Qed.

Lemma entry_ok_geo city now geo c :
  coords geo = Returns c -> entry_ok (geo_key city) (cache_entry now geo).
Proof. intros Hc. exists now, geo. split; [reflexivity|]. right. eauto. Qed.

Lemma entry_ok_w c u now wx :
  entry_ok ("wx::" +:+ c +:+ "::" +:+ u) (cache_entry now wx).
Proof. exists now, wx. split; [reflexivity | discriminate]. Qed.

Lemma entry_ok_a c now aqi : entry_ok ("aqi::" +:+ c) (cache_entry now aqi).
Proof. exists now, aqi. split; [reflexivity | discriminate]. Qed.

Lemma on_fetch_done_cache_ok app now geo wx aqi c :
  coords geo = Returns c ->
  cache_ok (cache (storage app)) ->
  cache_ok (cache (storage (snd (on_fetch_done app now geo wx aqi)))).
Proof.
  intros Hc Hok. rewrite (on_fetch_done_ok _ _ _ _ _ _ Hc).
  cbn [snd storage with_current with_storage]. rewrite add_history_cache.
  destruct (default true (show_aqi (settings (storage app))) && Py.truthy aqi);
    cbn [set_cached save_cache with_cache cache];
    repeat apply cache_ok_insert;
    first [ exact Hok | eapply entry_ok_geo; exact Hc
          | apply entry_ok_w | apply entry_ok_a ].
Qed.

Lemma fetch_and_render_not_errored app now force :
  cache_ok (cache (storage app)) ->
  is_errored (fr_outcome (fetch_and_render app now force)) = false /\
  cache_ok (cache (storage (fr_app (fetch_and_render app now force)))).
Proof.
  intros Hok. unfold fetch_and_render.
  destruct (PyStr.blank _); [now split|].
  cbn [storage with_search_enabled].
  assert (Hleaf : forall log geo wx aqi,
    (exists c, coords geo = Returns c) \/ Py.truthy wx = false ->
    is_errored (fr_outcome (hit_or_dispatch (with_search_enabled app false) now log
                  (PyStr.strip (city_edit app))
                  (default "metric" (units (settings (storage app))))
                  geo wx aqi)) = false /\
    cache_ok (cache (storage (fr_app
                 (hit_or_dispatch (with_search_enabled app false) now log
                    (PyStr.strip (city_edit app))
                    (default "metric" (units (settings (storage app))))
                    geo wx aqi))))).
  { intros log geo wx aqi H.
    destruct (Py.truthy wx && (Py.truthy aqi
                || negb (default true (show_aqi (settings
                     (storage (with_search_enabled app false))))))) eqn:Hcond.
    - destruct H as [[c Hc] | Hwx]; [|now rewrite Hwx in Hcond].
      rewrite (hit_or_dispatch_hit _ _ _ _ _ _ _ _ _ Hc Hcond). cbv zeta.
      cbn [fr_outcome fr_app is_errored]. split; [reflexivity|].
      now apply (on_fetch_done_cache_ok _ _ _ _ _ c).
    - rewrite (hit_or_dispatch_miss _ _ _ _ _ _ _ _ Hcond). now split. }
  destruct (get_cached_ok (storage app) now
              (geo_key (PyStr.strip (city_edit app))) 1440 Hok)
    as [-> | (ts & geo & Hk & ->)].
  { cbn [Py.truthy]. apply Hleaf. now right. }
  destruct (Py.truthy geo) eqn:Hg; [|apply Hleaf; now right].
  destruct (Hok _ _ Hk) as (ts' & d' & [= <- <-] & Hgeo).
  destruct (Hgeo (geo_key_prefix _)) as [Hf | [c Hc]]; [congruence|].
  unfold w_key, a_key. rewrite Hc. cbn [bind].
  destruct (get_cached_ok (storage app) now
              ("wx::" +:+ c +:+ "::" +:+ default "metric" (units (settings (storage app))))
              (if force then 0
               else default 20 (cache_ttl_minutes (settings (storage app)))) Hok)
    as [-> | (tw & wx & _ & ->)];
    (destruct (default true (show_aqi (settings (storage app))));
     [destruct (get_cached_ok (storage app) now ("aqi::" +:+ c) 60 Hok)
        as [-> | (ta & aqi & _ & ->)]|]);
    apply Hleaf; eauto.
Qed.

End WellFormedCache.

(** Property X17.  When every cache value is an entry as [set_cached]
    writes it and geocode keys hold payloads with coordinates, reading the
    cache, forming the keys and storing never raise in [fetch_and_render]
    (rendering aside, its exception branch is not taken), the only errors
    of a request are those the worker reports, and the cache after the
    request is again of that form. *)
Theorem well_formed_cache_is_kept (float_of_str : string -> option Q)
    (app : WeatherApp) (now : Q) (force : bool) (svc : Service) (later : Q) :
  cache_ok (cache (storage app)) ->
  is_errored (fr_outcome (fetch_and_render app now force)) = false /\
  (forall e, rs_delivery (resolve float_of_str app now force svc later) = FetchError e ->
             rs_fetched (resolve float_of_str app now force svc later) = true) /\
  cache_ok (cache (storage (rs_app (resolve float_of_str app now force svc later)))).
Proof.
  intros Hok.
  destruct (fetch_and_render_not_errored app now force Hok) as [Herr Hok'].
  split; [exact Herr|]. unfold resolve.
  destruct (fr_outcome (fetch_and_render app now force)) as [| | w |] eqn:Ho;
    try discriminate; cbn [rs_delivery rs_fetched rs_app].
  - split; [discriminate | exact Hok'].
  - split; [discriminate | exact Hok'].
  - destruct (run float_of_str w svc) as [geo wx aqi|e'] eqn:Hrun.
    + destruct (run_done_coords _ _ _ _ _ _ Hrun) as [c Hc].
      pose proof (on_fetch_done_cache_ok (fr_app (fetch_and_render app now force))
                    later geo wx aqi c Hc Hok') as Hdone.
      rewrite (on_fetch_done_ok _ _ _ _ _ _ Hc) in Hdone |- *.
      split; [discriminate | exact Hdone].
    + split; [reflexivity | exact Hok'].
Qed.

(** A cache that holds geocode, forecast and air quality of Tehran, 50
    minutes old: the request reads all three and goes to the network. *)
Lemma well_formed_cache_is_kept_witness :
  is_errored (fr_outcome (fetch_and_render
                            (Sample.app_of Sample.warm " Tehran ") 4000 false))
  = false /\
  rs_fetched (resolve Sample.no_float (Sample.app_of Sample.warm " Tehran ")
                4000 false (Sample.service 200) 4001) = true /\
  cache_ok (cache (storage (rs_app
     (resolve Sample.no_float (Sample.app_of Sample.warm " Tehran ")
        4000 false (Sample.service 200) 4001)))).
Proof.
  assert (Hwarm : cache_ok (cache (storage (Sample.app_of Sample.warm " Tehran ")))).
  { apply cache_ok_insert;
      [|apply (entry_ok_geo "tehran" 1000 Sample.tehran "35.6892,51.3890");
        reflexivity].
    apply cache_ok_insert;
      [|apply (entry_ok_w "35.6892,51.3890" "metric" 1000 Sample.payload)].
    apply cache_ok_insert;
      [|apply (entry_ok_a "35.6892,51.3890" 1000 Sample.air)].
    intros key v H. rewrite lookup_empty in H. discriminate. }
  destruct (well_formed_cache_is_kept Sample.no_float
              (Sample.app_of Sample.warm " Tehran ") 4000 false
              (Sample.service 200) 4001 Hwarm) as (H1 & _ & H3).
  split; [exact H1|]. split; [reflexivity | exact H3].
Defined.

(** ** Start-up, refresh and the transport *)

Section FirstLookup.

Implicit Types (app : WeatherApp) (force : bool).

(** A request for a name that is not blank begins with the geocode
    lookup; a blank one makes no lookup. *)
Lemma fetch_and_render_first_lookup app now force :
  PyStr.blank (PyStr.strip (city_edit app)) = false ->
  is_ignored (fr_outcome (fetch_and_render app now force)) = false /\
  exists r rest,
    fr_lookups (fetch_and_render app now force)
      = mkLookup Geocode (geo_key (PyStr.strip (city_edit app))) 1440 r :: rest.
Proof.
  intros Hcity. unfold fetch_and_render. rewrite Hcity.
  cbn [storage with_search_enabled].
  assert (Hleaf : forall log geo wx aqi,
    is_ignored (fr_outcome (hit_or_dispatch (with_search_enabled app false) now log
                  (PyStr.strip (city_edit app))
                  (default "metric" (units (settings (storage app))))
                  geo wx aqi)) = false).
  { intros log geo wx aqi. unfold hit_or_dispatch.
    destruct (Py.truthy wx && _); [|reflexivity].
    now destruct (on_fetch_done _ _ _ _ _) as [[?|?] ?]. }
  destruct (get_cached _ _ (geo_key _) _) as [geo|e]; [|split; [reflexivity | eauto]].
  destruct (Py.truthy geo);
    [|rewrite hit_or_dispatch_lookups; split; [apply Hleaf | eauto]].
  destruct (w_key geo _) as [wk|e]; [|split; [reflexivity | eauto]].
  destruct (get_cached _ _ wk _) as [wx|e]; [|split; [reflexivity | eauto]].
  destruct (default true (show_aqi (settings (storage app))));
    [|rewrite hit_or_dispatch_lookups; split; [apply Hleaf | eauto]].
  destruct (a_key geo) as [ak|e]; [|split; [reflexivity | eauto]].
  destruct (get_cached _ _ ak _) as [aqi|e]; [|split; [reflexivity | eauto]].
  rewrite hit_or_dispatch_lookups. split; [apply Hleaf | eauto].
Qed.

Lemma fetch_and_render_blank app now force :
  PyStr.blank (PyStr.strip (city_edit app)) = true ->
  fetch_and_render app now force
    = {| fr_outcome := Ignored; fr_lookups := []; fr_app := app |}.
Proof. intros Hcity. unfold fetch_and_render. now rewrite Hcity. Qed.

End FirstLookup.

(** Property X18.  When IP detection fails in any way the application
    requests Tehran: the call is not ignored and begins with the geocode
    lookup of "geo::tehran".  An answer without status 200, no answer, and
    an object without a city are failures.  A city of white space only
    counts as found and leaves the application without any request. *)
Theorem ip_detection_fallback (emit_str : json -> option string)
    (app : WeatherApp) (now : Q) (r : response) :
  (* when detection fails *)
  (forall err, ip_run emit_str r = IpFailed err ->
     is_ignored (fr_outcome (detect_ip_and_fetch emit_str app now r)) = false /\
     exists res rest,
       fr_lookups (detect_ip_and_fetch emit_str app now r)
         = mkLookup Geocode "geo::tehran" 1440 res :: rest) /\
  (* what counts as failure *)
  (forall status body, r = Response status body -> status <> 200 ->
     exists err, ip_run emit_str r = IpFailed err) /\
  (r = NoResponse -> exists err, ip_run emit_str r = IpFailed err) /\
  (forall fields,
     r = Response 200 (Some (JObj fields)) -> Py.assoc "city" fields = None ->
     ip_run emit_str r = IpFailed IpNoCity) /\
  (* a city of white space is taken as found, and ignored *)
  (forall city, ip_run emit_str r = IpFound city ->
     PyStr.blank (PyStr.strip city) = true ->
     detect_ip_and_fetch emit_str app now r
       = {| fr_outcome := Ignored; fr_lookups := [];
            fr_app := with_city_edit app city |}).
Proof.
  split; [|split; [|split; [|split]]].
  - intros err Hrun. unfold detect_ip_and_fetch, on_ip_failed. rewrite Hrun.
    apply (fetch_and_render_first_lookup (with_city_edit app "Tehran") now false).
    reflexivity.
  - intros status body -> Hs. unfold ip_run, http_get.
    destruct (Z.eqb_spec status 200); [contradiction|].
    destruct (status =? 404); eauto.
  - intros ->. cbn. eauto.
  - intros fields -> Hnone. unfold ip_run. cbn [http_get Z.eqb Pos.eqb Py.get].
    now rewrite Hnone.
  - intros city Hrun Hblank. unfold detect_ip_and_fetch, on_ip_found. rewrite Hrun.
    now apply fetch_and_render_blank.
Qed.

Lemma ip_detection_fallback_witness :
  (exists res rest,
     fr_lookups (detect_ip_and_fetch Sample2.no_emit (Sample.app_of Sample.cold "")
                   5000 (Response 503 None))
       = mkLookup Geocode "geo::tehran" 1440 res :: rest) /\
  detect_ip_and_fetch Sample2.no_emit (Sample.app_of Sample.cold "") 5000
    (Response 200 (Some (JObj [("city", JStr "  ")])))
    = {| fr_outcome := Ignored; fr_lookups := [];
         fr_app := with_city_edit (Sample.app_of Sample.cold "") "  " |}.
Proof.
  split.
  - apply (proj1 (ip_detection_fallback Sample2.no_emit (Sample.app_of Sample.cold "")
                    5000 (Response 503 None))
             (IpRaised (ServiceError 503 (JStr "")))).
    reflexivity.
  - apply (proj2 (proj2 (proj2 (proj2
             (ip_detection_fallback Sample2.no_emit (Sample.app_of Sample.cold "") 5000
                (Response 200 (Some (JObj [("city", JStr "  ")]))))))) "  ");
      reflexivity.
Defined.

(** Property X19.  [refresh_current] does nothing without a current
    city; otherwise it requests the text of the search box (not the current
    city) with the forecast lookup at ttl 0, and is ignored when that text
    is blank. *)
Theorem refresh_current_uses_search_box (app : WeatherApp) (now : Q) :
  (PyStr.blank (current_city app) = true -> refresh_current app now = None) /\
  (PyStr.blank (current_city app) = false ->
   exists f,
     refresh_current app now = Some f /\
     Forall (fun lk : lookup =>
               lk_category lk = Geocode ->
               lk_key lk = geo_key (PyStr.strip (city_edit app)))
            (fr_lookups f) /\
     Forall (fun lk : lookup => lk_category lk = Forecast -> lk_ttl lk = 0)
            (fr_lookups f) /\
     (PyStr.blank (PyStr.strip (city_edit app)) = true -> fr_outcome f = Ignored)).
Proof.
  unfold refresh_current. split; [now intros ->|]. intros ->.
  eexists. split; [reflexivity|]. split; [|split].
  - apply fetch_and_render_geo_key.
  - eapply Forall_impl; [apply fetch_and_render_ttls|].
    intros lk Hlk Hcat. cbv beta in Hlk. now rewrite Hlk, Hcat.
  - intros Hb. now rewrite (fetch_and_render_blank _ _ _ Hb).
Qed.

Lemma refresh_current_uses_search_box_witness :
  refresh_current (Sample.app_of Sample.cold "Tehran") 5000 = None /\
  exists f, refresh_current (Sample2.viewing "Qom") 5000 = Some f.
Proof.
  split.
  - apply (proj1 (refresh_current_uses_search_box (Sample.app_of Sample.cold "Tehran") 5000)).
    reflexivity.
  - destruct (proj2 (refresh_current_uses_search_box (Sample2.viewing "Qom") 5000) eq_refl)
      as (f & Hf & _).
    exists f. exact Hf.
Defined.

(** Property X20.  A call of [fetch_and_render] that does not take the
    cache-hit branch leaves the storage, the current city and the current
    forecast as they were. *)
Theorem fetch_and_render_writes_only_on_hit (app : WeatherApp) (now : Q)
    (force : bool) :
  is_hit (fr_outcome (fetch_and_render app now force)) = false ->
  storage (fr_app (fetch_and_render app now force)) = storage app /\
  current_city (fr_app (fetch_and_render app now force)) = current_city app /\
  current_weather (fr_app (fetch_and_render app now force)) = current_weather app.
Proof.
  unfold fetch_and_render.
  destruct (PyStr.blank _); [now repeat split|].
  cbn [storage with_search_enabled].
  assert (Hleaf : forall log geo wx aqi,
    (exists c, coords geo = Returns c) \/ Py.truthy wx = false ->
    let f := hit_or_dispatch (with_search_enabled app false) now log
               (PyStr.strip (city_edit app))
               (default "metric" (units (settings (storage app)))) geo wx aqi in
    is_hit (fr_outcome f) = false ->
    storage (fr_app f) = storage app /\
    current_city (fr_app f) = current_city app /\
    current_weather (fr_app f) = current_weather app).
  { intros log geo wx aqi H. cbv zeta.
    destruct (Py.truthy wx && (Py.truthy aqi
                || negb (default true (show_aqi (settings
                     (storage (with_search_enabled app false))))))) eqn:Hcond.
    - destruct H as [[c Hc] | Hwx]; [|now rewrite Hwx in Hcond].
      rewrite (hit_or_dispatch_hit _ _ _ _ _ _ _ _ _ Hc Hcond). discriminate.
    - rewrite (hit_or_dispatch_miss _ _ _ _ _ _ _ _ Hcond). now repeat split. }
  destruct (get_cached _ _ (geo_key _) _) as [geo|e]; [|now repeat split].
  destruct (Py.truthy geo); [|apply Hleaf; now right].
  destruct (w_key geo _) as [wk|e] eqn:Hwk; [|now repeat split].
  apply w_key_coords in Hwk as (c & Hc & ->).
  destruct (get_cached _ _ ("wx::" +:+ _) _) as [wx|e]; [|now repeat split].
  destruct (default true (show_aqi (settings (storage app))));
    [|apply Hleaf; eauto].
  destruct (a_key geo) as [ak|e]; [|now repeat split].
  destruct (get_cached _ _ ak _) as [aqi|e]; [apply Hleaf; eauto | now repeat split].
Qed.

Lemma fetch_and_render_writes_only_on_hit_witness :
  storage (fr_app (fetch_and_render (Sample.app_of Sample.warm " Tehran ") 5000 false))
    = Sample.warm.
Proof.
  apply (fetch_and_render_writes_only_on_hit (Sample.app_of Sample.warm " Tehran ")
           5000 false).
  reflexivity.
Defined.
